(** * ChromeRecovery: extraction pipeline and renderers of [recover.py]

    A shallow embedding of [src/Resources/recover.py].  The file system is a
    finite map from paths to files, exceptions are values of a sum type, and
    the external readers (the JSON parser, the SQLite engine, the vendored
    SNSS decoder) are represented by what they produce on a given file. *)

From Stdlib Require Import ZArith Lia Ascii DecimalString.
From stdpp Require Import base option list gmap strings.

Local Open Scope Z_scope.

(** ** Exceptions and fallible computations *)

Inductive exn : Type :=
| JSONDecodeError
| AttributeError
| TypeError
| OverflowError
| OSError
| DatabaseError
| OperationalError
| SnssDecodeError.

Inductive result (A : Type) : Type :=
| Ok (a : A)
| Raise (e : exn).

Arguments Ok {A} a.
Arguments Raise {A} e.

#[global] Instance result_ret : MRet result := fun A a => Ok a.

#[global] Instance result_bind : MBind result := fun A B k m =>
  match m with
  | Ok a => k a
  | Raise e => Raise e
  end.

(** ** Strings *)

(** The double-quote character, and a string made of it. *)
Definition dquote : ascii := "034"%char.
Definition dq : string := String dquote "".

(** Python's [sep.join(parts)]. *)
Fixpoint join (sep : string) (parts : list string) : string :=
  match parts with
  | [] => ""
  | [p] => p
  | p :: rest => p +:+ sep +:+ join sep rest
  end.

(** Python's [s * n] on strings. *)
Fixpoint repeat_str (s : string) (n : nat) : string :=
  match n with
  | O => ""
  | S n' => s +:+ repeat_str s n'
  end.

(** Python's [s.startswith(p)]. *)
Fixpoint startswith (p s : string) : bool :=
  match p, s with
  | EmptyString, _ => true
  | String a p', String b s' => if decide (a = b) then startswith p' s' else false
  | String _ _, EmptyString => false
  end.

(** [str(n)] for a non-negative integer. *)
Definition str_nat (n : nat) : string :=
  NilZero.string_of_uint (Nat.to_uint n).

(** Truthiness of a string, and [x or ""] where [x] is a string or [None]. *)
Definition truthy (s : string) : bool :=
  match s with
  | EmptyString => false
  | String _ _ => true
  end.

Definition or_empty (x : option string) : string := default "" x.

(** [str(x)] where [x] is a string or [None]. *)
Definition str_opt (x : option string) : string := default "None" x.

(** Number of occurrences of a character in a string. *)
Fixpoint occ (c : ascii) (s : string) : nat :=
  match s with
  | EmptyString => O
  | String a s' => (if decide (a = c) then 1 else 0)%nat + occ c s'
  end.

(** ** [html.escape] *)

Definition escape_char (c : ascii) : string :=
  if decide (c = "&"%char) then "&amp;"
  else if decide (c = "<"%char) then "&lt;"
  else if decide (c = ">"%char) then "&gt;"
  else if decide (c = dquote) then "&quot;"
  else if decide (c = "'"%char) then "&#x27;"
  else String c "".

Fixpoint html_escape (s : string) : string :=
  match s with
  | EmptyString => ""
  | String c s' => escape_char c +:+ html_escape s'
  end.

(** [esc(text)]: the callers pass strings (or [None], see [str_opt]). *)
Definition esc (text : string) : string := html_escape text.

(** The five entities [html.escape] produces. *)
Definition entities : list string :=
  ["&amp;"; "&lt;"; "&gt;"; "&quot;"; "&#x27;"].

(** Every ampersand of [s] starts one of the five entities. *)
Fixpoint amp_ok (s : string) : bool :=
  match s with
  | EmptyString => true
  | String c s' =>
      (if decide (c = "&"%char)
       then existsb (fun e => startswith e s) entities
       else true) && amp_ok s'
  end.

(** ** Paths and the file system *)

Definition path : Type := list string.

(** [p / name] of [pathlib]. *)
Definition pjoin (p : path) (name : string) : path := p ++ [name].
Infix "//" := pjoin (at level 40, left associativity).

(** The components between the slashes, the empty ones left out. *)
Fixpoint split_slash (acc : string) (s : string) : list string :=
  match s with
  | EmptyString => if truthy acc then [acc] else []
  | String c s' =>
      if decide (c = "/"%char)
      then (if truthy acc then [acc] else []) ++ split_slash "" s'
      else split_slash (acc +:+ String c "") s'
  end.

(** [pathlib.Path(folder)]: repeated and trailing slashes and the
    components ["."] are dropped, a component [".."] is kept (the folder
    picker returns an absolute POSIX path). *)
Definition Path (folder : string) : path :=
  List.filter (fun component => negb (String.eqb component "."))
    (split_slash "" folder).

(** *** Bookmarks: the parsed JSON document *)

(** A bookmark node: a JSON object with the optional keys [type], [name],
    [url] and [children], holding what the browser writes there: strings,
    and a list of nodes.  A key that is missing is [None].  The type holds
    the trees of this shape only: a [children] that is not a list, a child
    that is not an object and a name or URL that is not a string (on which
    the walks raise) are outside it, and so are outside every statement on
    bookmark trees below. *)
#[local] Unset Elimination Schemes.
Inductive node : Type :=
| Node (type name url : option string) (children : option (list node)).
#[local] Set Elimination Schemes.

(** A value under ["roots"]: a node, or a scalar such as the string stored
    under ["sync_transaction_version"]. *)
Inductive root_value : Type :=
| RNode (n : node)
| RScalar (s : string).

(** The mapping under ["roots"], in the order of the document (the order in
    which [dict.items()] iterates). *)
Definition roots_map : Type := list (string * root_value).

(** What [json.load] returns on a valid document: an object, with or without
    a ["roots"] key, or some other JSON value. *)
Inductive json_doc : Type :=
| JObject (roots : option roots_map)
| JOther.

(** *** History: the SQLite store *)

Inductive sql_value : Type :=
| SqlNull
| SqlInt (z : Z)
| SqlText (s : string).

(** A row of [SELECT url, title, last_visit_time FROM urls]. *)
Definition urls_row : Type := (string * option string * sql_value)%type.

(** A store: whether [sqlite3.connect] raises, and what the query
    [ORDER BY last_visit_time DESC LIMIT ?] yields for a limit. *)
Record sqlite_db : Type := {
  db_connect : option exn;
  db_select : Z -> result (list urls_row);
}.

(** *** Session snapshots: the SNSS decoder *)

Inductive SnssFileType : Type := Session | Tab.

(** An item the decoder yields: a [NavigationEntry] or another command. *)
Inductive snss_item : Type :=
| NavigationEntry (url : string) (title : option string)
| OtherCommand.

(** Iterating a snapshot yields items and then stops, normally or with an
    exception. *)
Record snss_stream : Type := {
  yielded : list snss_item;
  failure : option exn;
}.

(** *** Files *)

Inductive file : Type :=
| Dir
| Opaque
| Document (text : string)
| JsonFile (doc : json_doc)
| SqliteFile (db : sqlite_db)
| SnssFile (decode : SnssFileType -> snss_stream).

Abbreviation fsys := (gmap (list string) file).

(** [p.exists()] *)
Definition exists_ (fs : fsys) (p : path) : bool := bool_decide (is_Some (fs !! p)).

(** ** Validation *)

Definition EXPECTED_FILES : list string := ["Bookmarks"; "History"].
Definition SESSION_FILES : list string :=
  ["Current Session"; "Current Tabs"; "Last Session"; "Last Tabs"].

Definition validate_profile (fs : fsys) (profile_path : path) : bool * list string :=
  let missing := filter (fun f => exists_ fs (profile_path // f) = false) EXPECTED_FILES in
  (bool_decide (length missing = 0%nat), missing).

(** ** Bookmarks extraction *)

(** [open] and [json.load] on the file: a directory cannot be opened, and
    bytes that are not a JSON text are refused ([JSONDecodeError] stands for
    every refusal of the decoder). *)
Definition json_load (f : file) : result json_doc :=
  match f with
  | JsonFile doc => Ok doc
  | Dir => Raise OSError
  | _ => Raise JSONDecodeError
  end.

Definition extract_bookmarks (fs : fsys) (profile_path : path)
  : result (option roots_map) :=
  let bookmarks_file := profile_path // "Bookmarks" in
  match fs !! bookmarks_file with
  | None => Ok None
  | Some f =>
      data ← json_load f;
      match data with
      | JObject roots => Ok (Some (default [] roots))
      | JOther => Raise AttributeError
      end
  end.

(** A record yielded by [walk_bookmarks]: (depth, type, name, url). *)
Definition walk_record : Type := (nat * string * string * option string)%type.

Fixpoint walk_bookmarks (n : node) (depth : nat) : list walk_record :=
  match n with
  | Node type name url children =>
      if decide (type = Some "folder") then
        (depth, "folder", default "Untitled" name, None)
          :: match children with
             | Some cs => flat_map (fun child => walk_bookmarks child (S depth)) cs
             | None => []
             end
      else if decide (type = Some "url") then
        [(depth, "url", default "Untitled" name, Some (default "" url))]
      else []
  end.

(** ** History extraction *)

(** *** [datetime] arithmetic, after the reference implementation of the
    standard library (proleptic Gregorian ordinals, day 1 = 0001-01-01). *)

Definition _MAXORDINAL : Z := 3652059.
Definition _DI400Y : Z := 146097.
Definition _DI100Y : Z := 36524.
Definition _DI4Y : Z := 1461.

Definition _DAYS_IN_MONTH : list Z :=
  [-1; 31; 28; 31; 30; 31; 30; 31; 31; 30; 31; 30; 31].
Definition _DAYS_BEFORE_MONTH : list Z :=
  [-1; 0; 31; 59; 90; 120; 151; 181; 212; 243; 273; 304; 334].

Definition index (l : list Z) (i : Z) : Z := default 0 (l !! Z.to_nat i).

Definition _is_leap (year : Z) : bool :=
  (year mod 4 =? 0) && (negb (year mod 100 =? 0) || (year mod 400 =? 0)).

Definition _days_before_year (year : Z) : Z :=
  let y := year - 1 in
  y * 365 + y / 4 - y / 100 + y / 400.

Definition _days_in_month (year month : Z) : Z :=
  if (month =? 2) && _is_leap year then 29 else index _DAYS_IN_MONTH month.

Definition _days_before_month (year month : Z) : Z :=
  index _DAYS_BEFORE_MONTH month
  + (if (2 <? month) && _is_leap year then 1 else 0).

Definition _ymd2ord (year month day : Z) : Z :=
  _days_before_year year + _days_before_month year month + day.

Definition _ord2ymd (n : Z) : Z * Z * Z :=
  let n := n - 1 in
  let n400 := n / _DI400Y in
  let n := n mod _DI400Y in
  let year := n400 * 400 + 1 in
  let n100 := n / _DI100Y in
  let n := n mod _DI100Y in
  let n4 := n / _DI4Y in
  let n := n mod _DI4Y in
  let n1 := n / 365 in
  let n := n mod 365 in
  let year := year + n100 * 100 + n4 * 4 + n1 in
  if (n1 =? 4) || (n100 =? 4) then (year - 1, 12, 31)
  else
    let leapyear := (n1 =? 3) && (negb (n4 =? 24) || (n100 =? 3)) in
    let month := Z.shiftr (n + 50) 5 in
    let preceding :=
      index _DAYS_BEFORE_MONTH month
      + (if (2 <? month) && leapyear then 1 else 0) in
    if n <? preceding then
      let month := month - 1 in
      let preceding :=
        preceding
        - (index _DAYS_IN_MONTH month
           + (if (month =? 2) && leapyear then 1 else 0)) in
      (year, month, n - preceding + 1)
    else (year, month, n - preceding + 1).

Record datetime : Type := {
  dt_year : Z; dt_month : Z; dt_day : Z;
  dt_hour : Z; dt_minute : Z; dt_second : Z; dt_microsecond : Z;
}.

(** A normalised [timedelta]: days, seconds in [0, 86400), microseconds in
    [0, 10^6). *)
Record timedelta : Type := {
  td_days : Z; td_seconds : Z; td_microseconds : Z;
}.

(** The constructor of [timedelta]: carries into the larger units and
    refuses more than 999999999 days either way. *)
Definition mk_timedelta (days seconds microseconds : Z) : result timedelta :=
  let s := seconds + microseconds / 1000000 in
  let us := microseconds mod 1000000 in
  let d := days + s / 86400 in
  let s := s mod 86400 in
  if 999999999 <? Z.abs d then Raise OverflowError
  else Ok {| td_days := d; td_seconds := s; td_microseconds := us |}.

(** [datetime.timedelta(microseconds=timestamp)] on a value read from the
    store: [None] and text are refused with a [TypeError]. *)
Definition timedelta_microseconds (timestamp : sql_value) : result timedelta :=
  match timestamp with
  | SqlInt us => mk_timedelta 0 0 us
  | SqlNull => Raise TypeError
  | SqlText _ => Raise TypeError
  end.

Definition toordinal (d : datetime) : Z :=
  _ymd2ord (dt_year d) (dt_month d) (dt_day d).

(** [datetime.__add__]. *)
Definition datetime_add (self : datetime) (other : timedelta) : result datetime :=
  delta ← mk_timedelta (toordinal self + td_days other)
            (dt_hour self * 3600 + dt_minute self * 60 + dt_second self
             + td_seconds other)
            (dt_microsecond self + td_microseconds other);
  let hour := td_seconds delta / 3600 in
  let rem := td_seconds delta mod 3600 in
  let minute := rem / 60 in
  let second := rem mod 60 in
  if (0 <? td_days delta) && (td_days delta <=? _MAXORDINAL) then
    let '(y, m, d) := _ord2ymd (td_days delta) in
    Ok {| dt_year := y; dt_month := m; dt_day := d;
          dt_hour := hour; dt_minute := minute; dt_second := second;
          dt_microsecond := td_microseconds delta |}
  else Raise OverflowError.

(** Decimal digits of a non-negative integer, zero-filled to a width. *)
Definition str_Z (z : Z) : string := NilZero.string_of_uint (N.to_uint (Z.to_N z)).

Definition zfill (width : nat) (s : string) : string :=
  repeat_str "0" (width - String.length s) +:+ s.

(** [dt.strftime("%Y-%m-%d %H:%M:%S")].  The year is written on four
    digits, as the C library of macOS does (the program drives [osascript]
    and Finder, it runs there); the C library of Linux writes a year below
    1000 without the leading zeros. *)
Definition strftime (dt : datetime) : string :=
  zfill 4 (str_Z (dt_year dt)) +:+ "-" +:+ zfill 2 (str_Z (dt_month dt))
  +:+ "-" +:+ zfill 2 (str_Z (dt_day dt)) +:+ " "
  +:+ zfill 2 (str_Z (dt_hour dt)) +:+ ":" +:+ zfill 2 (str_Z (dt_minute dt))
  +:+ ":" +:+ zfill 2 (str_Z (dt_second dt)).

Definition CHROME_EPOCH : datetime :=
  {| dt_year := 1601; dt_month := 1; dt_day := 1;
     dt_hour := 0; dt_minute := 0; dt_second := 0; dt_microsecond := 0 |}.

(** The body of the [try] of the conversion loop. *)
Definition chrome_time (timestamp : sql_value) : result datetime :=
  td ← timedelta_microseconds timestamp;
  datetime_add CHROME_EPOCH td.

(** A history entry: (url, title, last_visit_time_str). *)
Definition history_entry : Type := (string * string * string)%type.

(** One turn of the conversion loop. *)
Definition convert_row (row : urls_row) : history_entry :=
  let '(url, title, timestamp) := row in
  let time_str :=
    match chrome_time timestamp with
    | Ok dt => strftime dt
    | Raise _ => "Unknown"
    end in
  (url, or_empty title, time_str).

(** *** The copy, the query and the cleanup *)

Definition tmp_path : path := ["tmp"; "chrome_recovery_history_copy"].

(** The last component of a path. *)
Definition basename (p : path) : string := default "" (last p).

(** [shutil.copy2(src, dst)]: into [dst] when it is a directory, onto it
    otherwise. *)
Definition copy2 (fs : fsys) (src dst : path) : result fsys :=
  match fs !! src with
  | None => Raise OSError
  | Some Dir => Raise OSError
  | Some f =>
      match fs !! dst with
      | Some Dir => Ok (<[dst // basename src := f]> fs)
      | _ => Ok (<[dst := f]> fs)
      end
  end.

(** [sqlite3.connect(p)], the query and [fetchall] on the file at [p]:
    a directory cannot be opened, an empty file is an empty database, in
    which the query finds no table [urls] (an [OperationalError] both
    times), and other bytes that are not a store are refused by the engine
    (a [DatabaseError]). *)
Definition sqlite_rows (fs : fsys) (p : path) (limit : Z) : result (list urls_row) :=
  match fs !! p with
  | Some (SqliteFile db) =>
      match db_connect db with
      | Some e => Raise e
      | None => db_select db limit
      end
  | Some Dir => Raise OperationalError
  | Some (Document EmptyString) => Raise OperationalError
  | Some _ => Raise DatabaseError
  | None => Raise OperationalError
  end.

(** What stands for the engine in [extract_history]: connecting to the file
    at a path of a file system, the query with its limit, and [fetchall]. *)
Definition engine : Type := fsys -> path -> Z -> result (list urls_row).

(** [p.unlink(missing_ok=True)]. *)
Definition unlink_missing_ok (fs : fsys) (p : path) : result fsys :=
  match fs !! p with
  | Some Dir => Raise OSError
  | _ => Ok (delete p fs)
  end.

(** [extract_history] over an engine [query]: the file system it leaves and
    what it returns or raises. *)
Definition extract_history_with (query : engine)
    (fs : fsys) (profile_path : path) (limit : Z)
  : fsys * result (option (list history_entry)) :=
  let history_file := profile_path // "History" in
  if negb (exists_ fs history_file) then (fs, Ok None)
  else
    match copy2 fs history_file tmp_path with
    | Raise e => (fs, Raise e)
    | Ok fs1 =>
        (* try *)
        let body := query fs1 tmp_path limit in
        (* finally *)
        match unlink_missing_ok fs1 tmp_path with
        | Raise e => (fs1, Raise e)
        | Ok fs2 =>
            match body with
            | Raise e => (fs2, Raise e)
            | Ok rows => (fs2, Ok (Some (map convert_row rows)))
            end
        end
    end.

(** [extract_history], with the SQLite engine. *)
Definition extract_history (fs : fsys) (profile_path : path) (limit : Z)
  : fsys * result (option (list history_entry)) :=
  extract_history_with sqlite_rows fs profile_path limit.

Definition default_limit : Z := 5000.

(** ** Tabs extraction *)

Definition tab_entry : Type := (string * string)%type.

Definition session_files : list (string * SnssFileType) :=
  [("Current Session", Session); ("Last Session", Session);
   ("Current Tabs", Tab); ("Last Tabs", Tab)].

(** [SnssFile(file_type, f)] and its iteration, on an opened file. *)
Definition snss_read (f : file) (file_type : SnssFileType) : snss_stream :=
  match f with
  | SnssFile decode => decode file_type
  | Dir => {| yielded := []; failure := Some OSError |}
  | _ => {| yielded := []; failure := Some SnssDecodeError |}
  end.

(** The loop state: [tabs] and [seen_urls]. *)
Definition tabs_state : Type := (list tab_entry * gset string)%type.

(** The body of [for entry in snss]. *)
Definition visit_entry (st : tabs_state) (entry : snss_item) : tabs_state :=
  let '(tabs, seen_urls) := st in
  match entry with
  | NavigationEntry url title =>
      let title := or_empty title in
      if truthy url && bool_decide (url ∉ seen_urls)
         && negb (startswith "chrome://" url)
      then (tabs ++ [(url, title)], {[url]} ∪ seen_urls)
      else st
  | OtherCommand => st
  end.

(** The body of [for filename, file_type in session_files]: the entries
    yielded before a failure are visited, the failure itself is printed and
    the loop goes on. *)
Definition visit_file (fs : fsys) (profile_path : path)
    (st : tabs_state) (candidate : string * SnssFileType) : tabs_state :=
  let '(filename, file_type) := candidate in
  match fs !! (profile_path // filename) with
  | None => st
  | Some f => foldl visit_entry st (yielded (snss_read f file_type))
  end.

(** [extract_tabs]; [importable] tells whether the vendored reader can be
    imported. *)
Definition extract_tabs (importable : bool) (fs : fsys) (profile_path : path)
  : option (list tab_entry) :=
  if negb importable then None
  else
    let '(tabs, _) := foldl (visit_file fs profile_path) ([], ∅) session_files in
    match tabs with
    | [] => None
    | _ => Some tabs
    end.

(** ** HTML dashboard output *)

Definition dashboard_head : string :=
  "<!DOCTYPE html>
<html lang=" +:+ dq +:+ "en" +:+ dq +:+ ">
<head>
<meta charset=" +:+ dq +:+ "UTF-8" +:+ dq +:+ ">
<meta name=" +:+ dq +:+ "viewport" +:+ dq +:+ " content=" +:+ dq +:+ "width=device-width, initial-scale=1.0" +:+ dq +:+ ">
<title>Chrome Recovery</title>
<style>
  * { box-sizing: border-box; margin: 0; padding: 0; }
  body {
    font-family: -apple-system, BlinkMacSystemFont, " +:+ dq +:+ "Segoe UI" +:+ dq +:+ ", Roboto, sans-serif;
    max-width: 900px; margin: 40px auto; padding: 0 20px;
    color: #333; background: #fafafa;
  }
  h1 { font-size: 28px; margin-bottom: 8px; }
  .subtitle { color: #888; margin-bottom: 32px; }
  h2 { font-size: 20px; margin: 32px 0 16px; padding-bottom: 8px; border-bottom: 2px solid #ddd; }
  .tab-list, .history-list { list-style: none; }
  .tab-list li, .history-list li {
    padding: 8px 0; border-bottom: 1px solid #eee;
  }
  .tab-list a, .history-list a, .bookmark-link {
    color: #1a73e8; text-decoration: none;
  }
  .tab-list a:hover, .history-list a:hover, .bookmark-link:hover {
    text-decoration: underline;
  }
  .url-display { color: #888; font-size: 12px; display: block; overflow: hidden; text-overflow: ellipsis; white-space: nowrap; }
  .timestamp { color: #888; font-size: 12px; margin-left: 8px; }
  .folder { font-weight: 600; margin-top: 12px; padding: 4px 0; }
  .bookmark-item { padding: 3px 0; }
  .indent-1 { padding-left: 20px; }
  .indent-2 { padding-left: 40px; }
  .indent-3 { padding-left: 60px; }
  .indent-4 { padding-left: 80px; }
  .indent-5 { padding-left: 100px; }
  .section-count { color: #888; font-weight: normal; font-size: 14px; }
  .empty-note { color: #999; font-style: italic; padding: 12px 0; }
  nav { margin-bottom: 24px; }
  nav a { margin-right: 16px; color: #1a73e8; text-decoration: none; font-weight: 500; }
  nav a:hover { text-decoration: underline; }
</style>
</head>
<body>
<h1>Chrome Recovery</h1>
<p class=" +:+ dq +:+ "subtitle" +:+ dq +:+ ">Recovered from Chrome profile data</p>
<nav>".

Definition nav_tabs : string := ("<a href=" +:+ dq +:+ "#tabs" +:+ dq +:+ ">Open Tabs</a>").
Definition nav_bookmarks : string := ("<a href=" +:+ dq +:+ "#bookmarks" +:+ dq +:+ ">Bookmarks</a>").
Definition nav_history : string := ("<a href=" +:+ dq +:+ "#history" +:+ dq +:+ ">History</a>").

(** The navigation links, between [<nav>] and [</nav>]. *)
Definition nav_links {A B : Type} (tabs : option A) (history : option B) : list string :=
  (if tabs is Some _ then [nav_tabs] else [])
  ++ [nav_bookmarks]
  ++ (if history is Some _ then [nav_history] else []).

Definition tabs_unrecovered : string :=
  ("<p class=" +:+ dq +:+ "empty-note" +:+ dq +:+ ">Could not recover open tabs from session files.</p>").
Definition tabs_none_found : string :=
  ("<p class=" +:+ dq +:+ "empty-note" +:+ dq +:+ ">No open tabs found.</p>").
Definition bookmarks_none_found : string :=
  ("<p class=" +:+ dq +:+ "empty-note" +:+ dq +:+ ">No bookmarks found.</p>").
Definition bookmarks_heading : string :=
  "<h2 id=" +:+ dq +:+ "bookmarks" +:+ dq +:+ ">Bookmarks</h2>".
Definition history_unrecovered : string :=
  ("<p class=" +:+ dq +:+ "empty-note" +:+ dq +:+ ">Could not recover browsing history.</p>").
Definition history_none_found : string :=
  ("<p class=" +:+ dq +:+ "empty-note" +:+ dq +:+ ">No history entries found.</p>").

Definition tab_item (t : tab_entry) : string :=
  let '(url, title) := t in
  let display_title := if truthy title then esc title else esc url in
  ("<li><a href=" +:+ dq) +:+ esc url +:+ (dq +:+ ">") +:+ display_title +:+ "</a>"
  +:+ ("<span class=" +:+ dq +:+ "url-display" +:+ dq +:+ ">") +:+ esc url +:+ "</span></li>".

Definition tabs_section (tabs : option (list tab_entry)) : list string :=
  match tabs with
  | Some tabs =>
      [("<h2 id=" +:+ dq +:+ "tabs" +:+ dq +:+ ">Open Tabs <span class=" +:+ dq +:+ "section-count" +:+ dq +:+ ">(")
       +:+ str_nat (length tabs) +:+ ")</span></h2>"]
      ++ match tabs with
         | _ :: _ => [("<ul class=" +:+ dq +:+ "tab-list" +:+ dq +:+ ">")] ++ map tab_item tabs ++ ["</ul>"]
         | [] => [tabs_none_found]
         end
  | None => [("<h2 id=" +:+ dq +:+ "tabs" +:+ dq +:+ ">Open Tabs</h2>"); tabs_unrecovered]
  end.

(** The body of [for depth, node_type, name, url in walk_bookmarks(root_node)]:
    the line appended to [bookmark_parts]. *)
Definition bookmark_line (r : walk_record) : string :=
  let '(depth, node_type, name, url) := r in
  let indent := Nat.min depth 5 in
  if decide (node_type = "folder") then
    ("<div class=" +:+ dq +:+ "folder indent-") +:+ str_nat indent +:+ (dq +:+ ">") +:+ esc name +:+ "</div>"
  else
    ("<div class=" +:+ dq +:+ "bookmark-item indent-") +:+ str_nat indent +:+ (dq +:+ ">")
    +:+ ("<a class=" +:+ dq +:+ "bookmark-link" +:+ dq +:+ " href=" +:+ dq) +:+ esc (str_opt url) +:+ (dq +:+ ">")
    +:+ esc name +:+ "</a></div>".

(** What the same loop adds to [bookmark_count]. *)
Definition bookmark_incr (r : walk_record) : nat :=
  let '(_, node_type, _, _) := r in
  if decide (node_type = "folder") then 0%nat else 1%nat.

(** [root_name in ("synced", "sync_transaction_version")] *)
Definition internal_root (root_name : string) : bool :=
  bool_decide (root_name = "synced")
  || bool_decide (root_name = "sync_transaction_version").

(** [walk_bookmarks(root_node)] on a value of the roots mapping: a value that
    is not an object has no [get]. *)
Definition walk_root (v : root_value) : result (list walk_record) :=
  match v with
  | RNode n => Ok (walk_bookmarks n 0)
  | RScalar _ => Raise AttributeError
  end.

(** The loop over [bookmarks_roots.items()]: the records walked, in order. *)
Fixpoint walk_roots (roots : roots_map) : result (list walk_record) :=
  match roots with
  | [] => Ok []
  | (root_name, root_node) :: rest =>
      if internal_root root_name then walk_roots rest
      else
        rs ← walk_root root_node;
        more ← walk_roots rest;
        Ok (rs ++ more)
  end.

(** Truthiness of [bookmarks_roots]: [None] and the empty mapping are false. *)
Definition roots_truthy (bookmarks_roots : option roots_map) : bool :=
  match bookmarks_roots with
  | Some (_ :: _) => true
  | _ => false
  end.

Definition bookmarks_section (bookmarks_roots : option roots_map)
  : result (list string) :=
  match bookmarks_roots with
  | Some ((_ :: _) as roots) =>
      rs ← walk_roots roots;
      let bookmark_count := list_sum (map bookmark_incr rs) in
      let bookmark_parts := map bookmark_line rs in
      Ok ([bookmarks_heading;
           ("<p class=" +:+ dq +:+ "section-count" +:+ dq +:+ ">") +:+ str_nat bookmark_count +:+ " bookmarks</p>"]
          ++ bookmark_parts)
  | _ => Ok [bookmarks_heading; bookmarks_none_found]
  end.

Definition history_item (h : history_entry) : string :=
  let '(url, title, time_str) := h in
  let display_title := if truthy title then esc title else esc url in
  ("<li><a href=" +:+ dq) +:+ esc url +:+ (dq +:+ ">") +:+ display_title +:+ "</a>"
  +:+ ("<span class=" +:+ dq +:+ "timestamp" +:+ dq +:+ ">") +:+ esc time_str +:+ "</span>"
  +:+ ("<span class=" +:+ dq +:+ "url-display" +:+ dq +:+ ">") +:+ esc url +:+ "</span></li>".

Definition history_section (history : option (list history_entry)) : list string :=
  match history with
  | Some history =>
      [("<h2 id=" +:+ dq +:+ "history" +:+ dq +:+ ">Browsing History <span class=" +:+ dq +:+ "section-count" +:+ dq +:+ ">(")
       +:+ str_nat (length history) +:+ ")</span></h2>"]
      ++ match history with
         | _ :: _ => [("<ul class=" +:+ dq +:+ "history-list" +:+ dq +:+ ">")] ++ map history_item history ++ ["</ul>"]
         | [] => [history_none_found]
         end
  | None => [("<h2 id=" +:+ dq +:+ "history" +:+ dq +:+ ">Browsing History</h2>"); history_unrecovered]
  end.

(** The list [parts] at the end of [generate_dashboard]. *)
Definition dashboard_parts (tabs : option (list tab_entry))
    (bookmarks_roots : option roots_map)
    (history : option (list history_entry)) : result (list string) :=
  bm ← bookmarks_section bookmarks_roots;
  Ok ([dashboard_head]
      ++ nav_links tabs history
      ++ ["</nav>"]
      ++ tabs_section tabs
      ++ bm
      ++ history_section history
      ++ ["</body></html>"]).

Definition newline : string := String "010"%char "".

(** The directory a path lies in. *)
Definition parent (p : path) : path := removelast p.

(** [p.is_dir()]; the root is a directory. *)
Definition is_dir (fs : fsys) (p : path) : bool :=
  match fs !! p with
  | Some Dir => true
  | Some _ => false
  | None => bool_decide (p = [])
  end.

(** [open(output_path, "w")] and [f.write]: a directory cannot be opened
    for writing, and a file is created in a directory only ([OSError] stands
    for [IsADirectoryError], [NotADirectoryError] and [FileNotFoundError]);
    a file that is there is replaced. *)
Definition write_text (fs : fsys) (output_path : path) (text : string)
  : result fsys :=
  match fs !! output_path with
  | Some Dir => Raise OSError
  | _ =>
      if is_dir fs (parent output_path)
      then Ok (<[output_path := Document text]> fs)
      else Raise OSError
  end.

Definition generate_dashboard (tabs : option (list tab_entry))
    (bookmarks_roots : option roots_map)
    (history : option (list history_entry))
    (output_path : path) (fs : fsys) : result fsys :=
  parts ← dashboard_parts tabs bookmarks_roots history;
  write_text fs output_path (join newline parts).

(** ** Netscape bookmarks export *)

(** [_write_netscape_node]: the list [parts] after the call. *)
Fixpoint _write_netscape_node (n : node) (parts : list string) (indent : nat)
  : list string :=
  let prefix := repeat_str "    " indent in
  match n with
  | Node type name url children =>
      if decide (type = Some "folder") then
        let parts :=
          parts ++ [prefix +:+ "<DT><H3>" +:+ esc (default "Untitled" name) +:+ "</H3>"] in
        let parts := parts ++ [prefix +:+ "<DL><p>"] in
        let parts :=
          match children with
          | Some cs =>
              fold_left (fun parts child => _write_netscape_node child parts (S indent))
                cs parts
          | None => parts
          end in
        parts ++ [prefix +:+ "</DL><p>"]
      else if decide (type = Some "url") then
        let url := default "" url in
        let name := default "Untitled" name in
        parts ++ [prefix +:+ ("<DT><A HREF=" +:+ dq) +:+ esc url +:+ (dq +:+ ">") +:+ esc name +:+ "</A>"]
      else parts
  end.

Definition write_netscape_root (v : root_value) (parts : list string)
  : result (list string) :=
  match v with
  | RNode n => Ok (_write_netscape_node n parts 1)
  | RScalar _ => Raise AttributeError
  end.

(** The loop over [bookmarks_roots.items()] of the exporter. *)
Fixpoint netscape_roots (roots : roots_map) (parts : list string)
  : result (list string) :=
  match roots with
  | [] => Ok parts
  | (root_name, root_node) :: rest =>
      if internal_root root_name then netscape_roots rest parts
      else
        parts ← write_netscape_root root_node parts;
        netscape_roots rest parts
  end.

Definition netscape_head : list string :=
  ["<!DOCTYPE NETSCAPE-Bookmark-file-1>";
   "<!-- This is an automatically generated file.";
   "     It will be read and overwritten.";
   "     DO NOT EDIT! -->";
   ("<META HTTP-EQUIV=" +:+ dq +:+ "Content-Type" +:+ dq +:+ " CONTENT=" +:+ dq +:+ "text/html; charset=UTF-8" +:+ dq +:+ ">");
   "<TITLE>Bookmarks</TITLE>";
   "<H1>Bookmarks</H1>";
   "<DL><p>"].

(** The list [parts] at the end of [generate_importable_bookmarks]. *)
Definition netscape_parts (bookmarks_roots : option roots_map)
  : result (list string) :=
  parts ←
    (if roots_truthy bookmarks_roots
     then netscape_roots (default [] bookmarks_roots) netscape_head
     else Ok netscape_head);
  Ok (parts ++ ["</DL><p>"]).

Definition generate_importable_bookmarks (bookmarks_roots : option roots_map)
    (output_path : path) (fs : fsys) : result fsys :=
  parts ← netscape_parts bookmarks_roots;
  write_text fs output_path (join newline parts).

(** ** Main *)

(** What a run starts from: the file system, the home directory, what
    [pick_folder] returns and whether the vendored reader can be imported. *)
Record world : Type := {
  w_fs : fsys;
  w_home : path;
  w_picked : option string;
  w_importable : bool;
}.

(** The dialogs and the Finder window a run opens. *)
Inductive effect : Type :=
| Alert (title message icon : string)
| Reveal (p : path).

(** How a run ends: [sys.exit(code)], an uncaught exception, or the end of
    [main]. *)
Inductive status : Type :=
| Exited (code : Z)
| Uncaught (e : exn)
| Returned.

Record run : Type := {
  r_fs : fsys;
  r_effects : list effect;
  r_status : status;
}.

Definition not_a_profile_message (missing : list string) : string :=
  "That folder doesn't look like a Chrome profile. "
  +:+ "We expected to find: " +:+ join ", " missing +:+ ". "
  +:+ "Make sure you selected the folder that contains your Chrome data "
  +:+ "(usually named 'Default' or 'Profile 1').".

(** Truthiness of an optional list: [None] and [[]] are false. *)
Definition nonempty {A : Type} (l : option (list A)) : bool :=
  match l with
  | Some (_ :: _) => true
  | _ => false
  end.

Definition summary_message (tabs : option (list tab_entry))
    (bookmarks_roots : option roots_map)
    (history : option (list history_entry)) : string :=
  let recovered :=
    (if nonempty tabs
     then [str_nat (length (default [] tabs)) +:+ " open tabs"] else [])
    ++ (if roots_truthy bookmarks_roots then ["bookmarks"] else [])
    ++ (if nonempty history
        then [str_nat (length (default [] history)) +:+ " history entries"] else []) in
  let summary :=
    match recovered with
    | _ :: _ => "Recovered: " +:+ join ", " recovered +:+ "."
    | [] => "No data could be recovered from that profile."
    end in
  let files_note :=
    if roots_truthy bookmarks_roots then "Files saved to your Desktop."
    else "Dashboard saved to your Desktop." in
  summary +:+ " " +:+ files_note.

(** The output directory: the Desktop, or the home directory without one. *)
Definition desktop_of (fs : fsys) (home : path) : path :=
  if exists_ fs (home // "Desktop") then home // "Desktop" else home.

Definition dashboard_path_of (fs : fsys) (home : path) : path :=
  desktop_of fs home // "Chrome Recovery.html".

Definition bookmarks_path_of (fs : fsys) (home : path) : path :=
  desktop_of fs home // "Chrome Bookmarks.html".

Definition stop (fs : fsys) (effects : list effect) (s : status) : run :=
  {| r_fs := fs; r_effects := effects; r_status := s |}.

Definition main (w : world) : run :=
  let fs := w_fs w in
  match w_picked w with
  | None => stop fs [] (Exited 0)
  | Some folder =>
      if negb (truthy folder) then stop fs [] (Exited 0)
      else
        let profile_path := Path folder in
        let '(ok, missing) := validate_profile fs profile_path in
        if negb ok then
          stop fs [Alert "Not a Chrome Profile" (not_a_profile_message missing) "caution"]
            (Exited 1)
        else
          match extract_bookmarks fs profile_path with
          | Raise e => stop fs [] (Uncaught e)
          | Ok bookmarks_roots =>
              match extract_history fs profile_path default_limit with
              | (fs, Raise e) => stop fs [] (Uncaught e)
              | (fs, Ok history) =>
                  let tabs := extract_tabs (w_importable w) fs profile_path in
                  let desktop := desktop_of fs (w_home w) in
                  let dashboard_path := desktop // "Chrome Recovery.html" in
                  let bookmarks_path := desktop // "Chrome Bookmarks.html" in
                  match generate_dashboard tabs bookmarks_roots history dashboard_path fs with
                  | Raise e => stop fs [] (Uncaught e)
                  | Ok fs =>
                      let exported :=
                        if roots_truthy bookmarks_roots
                        then generate_importable_bookmarks bookmarks_roots bookmarks_path fs
                        else Ok fs in
                      match exported with
                      | Raise e => stop fs [] (Uncaught e)
                      | Ok fs =>
                          stop fs
                            [Alert "Recovery Complete"
                               (summary_message tabs bookmarks_roots history) "note";
                             Reveal desktop]
                            Returned
                      end
                  end
              end
          end
  end.

(** ** Notions used to state the properties *)

#[global] Instance result_fmap : FMap result := fun A B f m =>
  match m with
  | Ok a => Ok (f a)
  | Raise e => Raise e
  end.

(** Induction on bookmark nodes, through the lists of children. *)
Fixpoint node_ind' (P : node -> Prop)
    (Hleaf : forall type name url, P (Node type name url None))
    (Hnode : forall type name url cs, Forall P cs -> P (Node type name url (Some cs)))
    (n : node) {struct n} : P n :=
  match n with
  | Node type name url None => Hleaf type name url
  | Node type name url (Some cs) =>
      Hnode type name url cs
        ((fix all (l : list node) : Forall P l :=
            match l with
            | [] => List.Forall_nil P
            | c :: l' => List.Forall_cons P c l' (node_ind' P Hleaf Hnode c) (all l')
            end) cs)
  end.

(** *** Tabs *)

(** What iterating the candidate [filename] yields, nothing when it is
    missing. *)
Definition entries_of (fs : fsys) (profile_path : path)
    (filename : string) (file_type : SnssFileType) : list snss_item :=
  match fs !! (profile_path // filename) with
  | None => []
  | Some f => yielded (snss_read f file_type)
  end.

(** Everything the candidates yield, in the priority order current-session,
    last-session, current-tabs, last-tabs. *)
Definition candidate_entries (fs : fsys) (profile_path : path) : list snss_item :=
  entries_of fs profile_path "Current Session" Session
  ++ entries_of fs profile_path "Last Session" Session
  ++ entries_of fs profile_path "Current Tabs" Tab
  ++ entries_of fs profile_path "Last Tabs" Tab.

(** The navigation records among the items, as (url, title). *)
Definition nav_records (items : list snss_item) : list tab_entry :=
  flat_map (fun e => match e with
                     | NavigationEntry url title => [(url, or_empty title)]
                     | OtherCommand => []
                     end) items.

(** A URL that is not empty and not of the browser-internal scheme. *)
Definition qualifies (url : string) : bool :=
  truthy url && negb (startswith "chrome://" url).

(** [t] is the first record of [records] with its URL. *)
Definition first_with_url (records : list tab_entry) (t : tab_entry) : Prop :=
  exists before after,
    records = before ++ t :: after /\ t.1 ∉ map fst before.

(** The invariant of the scan: [records] are the navigation records visited
    so far, [st] the loop state. *)
Record scanned (records : list tab_entry) (st : tabs_state) : Prop := {
  sc_seen : forall u, u ∈ st.2 <-> u ∈ map fst st.1;
  sc_nodup : NoDup (map fst st.1);
  sc_sub : sublist st.1 records;
  sc_kept : forall t, t ∈ st.1 <-> qualifies t.1 = true /\ first_with_url records t;
}.

(** *** Reading a text back *)

(** The text after the prefix [p], when [s] starts with it. *)
Fixpoint strip_prefix (p s : string) : option string :=
  match p with
  | EmptyString => Some s
  | String a p' =>
      match s with
      | String b s' => if decide (a = b) then strip_prefix p' s' else None
      | EmptyString => None
      end
  end.

(** The text before the first [stop], and the rest from that [stop] on. *)
Fixpoint take_until (stop : ascii) (s : string) : string * string :=
  match s with
  | EmptyString => ("", "")
  | String a s' =>
      if decide (a = stop) then ("", s)
      else let '(field, rest) := take_until stop s' in (String a field, rest)
  end.




(** *** History *)

(** The range of stored values the conversion accepts: the day falls in
    0001-01-01 .. 9999-12-31. *)
Definition convertible (us : Z) : Prop :=
  1 <= 584389 + us / 86400000000 <= _MAXORDINAL.

(** [dt] is the civil date and time [us] microseconds after 1601-01-01
    00:00:00, to the second. *)
Definition civil_time_of (us : Z) (dt : datetime) : Prop :=
  1 <= dt_year dt <= 9999
  /\ 1 <= dt_month dt <= 12
  /\ 1 <= dt_day dt <= _days_in_month (dt_year dt) (dt_month dt)
  /\ _ymd2ord (dt_year dt) (dt_month dt) (dt_day dt)
     = _ymd2ord 1601 1 1 + us / 86400000000
  /\ 0 <= dt_hour dt < 24 /\ 0 <= dt_minute dt < 60 /\ 0 <= dt_second dt < 60
  /\ dt_hour dt * 3600 + dt_minute dt * 60 + dt_second dt
     = (us mod 86400000000) / 1000000.






(** Month and day of the day numbered [n] from 0 in a year, as the second
    half of [_ord2ymd] finds them. *)
Definition month_day (leapyear : bool) (n : Z) : Z * Z :=
  let month := Z.shiftr (n + 50) 5 in
  let preceding :=
    index _DAYS_BEFORE_MONTH month
    + (if (2 <? month) && leapyear then 1 else 0) in
  if n <? preceding then
    let month := month - 1 in
    let preceding :=
      preceding
      - (index _DAYS_IN_MONTH month
         + (if (month =? 2) && leapyear then 1 else 0)) in
    (month, n - preceding + 1)
  else (month, n - preceding + 1).

(** The month is one of the twelve, the day one of its days, and the days
    before them add up to [n]. *)
Definition month_day_ok (leapyear : bool) (n : Z) : bool :=
  let '(m, d) := month_day leapyear n in
  (1 <=? m) && (m <=? 12) && (1 <=? d)
  && (d <=? (if (m =? 2) && leapyear then 29 else index _DAYS_IN_MONTH m))
  && (index _DAYS_BEFORE_MONTH m
      + (if (2 <? m) && leapyear then 1 else 0) + d =? n + 1).

(** *** Escaping *)

(** The characters of markup other than the ampersand. *)
Definition markup_chars : list ascii := ["<"%char; ">"%char; dquote; "'"%char].

(** The five entities, without their ampersand, and the characters they
    stand for. *)
Definition entity_chars : list (string * ascii) :=
  [("amp;", "&"%char); ("lt;", "<"%char); ("gt;", ">"%char);
   ("quot;", dquote); ("#x27;", "'"%char)].

(** The character of the entity [s] starts with (after the ampersand), and
    the text after that entity. *)
Fixpoint decode_entity (table : list (string * ascii)) (s : string)
  : option (ascii * string) :=
  match table with
  | [] => None
  | (name, c) :: table' =>
      match strip_prefix name s with
      | Some rest => Some (c, rest)
      | None => decode_entity table' s
      end
  end.

Fixpoint unescape_from (fuel : nat) (s : string) : string :=
  match fuel, s with
  | S fuel', String a s' =>
      if decide (a = "&"%char) then
        match decode_entity entity_chars s' with
        | Some (c, rest) => String c (unescape_from fuel' rest)
        | None => String a (unescape_from fuel' s')
        end
      else String a (unescape_from fuel' s')
  | _, _ => s
  end.

(** What a reader of markup makes of a text: each of the five entities is
    the character it stands for, every other character is itself. *)
Definition unescape (s : string) : string := unescape_from (String.length s) s.

(** What a reader finds in a line made of the pieces of markup [literals]
    with a text between each two of them: each text runs up to the first
    character of the piece that follows, and is read with [unescape].
    [None] when the line is not made that way. *)
Fixpoint read_fields (literals : list string) (line : string)
  : option (list string) :=
  match literals with
  | [] => None
  | literal :: more =>
      match more with
      | [] => if decide (line = literal) then Some [] else None
      | EmptyString :: _ => None
      | String stop _ :: _ =>
          match strip_prefix literal line with
          | Some rest =>
              let '(field, rest') := take_until stop rest in
              match read_fields more rest' with
              | Some fields => Some (unescape field :: fields)
              | None => None
              end
          | None => None
          end
      end
  end.

(** The title shown for a tab or a history entry: the URL stands in for an
    empty title. *)
Definition display_title (title url : string) : string :=
  if truthy title then title else url.

(** The markup around the strings of a tab, and those strings. *)
Definition tab_template : list string :=
  ["<li><a href=" +:+ dq;
   dq +:+ ">";
   "</a><span class=" +:+ dq +:+ "url-display" +:+ dq +:+ ">";
   "</span></li>"].

Definition tab_fields (t : string * string) : list string :=
  let '(url, title) := t in [url; display_title title url; url].

(** The same for a history entry. *)
Definition history_template : list string :=
  ["<li><a href=" +:+ dq;
   dq +:+ ">";
   "</a><span class=" +:+ dq +:+ "timestamp" +:+ dq +:+ ">";
   "</span><span class=" +:+ dq +:+ "url-display" +:+ dq +:+ ">";
   "</span></li>"].

Definition history_fields (h : string * string * string) : list string :=
  let '(url, title, time_str) := h in [url; display_title title url; time_str; url].

(** Occurrences of a character in the written document. *)
Definition occ_doc (c : ascii) (parts : result (list string)) : result nat :=
  (fun ps => occ c (join newline ps)) <$> parts.

Definition amp_ok_doc (parts : result (list string)) : result bool :=
  (fun ps => amp_ok (join newline ps)) <$> parts.

(** The same entries with every user-supplied string emptied. *)
Definition blank_tabs (tabs : option (list tab_entry)) : option (list tab_entry) :=
  map (fun _ => ("", "")) <$> tabs.

Definition blank_history (history : option (list history_entry))
  : option (list history_entry) :=
  map (fun _ => ("", "", "")) <$> history.

Fixpoint blank_node (n : node) : node :=
  match n with
  | Node type name url children =>
      Node type ((fun _ => "") <$> name) ((fun _ => "") <$> url)
        (map blank_node <$> children)
  end.

Definition blank_root (r : string * root_value) : string * root_value :=
  match r with
  | (root_name, RNode n) => (root_name, RNode (blank_node n))
  | (root_name, RScalar s) => (root_name, RScalar s)
  end.

Definition blank_roots (bookmarks_roots : option roots_map) : option roots_map :=
  map blank_root <$> bookmarks_roots.

(** Two outcomes that raise the same exception, or return related values. *)
Definition result_rel {A B : Type} (R : A -> B -> Prop)
    (x : result A) (y : result B) : Prop :=
  match x, y with
  | Ok a, Ok b => R a b
  | Raise e, Raise e' => e = e'
  | _, _ => False
  end.

(** Two walked records at the same depth and of the same type. *)
Definition same_shape (r r' : walk_record) : Prop :=
  r.1.1.1 = r'.1.1.1 /\ r.1.1.2 = r'.1.1.2.

(** *** Bookmark rendering *)



Fixpoint lstrip_spaces (s : string) : string :=
  match s with
  | String c s' => if decide (c = " "%char) then lstrip_spaces s' else s
  | EmptyString => s
  end.

(** A line of the export that carries a folder or a link. *)
Definition is_entry_line (line : string) : bool :=
  startswith "<DT>" (lstrip_spaces line).

(** The export's line for a walked record: one indentation unit per level,
    the roots at one unit. *)
Definition netscape_entry (r : walk_record) : string :=
  let '(depth, node_type, name, url) := r in
  repeat_str "    " (S depth)
  +:+ (if decide (node_type = "folder")
       then "<DT><H3>" +:+ esc name +:+ "</H3>"
       else ("<DT><A HREF=" +:+ dq) +:+ esc (str_opt url) +:+ (dq +:+ ">") +:+ esc name +:+ "</A>").

(** The markup around the strings of a walked record in the dashboard,
    those strings (the name of a folder; the URL and the name of a link),
    and the markup around them in the export. *)
Definition bookmark_template (r : walk_record) : list string :=
  let '(depth, node_type, _, _) := r in
  let indent := str_nat (Nat.min depth 5) in
  if decide (node_type = "folder") then
    [("<div class=" +:+ dq +:+ "folder indent-") +:+ indent +:+ (dq +:+ ">");
     "</div>"]
  else
    [("<div class=" +:+ dq +:+ "bookmark-item indent-") +:+ indent +:+ (dq +:+ ">")
     +:+ ("<a class=" +:+ dq +:+ "bookmark-link" +:+ dq +:+ " href=" +:+ dq);
     dq +:+ ">";
     "</a></div>"].

Definition bookmark_fields (r : walk_record) : list string :=
  let '(_, node_type, name, url) := r in
  if decide (node_type = "folder") then [name] else [str_opt url; name].

Definition netscape_template (r : walk_record) : list string :=
  let '(depth, node_type, _, _) := r in
  let prefix := repeat_str "    " (S depth) in
  if decide (node_type = "folder") then [prefix +:+ "<DT><H3>"; "</H3>"]
  else [prefix +:+ ("<DT><A HREF=" +:+ dq); dq +:+ ">"; "</A>"].

(** ** Sample inputs *)

Definition sample_profile : path := ["Users"; "me"; "Default"].
Definition sample_folder : string := "/Users/me/Default/".
Definition sample_home : path := ["Users"; "me"].

Definition sample_rows : list urls_row :=
  [("https://example.com/?a=1&b=2", Some "Example <1>", SqlInt 13350000000000000);
   ("https://old.example", None, SqlInt 0);
   ("https://odd.example", Some "", SqlNull)].

Definition good_db : sqlite_db :=
  {| db_connect := None; db_select := fun _ => Ok sample_rows |}.

(** A store that opens but whose table cannot be read. *)
Definition corrupt_db : sqlite_db :=
  {| db_connect := None; db_select := fun _ => Raise DatabaseError |}.

Definition sample_tree : node :=
  Node (Some "folder") (Some "Bar") None
    (Some [Node (Some "url") (Some "Ex") (Some "https://example.com") None;
           Node (Some "folder") None None
             (Some [Node (Some "url") None None None;
                    Node (Some "separator") (Some "x") None None]);
           Node (Some "url") (Some "A & B") (Some "https://b.example/?q='x'") None]).

Definition sample_roots : roots_map :=
  [("bookmark_bar", RNode sample_tree);
   ("synced", RNode (Node (Some "folder") (Some "Mobile") None (Some [])));
   ("sync_transaction_version", RScalar "42");
   ("other", RNode (Node (Some "folder") (Some "Other") None None))].

Definition empty_snapshot : file :=
  SnssFile (fun _ => {| yielded := []; failure := None |}).

Definition session_snapshot : file :=
  SnssFile (fun _ =>
    {| yielded := [NavigationEntry "https://a.example" (Some "A");
                   OtherCommand;
                   NavigationEntry "chrome://newtab/" (Some "New Tab");
                   NavigationEntry "https://b.example" None;
                   NavigationEntry "" (Some "blank")];
       failure := None |}).

Definition tabs_snapshot : file :=
  SnssFile (fun _ =>
    {| yielded := [NavigationEntry "https://b.example" (Some "B again");
                   NavigationEntry "https://c.example" (Some "C")];
       failure := Some SnssDecodeError |}).

(** A profile with bookmarks, history and two snapshots. *)
Definition full_fs : fsys :=
  <[sample_profile // "Bookmarks" := JsonFile (JObject (Some sample_roots))]>
  (<[sample_profile // "History" := SqliteFile good_db]>
  (<[sample_profile // "Current Session" := session_snapshot]>
  (<[sample_profile // "Last Tabs" := tabs_snapshot]>
  (<[sample_home // "Desktop" := Dir]> ∅)))).

(** A profile whose only snapshot decodes to nothing. *)
Definition empty_session_fs : fsys :=
  <[sample_profile // "Current Session" := empty_snapshot]> ∅.

(** A profile whose Bookmarks file is not JSON. *)
Definition bad_json_fs : fsys :=
  <[sample_profile // "Bookmarks" := Opaque]>
  (<[sample_profile // "History" := SqliteFile good_db]> ∅).

(** A profile whose History store opens but cannot be queried. *)
Definition bad_history_fs : fsys :=
  <[sample_profile // "Bookmarks" := JsonFile (JObject (Some sample_roots))]>
  (<[sample_profile // "History" := SqliteFile corrupt_db]> ∅).

(** A profile whose Bookmarks document has no ["roots"] key, and a home
    directory without a Desktop. *)
Definition no_roots_fs : fsys :=
  <[sample_profile // "Bookmarks" := JsonFile (JObject None)]>
  (<[sample_profile // "History" := SqliteFile good_db]>
  (<[sample_home := Dir]> ∅)).


(** A folder without a History file. *)
Definition no_history_fs : fsys :=
  <[sample_profile // "Bookmarks" := JsonFile (JObject (Some sample_roots))]> ∅.

Definition world_of (fs : fsys) : world :=
  {| w_fs := fs; w_home := sample_home;
     w_picked := Some sample_folder; w_importable := true |}.

(** ** Native dialogs *)

(** The script [show_alert] hands to [osascript]. *)
Definition show_alert_script (title message icon : string) : string :=
  newline +:+ ("    display dialog " +:+ dq) +:+ message +:+ (dq +:+ " with title " +:+ dq) +:+ title
  +:+ (dq +:+ " buttons {" +:+ dq +:+ "OK" +:+ dq +:+ "} default button " +:+ dq +:+ "OK" +:+ dq +:+ " with icon ") +:+ icon
  +:+ newline +:+ "    ".

Definition backslash : ascii := "092"%char.

(** ** Further notions *)

(** *** Walks *)

Definition record_depth (r : walk_record) : nat := r.1.1.1.
Definition record_type (r : walk_record) : string := r.1.1.2.

(** A folder record carries no URL, a link record carries one. *)
Definition record_ok (r : walk_record) : Prop :=
  (record_type r = "folder" /\ r.2 = None)
  \/ (record_type r = "url" /\ is_Some r.2).

(** From one record to the next the depth grows by one at most, and only
    below a folder. *)
Fixpoint steps_ok (prev : walk_record) (rs : list walk_record) : Prop :=
  match rs with
  | [] => True
  | r :: rest =>
      (record_depth r <= S (record_depth prev))%nat
      /\ ((record_depth prev < record_depth r)%nat -> record_type prev = "folder")
      /\ steps_ok r rest
  end.

(** What a walk from [depth] is like: well-formed records, none above
    [depth], chained to any record that may come before it. *)
Definition walk_like (depth : nat) (rs : list walk_record) : Prop :=
  Forall (fun r => record_ok r /\ (depth <= record_depth r)%nat) rs
  /\ forall prev,
       (depth <= record_depth prev)%nat
       \/ (S (record_depth prev) = depth /\ record_type prev = "folder") ->
       steps_ok prev rs.

(** *** The export as a reader of the format sees it *)

Fixpoint leading_spaces (s : string) : nat :=
  match s with
  | String c s' => if decide (c = " "%char) then S (leading_spaces s') else O
  | EmptyString => O
  end.

Definition is_open_line (line : string) : bool :=
  bool_decide (lstrip_spaces line = "<DL><p>").

Definition is_close_line (line : string) : bool :=
  bool_decide (lstrip_spaces line = "</DL><p>").

(** A line that carries a link. *)
Definition is_link_line (line : string) : bool :=
  startswith "<DT><A " (lstrip_spaces line).

(** The number of lists open after [lines], starting from [open]: a list is
    opened and its entries are written at four spaces per open list, it is
    closed at the indentation it was opened at, and no list is closed that
    was not opened. *)
Fixpoint nesting (open : nat) (lines : list string) : option nat :=
  match lines with
  | [] => Some open
  | line :: rest =>
      if is_open_line line then
        if Nat.eqb (leading_spaces line) (4 * open) then nesting (S open) rest
        else None
      else if is_close_line line then
        match open with
        | O => None
        | S k =>
            if Nat.eqb (leading_spaces line) (4 * k) then nesting k rest else None
        end
      else if is_entry_line line then
        if Nat.eqb (leading_spaces line) (4 * open) then nesting open rest
        else None
      else nesting open rest
  end.

(** *** The notices of the dashboard *)

(** A part that is one of the notices. *)
Definition is_notice (part : string) : bool :=
  startswith ("<p class=" +:+ dq +:+ "empty-note" +:+ dq +:+ ">") part.

(** The notices a dashboard shows, by the state of each feature. *)
Definition notices_of (tabs : option (list tab_entry))
    (bookmarks_roots : option roots_map)
    (history : option (list history_entry)) : list string :=
  match tabs with
  | None => [tabs_unrecovered]
  | Some [] => [tabs_none_found]
  | Some (_ :: _) => []
  end
  ++ (if roots_truthy bookmarks_roots then [] else [bookmarks_none_found])
  ++ match history with
     | None => [history_unrecovered]
     | Some [] => [history_none_found]
     | Some (_ :: _) => []
     end.

(** *** The stored times that convert *)

Definition first_convertible : Z := -50491123200000000.
Definition last_convertible : Z := 265046774399999999.

(** *** The run *)

(** The files of a profile the program looks for. *)
Definition profile_files : list string := EXPECTED_FILES ++ SESSION_FILES.

Definition output_names : list string :=
  ["Chrome Recovery.html"; "Chrome Bookmarks.html"].

(** The same world after a run, for the next one. *)
Definition after_run (w : world) : world :=
  {| w_fs := r_fs (main w); w_home := w_home w;
     w_picked := w_picked w; w_importable := w_importable w |}.

(** * Properties *)

(** ** Tabs: the deduplicating scan *)

Section TabsScan.

Lemma scanned_init : scanned [] ([], ∅).
Proof.
  split; simpl.
  - intros u. rewrite elem_of_empty, elem_of_nil. tauto.
  - constructor.
  - constructor.
  - intros t. rewrite elem_of_nil. split; [tauto |].
    intros [_ (before & after & E & _)]. by destruct before.
Qed.

Lemma first_with_url_snoc records r t :
  first_with_url records t -> first_with_url (records ++ [r]) t.
Proof.
  intros (before & after & -> & Hnew).
  exists before, (after ++ [r]). split; [| done].
  by rewrite <- app_assoc.
Qed.

Lemma first_with_url_snoc_inv records r t :
  first_with_url (records ++ [r]) t ->
  first_with_url records t \/ (t = r /\ t.1 ∉ map fst records).
Proof.
  intros (before & after & E & Hnew).
  induction after as [| r' after' _] using rev_ind.
  - apply app_inj_tail in E as [-> ->]. by right.
  - change (before ++ t :: after' ++ [r']) with (before ++ (t :: after') ++ [r']) in E.
    rewrite app_assoc in E. apply app_inj_tail in E as [-> ->].
    left. by exists before, after'.
Qed.

(** A URL that occurs among the records has a first record. *)
Lemma first_with_url_exists records u :
  u ∈ map fst records -> exists t, t.1 = u /\ first_with_url records t.
Proof.
  induction records as [| r records IH] using rev_ind; simpl.
  - by rewrite elem_of_nil.
  - rewrite map_app, elem_of_app. simpl. intros Hu.
    destruct (decide (u ∈ map fst records)) as [Hin | Hout].
    + destruct (IH Hin) as (t & <- & Hfirst).
      exists t. eauto using first_with_url_snoc.
    + destruct Hu as [Hu | Hu]; [done |].
      apply list_elem_of_singleton in Hu as ->.
      exists r. split; [done |]. by exists records, [].
Qed.

Lemma scanned_skip records r st :
  scanned records st ->
  (qualifies r.1 = true -> r.1 ∈ st.2) ->
  scanned (records ++ [r]) st.
Proof.
  intros [Hseen Hnodup Hsub Hkept] Hskip. split; [done | done | |].
  - by apply sublist_inserts_r.
  - intros t. rewrite Hkept. split.
    + intros [? ?]. eauto using first_with_url_snoc.
    + intros [Hq Hfirst]. split; [done |].
      apply first_with_url_snoc_inv in Hfirst as [? | [-> Hnew]]; [done |].
      exfalso. apply Hnew.
      apply Hskip, Hseen in Hq.
      apply list_elem_of_In, List.in_map_iff in Hq as (t & <- & Ht).
      apply list_elem_of_In, List.in_map.
      apply list_elem_of_In. eapply elem_of_sublist; [| done].
      by apply list_elem_of_In.
Qed.

Lemma scanned_add records r tabs seen_urls :
  scanned records (tabs, seen_urls) ->
  qualifies r.1 = true -> r.1 ∉ seen_urls ->
  scanned (records ++ [r]) (tabs ++ [r], {[r.1]} ∪ seen_urls).
Proof.
  intros [Hseen Hnodup Hsub Hkept] Hq Hnew. simpl in *.
  assert (Hfresh : r.1 ∉ map fst records).
  { intros Hin. apply first_with_url_exists in Hin as (t & Et & Hfirst).
    apply Hnew, Hseen. rewrite <- Et.
    apply list_elem_of_In, List.in_map, list_elem_of_In, Hkept.
    split; [by rewrite Et | done]. }
  split; simpl.
  - intros u. rewrite elem_of_union, elem_of_singleton, Hseen, map_app, elem_of_app.
    simpl. rewrite list_elem_of_singleton. tauto.
  - rewrite map_app. simpl. apply NoDup_app. split; [done |]. split.
    + intros u Hu Hr. apply list_elem_of_singleton in Hr as ->.
      by apply Hnew, Hseen.
    + apply NoDup_singleton.
  - by apply sublist_app.
  - intros t. rewrite elem_of_app, list_elem_of_singleton, Hkept. split.
    + intros [[? ?] | ->]; [eauto using first_with_url_snoc |].
      split; [done |]. by exists records, [].
    + intros [Hqt Hfirst].
      apply first_with_url_snoc_inv in Hfirst as [? | [-> _]]; auto.
Qed.

Lemma visit_entry_scanned records st entry :
  scanned records st ->
  scanned (records ++ nav_records [entry]) (visit_entry st entry).
Proof.
  intros Hst. destruct st as [tabs seen_urls].
  destruct entry as [url title |]; unfold visit_entry, nav_records, flat_map.
  - rewrite app_nil_r.
    destruct (truthy url) eqn:Hurl; cbn [andb].
    + case_bool_decide as Hnew; cbn [andb].
      * destruct (startswith "chrome://" url) eqn:Hscheme; cbn [negb].
        -- apply scanned_skip; [done |]. unfold qualifies. cbn [fst].
           by rewrite Hurl, Hscheme.
        -- apply (scanned_add records (url, or_empty title)); [done | | done].
           unfold qualifies. cbn [fst]. by rewrite Hurl, Hscheme.
      * apply scanned_skip; [done |]. cbn [fst snd]. intros _.
        by destruct (decide (url ∈ seen_urls)).
    + apply scanned_skip; [done |]. unfold qualifies. cbn [fst]. by rewrite Hurl.
  - by rewrite !app_nil_r.
Qed.

Lemma nav_records_app items items' :
  nav_records (items ++ items') = nav_records items ++ nav_records items'.
Proof. apply List.flat_map_app. Qed.

Lemma foldl_visit_entry_scanned items records st :
  scanned records st ->
  scanned (records ++ nav_records items) (foldl visit_entry st items).
Proof.
  revert records st. induction items as [| entry items IH]; intros records st Hst.
  - simpl. by rewrite app_nil_r.
  - change (entry :: items) with ([entry] ++ items).
    rewrite nav_records_app, app_assoc. simpl foldl.
    apply IH. by apply visit_entry_scanned.
Qed.

Lemma visit_file_entries fs p st filename file_type :
  visit_file fs p st (filename, file_type)
  = foldl visit_entry st (entries_of fs p filename file_type).
Proof.
  unfold visit_file, entries_of. by destruct (fs !! (p // filename)).
Qed.

Lemma scan_candidates fs p :
  foldl (visit_file fs p) ([], ∅) session_files
  = foldl visit_entry ([], ∅) (candidate_entries fs p).
Proof.
  unfold session_files, candidate_entries. cbn [foldl].
  by rewrite !visit_file_entries, !foldl_app.
Qed.

Lemma scan_scanned fs p :
  scanned (nav_records (candidate_entries fs p))
    (foldl (visit_file fs p) ([], ∅) session_files).
Proof.
  rewrite scan_candidates.
  apply (foldl_visit_entry_scanned _ [] _ scanned_init).
Qed.

Lemma extract_tabs_scan importable fs p tabs :
  extract_tabs importable fs p = Some tabs ->
  tabs <> [] /\ exists seen_urls,
    foldl (visit_file fs p) ([], ∅) session_files = (tabs, seen_urls).
Proof.
  unfold extract_tabs. destruct importable; cbn [negb]; [| done].
  destruct (foldl (visit_file fs p) ([], ∅) session_files) as [ts seen_urls].
  destruct ts as [| t ts]; [done |]. intros [= <-]. eauto.
Qed.

End TabsScan.

(** C4: the tabs returned have pairwise distinct URLs, appear as in the
    candidates taken in the order current-session, last-session,
    current-tabs, last-tabs, and are exactly the first records of their URL
    among those whose URL is not empty and does not begin with the
    browser-internal scheme. *)
Theorem extract_tabs_first_occurrences importable fs p tabs :
  extract_tabs importable fs p = Some tabs ->
  let records := nav_records (candidate_entries fs p) in
  NoDup (map fst tabs)
  /\ sublist tabs records
  /\ (forall t, t ∈ tabs <-> qualifies t.1 = true /\ first_with_url records t)
  /\ (forall t, t ∈ tabs -> t.1 <> "" /\ startswith "chrome://" t.1 = false).
Proof.
  intros Htabs records.
  apply extract_tabs_scan in Htabs as (_ & seen_urls & Hscan).
  pose proof (scan_scanned fs p) as [_ Hnodup Hsub Hkept].
  rewrite Hscan in Hnodup, Hsub, Hkept. cbn [fst snd] in *.
  split; [done |]. split; [done |]. split; [done |].
  intros t Ht. apply Hkept in Ht as [Hq _]. unfold qualifies in Hq.
  apply andb_prop in Hq as [Hurl Hscheme]. split.
  - intros E. by rewrite E in Hurl.
  - by apply negb_true_iff in Hscheme.
Qed.

Lemma extract_tabs_first_occurrences_witness :
  extract_tabs true full_fs sample_profile
  = Some [("https://a.example", "A"); ("https://b.example", "");
          ("https://c.example", "C")]
  /\ NoDup (map fst [("https://a.example", "A"); ("https://b.example", "");
                     ("https://c.example", "C")]).
Proof.
  assert (E : extract_tabs true full_fs sample_profile
              = Some [("https://a.example", "A"); ("https://b.example", "");
                      ("https://c.example", "C")]) by (vm_compute; reflexivity).
  split; [exact E |].
  exact (proj1 (extract_tabs_first_occurrences true full_fs sample_profile _ E)).
Defined.

(** C1, as the code has it: the extractor never returns an empty sequence;
    when no record qualifies, whether or not a candidate decoded, the tabs
    are reported absent. *)
Theorem extract_tabs_absent_when_empty importable fs p :
  extract_tabs importable fs p <> Some []
  /\ ((forall t, t ∈ nav_records (candidate_entries fs p) -> qualifies t.1 = false) ->
      extract_tabs importable fs p = None).
Proof.
  split.
  { intros E. by apply extract_tabs_scan in E as [? _]. }
  intros Hnone.
  destruct (extract_tabs importable fs p) as [tabs |] eqn:E; [| done].
  exfalso.
  apply extract_tabs_scan in E as (Hne & seen_urls & Hscan).
  pose proof (scan_scanned fs p) as [_ _ Hsub Hkept].
  rewrite Hscan in Hsub, Hkept. cbn [fst snd] in *.
  destruct tabs as [| t tabs]; [done |].
  assert (Ht : t ∈ t :: tabs) by apply list_elem_of_here.
  pose proof (proj1 (Hkept t) Ht) as [Hq _].
  rewrite (Hnone t) in Hq; [done |].
  eapply elem_of_sublist; [exact Ht | exact Hsub].
Qed.

Lemma extract_tabs_absent_when_empty_witness :
  extract_tabs true empty_session_fs sample_profile = None.
Proof.
  apply (extract_tabs_absent_when_empty true empty_session_fs sample_profile).
  vm_compute. intros t Ht. by apply elem_of_nil in Ht.
Defined.

(** C1 as stated fails: the only candidate exists and decodes without
    error to no record, and the tabs are reported absent, not empty. *)
Lemma empty_snapshot_reported_absent :
  empty_session_fs !! (sample_profile // "Current Session") = Some empty_snapshot
  /\ failure (snss_read empty_snapshot Session) = None
  /\ nav_records (candidate_entries empty_session_fs sample_profile) = []
  /\ extract_tabs true empty_session_fs sample_profile = None
  /\ extract_tabs true empty_session_fs sample_profile <> Some [].
Proof. repeat split; vm_compute; congruence. Qed.
(** ** History: the temporary copy *)

Lemma history_path_not_tmp (p : path) : p // "History" <> tmp_path.
Proof.
  intros E. apply (f_equal last) in E.
  unfold pjoin in E. rewrite last_snoc in E. discriminate E.
Qed.

Lemma sqlite_rows_at (fs : fsys) (p : path) (f : file) (limit : Z) :
  fs !! p = Some f -> sqlite_rows fs p limit = sqlite_rows {[p := f]} p limit.
Proof.
  intros E. unfold sqlite_rows. by rewrite E, lookup_singleton_eq.
Qed.

(** The read over any engine, for a History file and a temporary path that
    are not directories: the engine is given the temporary path, in the file
    system that holds the copy there. *)
Lemma extract_history_with_copy (query : engine) (fs : fsys) (p : path)
    (limit : Z) (f : file) :
  fs !! (p // "History") = Some f -> f <> Dir -> fs !! tmp_path <> Some Dir ->
  extract_history_with query fs p limit
  = (delete tmp_path fs,
     rows ← query (<[tmp_path := f]> fs) tmp_path limit;
     Ok (Some (map convert_row rows))).
Proof.
  intros Hf Hfile Htmp.
  unfold extract_history_with, exists_.
  rewrite bool_decide_eq_true_2 by (rewrite Hf; eauto). cbn [negb].
  assert (Hcopy : copy2 fs (p // "History") tmp_path = Ok (<[tmp_path := f]> fs)).
  { unfold copy2. rewrite Hf.
    destruct f; try done; by destruct (fs !! tmp_path) as [[] |]. }
  rewrite Hcopy.
  unfold unlink_missing_ok. rewrite lookup_insert_eq.
  rewrite delete_insert_eq.
  destruct f; try done; by destruct (query _ _ _).
Qed.

(** The read over any engine when the temporary path is a directory: the
    copy goes into it, and the cleanup raises on the directory. *)
Lemma extract_history_with_dir (query : engine) (fs : fsys) (p : path)
    (limit : Z) (f : file) :
  fs !! (p // "History") = Some f -> f <> Dir -> fs !! tmp_path = Some Dir ->
  extract_history_with query fs p limit
  = (<[tmp_path // "History" := f]> fs, Raise OSError).
Proof.
  intros Hf Hfile Htmp.
  unfold extract_history_with, exists_.
  rewrite bool_decide_eq_true_2 by (rewrite Hf; eauto). cbn [negb].
  assert (Hcopy : copy2 fs (p // "History") tmp_path
                  = Ok (<[tmp_path // "History" := f]> fs)).
  { unfold copy2. rewrite Hf, Htmp.
    replace (basename (p // "History")) with "History"
      by (unfold basename, pjoin; by rewrite last_snoc).
    by destruct f. }
  rewrite Hcopy. unfold unlink_missing_ok.
  rewrite lookup_insert_ne
    by (intros E; apply (f_equal length) in E; discriminate E).
  by rewrite Htmp.
Qed.

(** The read, for a History file and a temporary path that are not
    directories. *)
Lemma extract_history_on_copy (fs : fsys) (p : path) (limit : Z) (f : file) :
  fs !! (p // "History") = Some f -> f <> Dir -> fs !! tmp_path <> Some Dir ->
  extract_history fs p limit
  = (delete tmp_path fs,
     rows ← sqlite_rows {[tmp_path := f]} tmp_path limit;
     Ok (Some (map convert_row rows))).
Proof.
  intros Hf Hfile Htmp. unfold extract_history.
  rewrite (extract_history_with_copy _ _ _ _ f Hf Hfile Htmp).
  by rewrite (sqlite_rows_at _ _ f) by apply lookup_insert_eq.
Qed.



(** ** The run: validation and what the extractors let through *)

Lemma exists_is_Some (fs : fsys) (p : path) : exists_ fs p = true <-> is_Some (fs !! p).
Proof. unfold exists_. apply bool_decide_eq_true. Qed.

Lemma exists_None (fs : fsys) (p : path) : exists_ fs p = false <-> fs !! p = None.
Proof.
  unfold exists_. rewrite bool_decide_eq_false, <- eq_None_not_Some. done.
Qed.

Lemma validate_profile_missing (fs : fsys) (p : path) :
  (validate_profile fs p).2
  = filter (fun f => fs !! (p // f) = None) ["Bookmarks"; "History"].
Proof.
  unfold validate_profile, EXPECTED_FILES. cbn [snd].
  apply list_filter_iff. intros f. apply exists_None.
Qed.

Lemma validate_profile_ok (fs : fsys) (p : path) :
  (validate_profile fs p).1 = true
  <-> is_Some (fs !! (p // "Bookmarks")) /\ is_Some (fs !! (p // "History")).
Proof.
  unfold validate_profile, EXPECTED_FILES. cbn [fst].
  rewrite bool_decide_eq_true, !filter_cons, !filter_nil.
  rewrite <- !exists_is_Some.
  destruct (exists_ fs (p // "Bookmarks")), (exists_ fs (p // "History"));
    repeat case_decide; simpl; try done; split; (done || by intros [? ?]).
Qed.

(** [main] up to the extractions, for a picked folder. *)
Lemma main_picked (w : world) (folder : string) :
  w_picked w = Some folder -> folder <> "" ->
  main w =
    if negb (validate_profile (w_fs w) (Path folder)).1 then
      stop (w_fs w)
        [Alert "Not a Chrome Profile"
           (not_a_profile_message (validate_profile (w_fs w) (Path folder)).2)
           "caution"] (Exited 1)
    else
      match extract_bookmarks (w_fs w) (Path folder) with
      | Raise e => stop (w_fs w) [] (Uncaught e)
      | Ok bookmarks_roots =>
          match extract_history (w_fs w) (Path folder) default_limit with
          | (fs, Raise e) => stop fs [] (Uncaught e)
          | (fs, Ok history) =>
              let tabs := extract_tabs (w_importable w) fs (Path folder) in
              let desktop := desktop_of fs (w_home w) in
              match generate_dashboard tabs bookmarks_roots history
                      (desktop // "Chrome Recovery.html") fs with
              | Raise e => stop fs [] (Uncaught e)
              | Ok fs =>
                  match (if roots_truthy bookmarks_roots
                         then generate_importable_bookmarks bookmarks_roots
                                (desktop // "Chrome Bookmarks.html") fs
                         else Ok fs) with
                  | Raise e => stop fs [] (Uncaught e)
                  | Ok fs =>
                      stop fs
                        [Alert "Recovery Complete"
                           (summary_message tabs bookmarks_roots history) "note";
                         Reveal desktop]
                        Returned
                  end
              end
          end
      end.
Proof.
  intros Hpick Hfolder. unfold main. rewrite Hpick.
  destruct folder as [| c folder]; [done |]. cbn [truthy negb].
  by destruct (validate_profile (w_fs w) (Path (String c folder))) as [ok missing].
Qed.

(** C9: validation succeeds exactly when both markers exist, it returns the
    missing markers, and a run on a folder that fails it ends with exit
    code 1 after the alert, the file system untouched. *)
Theorem validate_profile_gate (fs : fsys) (p : path) :
  let ok := (validate_profile fs p).1 in
  let missing := (validate_profile fs p).2 in
  (ok = true
   <-> is_Some (fs !! (p // "Bookmarks")) /\ is_Some (fs !! (p // "History")))
  /\ missing = filter (fun f => fs !! (p // f) = None) ["Bookmarks"; "History"]
  /\ (forall w folder,
        w_fs w = fs -> w_picked w = Some folder -> folder <> "" ->
        Path folder = p -> ok = false ->
        main w = stop fs [Alert "Not a Chrome Profile"
                            (not_a_profile_message missing) "caution"]
                   (Exited 1)).
Proof.
  intros ok missing. split; [apply validate_profile_ok |].
  split; [apply validate_profile_missing |].
  intros w folder <- Hpick Hfolder <- Hok.
  rewrite (main_picked w folder Hpick Hfolder).
  subst ok missing. by rewrite Hok.
Qed.

Lemma validate_profile_gate_witness :
  main (world_of no_history_fs)
  = stop no_history_fs
      [Alert "Not a Chrome Profile" (not_a_profile_message ["History"]) "caution"]
      (Exited 1).
Proof.
  pose proof (validate_profile_gate no_history_fs sample_profile) as (_ & _ & Hrun).
  apply (Hrun (world_of no_history_fs) sample_folder);
    first [reflexivity | discriminate].
Defined.

Lemma dashboard_not_bookmarks (d : path) :
  d // "Chrome Recovery.html" <> d // "Chrome Bookmarks.html".
Proof. unfold pjoin. intros E. by apply app_inv_head in E. Qed.

(** *** Writing a document *)

Lemma write_text_ok (fs : fsys) (out : path) (text : string) :
  fs !! out <> Some Dir -> is_dir fs (parent out) = true ->
  write_text fs out text = Ok (<[out := Document text]> fs).
Proof.
  intros Hout Hparent. unfold write_text. rewrite Hparent.
  by destruct (fs !! out) as [[] |].
Qed.

Lemma write_text_inv (fs fs2 : fsys) (out : path) (text : string) :
  write_text fs out text = Ok fs2 ->
  fs2 = <[out := Document text]> fs
  /\ fs !! out <> Some Dir /\ is_dir fs (parent out) = true.
Proof.
  unfold write_text.
  destruct (is_dir fs (parent out)); destruct (fs !! out) as [[] |];
    try discriminate; by intros [= <-].
Qed.

Lemma write_text_raises (fs : fsys) (out : path) (text : string) (e : exn) :
  write_text fs out text = Raise e ->
  e = OSError /\ (fs !! out = Some Dir \/ is_dir fs (parent out) = false).
Proof.
  unfold write_text.
  destruct (is_dir fs (parent out)); destruct (fs !! out) as [[] |];
    try discriminate; intros [= <-]; auto.
Qed.

Lemma write_text_frame (fs fs2 : fsys) (out q : path) (text : string) :
  write_text fs out text = Ok fs2 -> q <> out -> fs2 !! q = fs !! q.
Proof.
  intros Hwrite Hq. apply write_text_inv in Hwrite as (-> & _).
  by apply lookup_insert_ne.
Qed.

Lemma parent_pjoin (d : path) (name : string) : parent (d // name) = d.
Proof. unfold parent, pjoin. apply removelast_last. Qed.

(** C10: a Bookmarks document that is an object without the ["roots"] key
    gives the empty mapping, not absence; the dashboard then shows the
    "No bookmarks found." notice, and the run is one write, of the
    dashboard, and nothing else: the exporter is not called, whether the
    write succeeds (in a directory, not onto one) or raises. *)
Theorem bookmarks_without_roots (fs : fsys) (p : path) :
  fs !! (p // "Bookmarks") = Some (JsonFile (JObject None)) ->
  extract_bookmarks fs p = Ok (Some [])
  /\ bookmarks_section (Some []) = Ok [bookmarks_heading; bookmarks_none_found]
  /\ (forall w folder fs1 history,
        w_fs w = fs -> w_picked w = Some folder -> folder <> "" ->
        Path folder = p -> is_Some (fs !! (p // "History")) ->
        extract_history fs p default_limit = (fs1, Ok history) ->
        let tabs := extract_tabs (w_importable w) fs1 p in
        let out := dashboard_path_of fs1 (w_home w) in
        exists parts,
          dashboard_parts tabs (Some []) history = Ok parts
          /\ bookmarks_none_found ∈ parts
          /\ main w
             = match write_text fs1 out (join newline parts) with
               | Ok fs2 =>
                   stop fs2
                     [Alert "Recovery Complete"
                        (summary_message tabs (Some []) history) "note";
                      Reveal (desktop_of fs1 (w_home w))]
                     Returned
               | Raise e => stop fs1 [] (Uncaught e)
               end
          /\ (fs1 !! out <> Some Dir ->
              is_dir fs1 (desktop_of fs1 (w_home w)) = true ->
              r_status (main w) = Returned
              /\ r_fs (main w) !! out = Some (Document (join newline parts)))
          /\ r_fs (main w) !! bookmarks_path_of fs1 (w_home w)
             = fs1 !! bookmarks_path_of fs1 (w_home w)).
Proof.
  intros Hdoc.
  assert (Hroots : extract_bookmarks fs p = Ok (Some [])).
  { unfold extract_bookmarks. by rewrite Hdoc. }
  split; [exact Hroots |]. split; [reflexivity |].
  intros w folder fs1 history <- Hpick Hfolder <- Hhist Hread tabs out.
  eexists. split; [reflexivity |]. split.
  { rewrite !elem_of_app. right. right. right. right. left.
    apply list_elem_of_In. right. by left. }
  assert (Hok : (validate_profile (w_fs w) (Path folder)).1 = true).
  { apply validate_profile_ok. rewrite Hdoc. eauto. }
  set (text := join newline _).
  assert (Hmain : main w
    = match write_text fs1 out text with
      | Ok fs2 =>
          stop fs2
            [Alert "Recovery Complete" (summary_message tabs (Some []) history) "note";
             Reveal (desktop_of fs1 (w_home w))]
            Returned
      | Raise e => stop fs1 [] (Uncaught e)
      end).
  { rewrite (main_picked w folder Hpick Hfolder).
    rewrite Hok, Hroots, Hread. cbn [negb]. cbv zeta.
    unfold generate_dashboard. cbn [dashboard_parts bookmarks_section mbind result_bind].
    fold tabs. fold text. unfold out, dashboard_path_of.
    by destruct (write_text fs1 _ text). }
  split; [exact Hmain |]. split.
  - intros Hout Hparent. rewrite Hmain.
    rewrite write_text_ok; [| done | by unfold out, dashboard_path_of; rewrite parent_pjoin].
    split; [done |]. cbn [stop r_fs]. apply lookup_insert_eq.
  - rewrite Hmain.
    destruct (write_text fs1 out text) as [fs2 | e] eqn:Hwrite; [| done].
    cbn [stop r_fs]. apply (write_text_frame _ _ _ _ _ Hwrite).
    unfold out, dashboard_path_of, bookmarks_path_of.
    apply not_eq_sym, dashboard_not_bookmarks.
Qed.

Lemma bookmarks_without_roots_witness :
  extract_bookmarks no_roots_fs sample_profile = Ok (Some [])
  /\ r_status (main (world_of no_roots_fs)) = Returned
  /\ r_fs (main (world_of no_roots_fs))
       !! bookmarks_path_of (delete tmp_path no_roots_fs) sample_home
     = None.
Proof.
  assert (Hdoc : no_roots_fs !! (sample_profile // "Bookmarks")
                 = Some (JsonFile (JObject None))) by reflexivity.
  pose proof (bookmarks_without_roots no_roots_fs sample_profile Hdoc)
    as (Hroots & _ & Hrun).
  split; [exact Hroots |].
  assert (Hstore : no_roots_fs !! (sample_profile // "History")
                   = Some (SqliteFile good_db)) by reflexivity.
  assert (Hread : extract_history no_roots_fs sample_profile default_limit
                  = (delete tmp_path no_roots_fs,
                     Ok (Some (map convert_row sample_rows)))).
  { apply (extract_history_on_copy _ _ _ (SqliteFile good_db));
      [exact Hstore | discriminate | discriminate]. }
  assert (Hfolder : sample_folder <> "") by discriminate.
  assert (Hhist : is_Some (no_roots_fs !! (sample_profile // "History")))
    by (rewrite Hstore; eauto).
  pose proof (Hrun (world_of no_roots_fs) sample_folder
                (delete tmp_path no_roots_fs)
                (Some (map convert_row sample_rows))
                eq_refl eq_refl Hfolder eq_refl Hhist Hread)
    as (parts & _ & _ & _ & Hdone & Hkept).
  split.
  - apply Hdone; [discriminate | reflexivity].
  - etrans; [exact Hkept | reflexivity].
Defined.

(** C2, as the code has it: an invalid Bookmarks document, or a History
    store whose query fails, ends the run with the uncaught error: nothing
    is written, no dialog is shown, and the temporary copy of the store is
    gone. *)
Theorem parse_errors_end_the_run (w : world) (folder : string) :
  w_picked w = Some folder -> folder <> "" ->
  (validate_profile (w_fs w) (Path folder)).1 = true ->
  let fs := w_fs w in
  let p := Path folder in
  (forall f e,
     fs !! (p // "Bookmarks") = Some f -> json_load f = Raise e ->
     main w = stop fs [] (Uncaught e))
  /\ (forall roots db e,
        extract_bookmarks fs p = Ok roots ->
        fs !! (p // "History") = Some (SqliteFile db) ->
        db_connect db = None -> db_select db default_limit = Raise e ->
        fs !! tmp_path <> Some Dir ->
        main w = stop (delete tmp_path fs) [] (Uncaught e)).
Proof.
  intros Hpick Hfolder Hok fs p. subst fs p. split.
  - intros f e Hf He.
    rewrite (main_picked w folder Hpick Hfolder), Hok.
    unfold extract_bookmarks. rewrite Hf, He. reflexivity.
  - intros roots db e Hroots Hdb Hopen Hquery Htmp.
    rewrite (main_picked w folder Hpick Hfolder), Hok, Hroots.
    assert (Hfile : SqliteFile db <> Dir) by discriminate.
    rewrite (extract_history_on_copy _ _ default_limit _ Hdb Hfile Htmp).
    unfold sqlite_rows. by rewrite lookup_singleton_eq, Hopen, Hquery.
Qed.

Lemma parse_errors_end_the_run_witness :
  main (world_of bad_json_fs) = stop bad_json_fs [] (Uncaught JSONDecodeError)
  /\ main (world_of bad_history_fs)
     = stop (delete tmp_path bad_history_fs) [] (Uncaught DatabaseError).
Proof.
  assert (Hfolder : sample_folder <> "") by discriminate.
  split.
  - assert (Hok : (validate_profile (w_fs (world_of bad_json_fs))
                     (Path sample_folder)).1 = true) by reflexivity.
    pose proof (parse_errors_end_the_run (world_of bad_json_fs) sample_folder
                  eq_refl Hfolder Hok) as [Hjson _].
    apply (Hjson Opaque JSONDecodeError); reflexivity.
  - assert (Hok : (validate_profile (w_fs (world_of bad_history_fs))
                     (Path sample_folder)).1 = true) by reflexivity.
    pose proof (parse_errors_end_the_run (world_of bad_history_fs) sample_folder
                  eq_refl Hfolder Hok) as [_ Hquery].
    apply (Hquery (Some sample_roots) corrupt_db DatabaseError);
      first [reflexivity | discriminate].
Defined.

(** C2 as stated fails: with a Bookmarks file that is not JSON the run ends
    with the uncaught [JSONDecodeError] and writes no dashboard; with a
    History store whose query fails it ends with the [DatabaseError]. *)
Lemma bad_json_aborts_the_run :
  bad_json_fs !! (sample_profile // "Bookmarks") = Some Opaque
  /\ json_load Opaque = Raise JSONDecodeError
  /\ r_status (main (world_of bad_json_fs)) = Uncaught JSONDecodeError
  /\ r_fs (main (world_of bad_json_fs)) !! dashboard_path_of bad_json_fs sample_home
     = None
  /\ r_status (main (world_of bad_history_fs)) = Uncaught DatabaseError
  /\ r_fs (main (world_of bad_history_fs))
       !! dashboard_path_of bad_history_fs sample_home = None.
Proof. repeat split; vm_compute; reflexivity. Qed.

(** ** The dashboard: navigation links and notices *)

Section Navigation.

(** No part of the document outside the navigation starts like a link. *)
#[local] Abbreviation plain := (Forall (fun part => startswith "<a " part = false)).

Lemma tabs_section_plain tabs : plain (tabs_section tabs).
Proof.
  destruct tabs as [[| t tabs] |]; unfold tabs_section.
  - by repeat constructor.
  - repeat (apply Forall_app; split); try by repeat constructor.
    apply Forall_forall. intros part Hin.
    apply list_elem_of_In, List.in_map_iff in Hin as ([url title] & <- & _).
    reflexivity.
  - by repeat constructor.
Qed.

Lemma history_section_plain history : plain (history_section history).
Proof.
  destruct history as [[| h history] |]; unfold history_section.
  - by repeat constructor.
  - repeat (apply Forall_app; split); try by repeat constructor.
    apply Forall_forall. intros part Hin.
    apply list_elem_of_In, List.in_map_iff in Hin as ([[url title] time_str] & <- & _).
    reflexivity.
  - by repeat constructor.
Qed.

Lemma bookmark_line_plain r : startswith "<a " (bookmark_line r) = false.
Proof.
  destruct r as [[[depth node_type] name] url]. unfold bookmark_line.
  by destruct (decide (node_type = "folder")).
Qed.

Lemma bookmarks_section_plain roots parts :
  bookmarks_section roots = Ok parts -> plain parts.
Proof.
  unfold bookmarks_section.
  destruct roots as [[| r roots] |]; try (intros [= <-]; by repeat constructor).
  destruct (walk_roots (r :: roots)) as [rs |]; [| done].
  intros [= <-]. repeat constructor.
  apply Forall_forall. intros part Hin.
  apply list_elem_of_In, List.in_map_iff in Hin as (rec & <- & _).
  apply bookmark_line_plain.
Qed.

Lemma plain_not_link (parts : list string) (link : string) :
  plain parts -> startswith "<a " link = true -> link ∉ parts.
Proof.
  intros Hplain Hlink Hin.
  rewrite Forall_forall in Hplain. apply Hplain in Hin. congruence.
Qed.

Lemma dashboard_parts_inv tabs roots history parts :
  dashboard_parts tabs roots history = Ok parts ->
  exists bm,
    bookmarks_section roots = Ok bm
    /\ parts = [dashboard_head] ++ nav_links tabs history ++ ["</nav>"]
               ++ tabs_section tabs ++ bm ++ history_section history
               ++ ["</body></html>"].
Proof.
  unfold dashboard_parts.
  destruct (bookmarks_section roots) as [bm |]; [| done].
  intros [= <-]. by exists bm.
Qed.

Lemma link_in_dashboard tabs roots history parts link :
  dashboard_parts tabs roots history = Ok parts ->
  startswith "<a " link = true ->
  link ∈ parts <-> link ∈ nav_links tabs history.
Proof.
  intros Hparts Hlink.
  apply dashboard_parts_inv in Hparts as (bm & Hbm & ->).
  pose proof (plain_not_link _ link (tabs_section_plain tabs) Hlink).
  pose proof (plain_not_link _ link (history_section_plain history) Hlink).
  pose proof (plain_not_link _ link (bookmarks_section_plain _ _ Hbm) Hlink).
  assert (link ∉ [dashboard_head])
    by (apply plain_not_link; [by repeat constructor | done]).
  assert (link ∉ ["</nav>"])
    by (apply plain_not_link; [by repeat constructor | done]).
  assert (link ∉ ["</body></html>"])
    by (apply plain_not_link; [by repeat constructor | done]).
  rewrite !elem_of_app. tauto.
Qed.

Lemma nav_tabs_in_links {A B : Type} (tabs : option A) (history : option B) :
  nav_tabs ∈ nav_links tabs history <-> tabs <> None.
Proof.
  destruct tabs as [ts |].
  - split; [done |]. intros _. apply list_elem_of_here.
  - split; [| done]. intros Hin. exfalso.
    apply list_elem_of_In in Hin.
    destruct history; vm_compute in Hin; intuition discriminate.
Qed.

Lemma nav_history_in_links {A B : Type} (tabs : option A) (history : option B) :
  nav_history ∈ nav_links tabs history <-> history <> None.
Proof.
  destruct history as [hs |].
  - split; [done |]. intros _. unfold nav_links.
    rewrite !elem_of_app. right. right. apply list_elem_of_here.
  - split; [| done]. intros Hin. exfalso.
    apply list_elem_of_In in Hin.
    destruct tabs; vm_compute in Hin; intuition discriminate.
Qed.

End Navigation.

(** C3, as the code has it: the links to the tabs and history sections are
    in the document exactly when that feature is present, and an absent one
    shows its "Could not recover" notice; the link to the bookmarks section
    is always there, and without bookmarks, absent or empty, the section
    shows "No bookmarks found." *)
Theorem nav_links_follow_presence tabs roots history parts :
  dashboard_parts tabs roots history = Ok parts ->
  (nav_tabs ∈ parts <-> tabs <> None)
  /\ (nav_history ∈ parts <-> history <> None)
  /\ nav_bookmarks ∈ parts
  /\ (tabs = None -> tabs_unrecovered ∈ parts)
  /\ (history = None -> history_unrecovered ∈ parts)
  /\ (roots_truthy roots = false -> bookmarks_none_found ∈ parts).
Proof.
  intros Hparts.
  pose proof (link_in_dashboard _ _ _ _ nav_tabs Hparts eq_refl) as Htabs.
  pose proof (link_in_dashboard _ _ _ _ nav_history Hparts eq_refl) as Hhistory.
  pose proof (link_in_dashboard _ _ _ _ nav_bookmarks Hparts eq_refl) as Hbookmarks.
  apply dashboard_parts_inv in Hparts as (bm & Hbm & ->).
  split; [| split; [| split; [| split; [| split]]]].
  - rewrite Htabs. apply nav_tabs_in_links.
  - rewrite Hhistory. apply nav_history_in_links.
  - apply Hbookmarks. unfold nav_links. rewrite !elem_of_app.
    right. left. by apply list_elem_of_singleton.
  - intros ->. rewrite !elem_of_app. do 3 right. left.
    apply list_elem_of_In. right. by left.
  - intros ->. rewrite !elem_of_app. do 5 right. left.
    apply list_elem_of_In. right. by left.
  - intros Hroots. rewrite !elem_of_app. do 4 right. left.
    unfold bookmarks_section in Hbm.
    destruct roots as [[| r roots] |]; try discriminate Hroots;
      injection Hbm as <-; apply list_elem_of_In; right; by left.
Qed.

Lemma nav_links_follow_presence_witness :
  nav_tabs ∈ [dashboard_head; nav_tabs; nav_bookmarks; "</nav>"]
             ++ tabs_section (Some []) ++ [bookmarks_heading; bookmarks_none_found]
             ++ history_section None ++ ["</body></html>"].
Proof.
  apply (nav_links_follow_presence (Some []) None None); [reflexivity | discriminate].
Defined.

(** C3 as stated fails for the bookmarks: with every feature absent the
    link to the bookmarks section is still emitted, and the section shows
    "No bookmarks found." rather than a notice that says it could not be
    recovered. *)
Lemma absent_bookmarks_still_linked :
  exists parts,
    dashboard_parts None None None = Ok parts
    /\ nav_bookmarks ∈ parts
    /\ bookmarks_none_found ∈ parts
    /\ parts
       = [dashboard_head; nav_bookmarks; "</nav>";
          "<h2 id=" +:+ dq +:+ "tabs" +:+ dq +:+ ">Open Tabs</h2>"; tabs_unrecovered;
          bookmarks_heading; bookmarks_none_found;
          "<h2 id=" +:+ dq +:+ "history" +:+ dq +:+ ">Browsing History</h2>";
          history_unrecovered; "</body></html>"]
    /\ nav_bookmarks = "<a href=" +:+ dq +:+ "#bookmarks" +:+ dq +:+ ">Bookmarks</a>"
    /\ bookmarks_none_found
       = "<p class=" +:+ dq +:+ "empty-note" +:+ dq +:+ ">No bookmarks found.</p>".
Proof.
  eexists. split; [reflexivity |].
  split; [apply list_elem_of_In; right; by left |].
  split; [apply list_elem_of_In; do 6 right; by left |].
  by repeat split.
Qed.

(** ** History: the conversion of the stored time *)

Section Calendar.

Lemma month_day_table :
  forallb (fun n => month_day_ok true n && month_day_ok false n) (seqZ 0 365) = true.
Proof. vm_compute. reflexivity. Qed.

Lemma month_day_spec (leapyear : bool) (n : Z) :
  0 <= n < 365 -> month_day_ok leapyear n = true.
Proof.
  intros Hn. pose proof month_day_table as Htable.
  rewrite forallb_forall in Htable.
  specialize (Htable n). rewrite <- list_elem_of_In, elem_of_seqZ in Htable.
  apply andb_prop in Htable as [Hleap Hplain]; [| lia].
  by destruct leapyear.
Qed.

(** The days before a year, from its place in the 400-, 100- and 4-year
    cycles. *)
Lemma days_before_year_cycles (n400 n100 n4 n1 : Z) :
  0 <= n100 <= 3 -> 0 <= n4 <= 24 -> 0 <= n1 <= 3 ->
  _days_before_year (n400 * 400 + 1 + n100 * 100 + n4 * 4 + n1)
  = n400 * _DI400Y + n100 * _DI100Y + n4 * _DI4Y + n1 * 365.
Proof.
  intros H100 H4 H1. unfold _days_before_year, _DI400Y, _DI100Y, _DI4Y. cbv zeta.
  replace (n400 * 400 + 1 + n100 * 100 + n4 * 4 + n1 - 1)
    with (n400 * 400 + n100 * 100 + n4 * 4 + n1) by lia.
  assert (E4 : (n400 * 400 + n100 * 100 + n4 * 4 + n1) / 4
               = n400 * 100 + n100 * 25 + n4)
    by (symmetry; apply (Z.div_unique _ _ _ n1); lia).
  assert (E100 : (n400 * 400 + n100 * 100 + n4 * 4 + n1) / 100
                 = n400 * 4 + n100)
    by (symmetry; apply (Z.div_unique _ _ _ (n4 * 4 + n1)); lia).
  assert (E400 : (n400 * 400 + n100 * 100 + n4 * 4 + n1) / 400 = n400)
    by (symmetry; apply (Z.div_unique _ _ _ (n100 * 100 + n4 * 4 + n1)); lia).
  rewrite E4, E100, E400. lia.
Qed.

Lemma is_leap_cycles (n400 n100 n4 n1 : Z) :
  0 <= n100 <= 3 -> 0 <= n4 <= 24 -> 0 <= n1 <= 3 ->
  _is_leap (n400 * 400 + 1 + n100 * 100 + n4 * 4 + n1)
  = (n1 =? 3) && (negb (n4 =? 24) || (n100 =? 3)).
Proof.
  intros H100 H4 H1. unfold _is_leap.
  assert (E4 : (n400 * 400 + 1 + n100 * 100 + n4 * 4 + n1) mod 4 = (n1 + 1) mod 4).
  { replace (n400 * 400 + 1 + n100 * 100 + n4 * 4 + n1)
      with (n1 + 1 + (n400 * 100 + n100 * 25 + n4) * 4) by lia.
    apply Z.mod_add. lia. }
  assert (E100 : (n400 * 400 + 1 + n100 * 100 + n4 * 4 + n1) mod 100
                 = (n4 * 4 + n1 + 1) mod 100).
  { replace (n400 * 400 + 1 + n100 * 100 + n4 * 4 + n1)
      with (n4 * 4 + n1 + 1 + (n400 * 4 + n100) * 100) by lia.
    apply Z.mod_add. lia. }
  assert (E400 : (n400 * 400 + 1 + n100 * 100 + n4 * 4 + n1) mod 400
                 = (n100 * 100 + n4 * 4 + n1 + 1) mod 400).
  { replace (n400 * 400 + 1 + n100 * 100 + n4 * 4 + n1)
      with (n100 * 100 + n4 * 4 + n1 + 1 + n400 * 400) by lia.
    apply Z.mod_add. lia. }
  rewrite E4, E100, E400.
  destruct (Z.eqb_spec n1 3) as [-> | Hn1].
  - change ((3 + 1) mod 4 =? 0) with true. cbn [andb].
    destruct (Z.eqb_spec n4 24) as [-> | Hn4].
    + change ((24 * 4 + 3 + 1) mod 100 =? 0) with true. cbn [negb orb].
      destruct (Z.eqb_spec n100 3) as [-> | Hn100]; [reflexivity |].
      apply Z.eqb_neq. rewrite Z.mod_small by lia. lia.
    + cbn [negb orb]. apply orb_true_iff. left. apply negb_true_iff, Z.eqb_neq.
      rewrite Z.mod_small by lia. lia.
  - cbn [andb]. apply andb_false_iff. left. apply Z.eqb_neq.
    rewrite Z.mod_small by lia. lia.
Qed.

End Calendar.

Section Ordinals.

(** The second half of [_ord2ymd] is [month_day]. *)
Lemma ord2ymd_unfold (n : Z) :
  _ord2ymd n =
    let n0 := n - 1 in
    let n400 := n0 / _DI400Y in
    let r1 := n0 mod _DI400Y in
    let n100 := r1 / _DI100Y in
    let r2 := r1 mod _DI100Y in
    let n4 := r2 / _DI4Y in
    let r3 := r2 mod _DI4Y in
    let n1 := r3 / 365 in
    let r4 := r3 mod 365 in
    let year := n400 * 400 + 1 + n100 * 100 + n4 * 4 + n1 in
    if (n1 =? 4) || (n100 =? 4) then (year - 1, 12, 31)
    else
      let leapyear := (n1 =? 3) && (negb (n4 =? 24) || (n100 =? 3)) in
      (year, (month_day leapyear r4).1, (month_day leapyear r4).2).
Proof.
  unfold _ord2ymd, month_day. cbv zeta.
  destruct (_ || _); [reflexivity |].
  by destruct (_ <? _).
Qed.

(** [_ord2ymd] inverts [_ymd2ord] and yields a day of the calendar. *)
Lemma ord2ymd_spec (n : Z) :
  1 <= n ->
  let '(y, m, d) := _ord2ymd n in
  1 <= m <= 12 /\ 1 <= d <= _days_in_month y m /\ _ymd2ord y m d = n
  /\ 1 <= y /\ (n <= _MAXORDINAL -> y <= 9999).
Proof.
  intros Hn. rewrite ord2ymd_unfold. cbv zeta. unfold _MAXORDINAL.
  set (n0 := n - 1).
  set (n400 := n0 / _DI400Y). set (r1 := n0 mod _DI400Y).
  set (n100 := r1 / _DI100Y). set (r2 := r1 mod _DI100Y).
  set (n4 := r2 / _DI4Y). set (r3 := r2 mod _DI4Y).
  set (n1 := r3 / 365). set (r4 := r3 mod 365).
  assert (H0 : n0 = n400 * 146097 + r1 /\ 0 <= r1 < 146097).
  { subst n400 r1. unfold _DI400Y.
    pose proof (Z.div_mod n0 146097). pose proof (Z.mod_pos_bound n0 146097). lia. }
  assert (H1 : r1 = n100 * 36524 + r2 /\ 0 <= r2 < 36524 /\ 0 <= n100 <= 4).
  { subst n100 r2. unfold _DI100Y.
    pose proof (Z.div_mod r1 36524). pose proof (Z.mod_pos_bound r1 36524).
    assert (0 <= r1 / 36524 <= 4)
      by (split; [apply Z.div_pos | apply Z.lt_succ_r, Z.div_lt_upper_bound]; lia).
    lia. }
  assert (H2 : r2 = n4 * 1461 + r3 /\ 0 <= r3 < 1461 /\ 0 <= n4 <= 24).
  { subst n4 r3. unfold _DI4Y.
    pose proof (Z.div_mod r2 1461). pose proof (Z.mod_pos_bound r2 1461).
    assert (0 <= r2 / 1461 <= 24)
      by (split; [apply Z.div_pos | apply Z.lt_succ_r, Z.div_lt_upper_bound]; lia).
    lia. }
  assert (H3 : r3 = n1 * 365 + r4 /\ 0 <= r4 < 365 /\ 0 <= n1 <= 4).
  { subst n1 r4.
    pose proof (Z.div_mod r3 365). pose proof (Z.mod_pos_bound r3 365).
    assert (0 <= r3 / 365 <= 4)
      by (split; [apply Z.div_pos | apply Z.lt_succ_r, Z.div_lt_upper_bound]; lia).
    lia. }
  clearbody n400 r1 n100 r2 n4 r3 n1 r4.
  destruct ((n1 =? 4) || (n100 =? 4)) eqn:Hedge.
  - (* the last day of a leap year or of a 400-year cycle *)
    split; [lia |]. unfold _days_in_month, _ymd2ord, _days_before_month.
    change (12 =? 2) with false. change (2 <? 12) with true.
    change (index _DAYS_IN_MONTH 12) with 31.
    change (index _DAYS_BEFORE_MONTH 12) with 334. cbn [andb].
    split; [lia |].
    assert (Hyear : 1 <= n400 * 400 + 1 + n100 * 100 + n4 * 4 + n1 - 1
                    /\ (n <= 3652059
                        -> n400 * 400 + 1 + n100 * 100 + n4 * 4 + n1 - 1 <= 9999)).
    { apply orb_true_iff in Hedge as [Hedge | Hedge]; apply Z.eqb_eq in Hedge; lia. }
    split; [| exact Hyear].
    apply orb_true_iff in Hedge as [Hedge | Hedge]; apply Z.eqb_eq in Hedge.
    + (* n1 = 4: the year before is leap *)
      assert (Hn4 : n4 <= 23 \/ n4 = 24) by lia.
      assert (Hr4 : r4 = 0) by lia.
      assert (H100 : 0 <= n100 <= 3) by lia.
      replace (n400 * 400 + 1 + n100 * 100 + n4 * 4 + n1 - 1)
        with (n400 * 400 + 1 + n100 * 100 + n4 * 4 + 3) by lia.
      rewrite days_before_year_cycles, is_leap_cycles by lia.
      change (3 =? 3) with true. cbn [andb].
      destruct (Z.eqb_spec n4 24) as [-> | _]; [lia |]. cbn [negb orb].
      unfold _DI400Y, _DI100Y, _DI4Y. lia.
    + (* n100 = 4: the last year of the cycle *)
      assert (n4 = 0 /\ n1 = 0 /\ r4 = 0) as (-> & -> & ->) by lia.
      replace (n400 * 400 + 1 + n100 * 100 + 0 * 4 + 0 - 1)
        with (n400 * 400 + 1 + 3 * 100 + 24 * 4 + 3) by lia.
      rewrite days_before_year_cycles, is_leap_cycles by lia.
      change ((3 =? 3) && (negb (24 =? 24) || (3 =? 3))) with true.
      unfold _DI400Y, _DI100Y, _DI4Y. lia.
  - apply orb_false_iff in Hedge as [Hn1 Hn100].
    apply Z.eqb_neq in Hn1, Hn100.
    set (leapyear := (n1 =? 3) && (negb (n4 =? 24) || (n100 =? 3))).
    pose proof (month_day_spec leapyear r4 ltac:(lia)) as Hmd.
    unfold month_day_ok in Hmd.
    destruct (month_day leapyear r4) as [m d]. cbn [fst snd].
    repeat (apply andb_prop in Hmd as [Hmd ?]).
    unfold _days_in_month, _ymd2ord, _days_before_month.
    rewrite days_before_year_cycles, is_leap_cycles by lia.
    fold leapyear. unfold _DI400Y, _DI100Y, _DI4Y.
    repeat split; lia.
Qed.

End Ordinals.

Section Conversion.

Lemma mk_timedelta_eq (days seconds microseconds : Z) :
  mk_timedelta days seconds microseconds
  = if 999999999 <? Z.abs (days + (seconds + microseconds / 1000000) / 86400)
    then Raise OverflowError
    else Ok {| td_days := days + (seconds + microseconds / 1000000) / 86400;
               td_seconds := (seconds + microseconds / 1000000) mod 86400;
               td_microseconds := microseconds mod 1000000 |}.
Proof. reflexivity. Qed.

Lemma seconds_of_day (us : Z) :
  us / 1000000 / 86400 = us / 86400000000
  /\ (us / 1000000) mod 86400 = (us mod 86400000000) / 1000000.
Proof. split; Z.div_mod_to_equations; lia. Qed.

Lemma epoch_ordinal : toordinal CHROME_EPOCH = 584389.
Proof. reflexivity. Qed.

(** The conversion of a stored integer, in one piece. *)
Lemma chrome_time_eq (us : Z) :
  chrome_time (SqlInt us)
  = let days := us / 86400000000 in
    let secs := (us mod 86400000000) / 1000000 in
    if (0 <? 584389 + days) && (584389 + days <=? _MAXORDINAL) then
      Ok {| dt_year := (_ord2ymd (584389 + days)).1.1;
            dt_month := (_ord2ymd (584389 + days)).1.2;
            dt_day := (_ord2ymd (584389 + days)).2;
            dt_hour := secs / 3600;
            dt_minute := secs mod 3600 / 60;
            dt_second := secs mod 3600 mod 60;
            dt_microsecond := us mod 1000000 |}
    else Raise OverflowError.
Proof.
  cbv zeta. unfold chrome_time, timedelta_microseconds.
  rewrite mk_timedelta_eq.
  destruct (seconds_of_day us) as [Edays Esecs].
  pose proof (Z.mod_pos_bound us 1000000 ltac:(lia)) as Hus.
  pose proof (Z.mod_pos_bound (us / 1000000) 86400 ltac:(lia)) as Hsecs.
  replace (0 + (0 + us / 1000000) / 86400) with (us / 86400000000)
    by (rewrite <- Edays; f_equal; lia).
  replace ((0 + us / 1000000) mod 86400) with (us mod 86400000000 / 1000000)
    by (rewrite <- Esecs; f_equal; lia).
  rewrite <- Esecs in *.
  set (days := us / 86400000000). set (secs := (us / 1000000) mod 86400) in *.
  unfold _MAXORDINAL.
  destruct (Z.ltb_spec 999999999 (Z.abs days)) as [Hbig | Hsmall].
  - (* the delta itself is out of range *)
    cbn. destruct (Z.ltb_spec 0 (584389 + days));
      destruct (Z.leb_spec (584389 + days) 3652059); cbn; try reflexivity; lia.
  - unfold mbind, result_bind, datetime_add.
    rewrite mk_timedelta_eq, epoch_ordinal. cbn [td_days td_seconds td_microseconds].
    cbn [CHROME_EPOCH dt_hour dt_minute dt_second dt_microsecond].
    assert (Ecarry : (0 * 3600 + 0 * 60 + 0 + secs + (0 + us mod 1000000) / 1000000)
                     = secs).
    { rewrite (Z.div_small (0 + us mod 1000000)) by lia. lia. }
    rewrite Ecarry.
    rewrite (Z.div_small secs 86400), (Z.mod_small secs 86400) by lia.
    replace (584389 + days + 0) with (584389 + days) by lia.
    replace ((0 + us mod 1000000) mod 1000000) with (us mod 1000000)
      by (rewrite Z.add_0_l; symmetry; apply Z.mod_mod; lia).
    destruct (Z.ltb_spec 999999999 (Z.abs (584389 + days))) as [Hbig' | Hsmall'].
    + destruct (Z.ltb_spec 0 (584389 + days));
        destruct (Z.leb_spec (584389 + days) 3652059); cbn [andb]; try reflexivity; lia.
    + unfold mbind, result_bind, _MAXORDINAL.
      cbn [td_days td_seconds td_microseconds].
      destruct ((0 <? 584389 + days) && (584389 + days <=? 3652059)); [| reflexivity].
      by destruct (_ord2ymd (584389 + days)) as [[y m] d].
Qed.

Lemma chrome_time_convertible (us : Z) :
  convertible us ->
  exists dt, chrome_time (SqlInt us) = Ok dt /\ civil_time_of us dt.
Proof.
  unfold convertible, _MAXORDINAL. intros Hrange.
  rewrite chrome_time_eq. cbv zeta. unfold _MAXORDINAL.
  destruct (Z.ltb_spec 0 (584389 + us / 86400000000)); [| lia].
  destruct (Z.leb_spec (584389 + us / 86400000000) 3652059); [| lia].
  cbn [andb]. eexists. split; [reflexivity |].
  unfold civil_time_of.
  cbn [dt_year dt_month dt_day dt_hour dt_minute dt_second].
  pose proof (ord2ymd_spec (584389 + us / 86400000000) ltac:(lia)) as Hord.
  destruct (_ord2ymd (584389 + us / 86400000000)) as [[y m] d].
  cbn [fst snd]. destruct Hord as (Hm & Hd & Hymd & Hy1 & Hy2).
  unfold _MAXORDINAL in Hy2.
  change (_ymd2ord 1601 1 1) with 584389.
  pose proof (Z.mod_pos_bound us 86400000000 ltac:(lia)) as Hday.
  set (secs := us mod 86400000000 / 1000000).
  assert (Hsecs : 0 <= secs < 86400)
    by (subst secs; Z.div_mod_to_equations; lia).
  clearbody secs.
  repeat split; try lia; Z.div_mod_to_equations; lia.
Qed.

Lemma chrome_time_not_convertible (us : Z) :
  ~ convertible us -> chrome_time (SqlInt us) = Raise OverflowError.
Proof.
  unfold convertible, _MAXORDINAL. intros Hrange.
  rewrite chrome_time_eq. cbv zeta. unfold _MAXORDINAL.
  destruct (Z.ltb_spec 0 (584389 + us / 86400000000));
    destruct (Z.leb_spec (584389 + us / 86400000000) 3652059);
    cbn [andb]; try reflexivity; lia.
Qed.

End Conversion.

Section Formatting.

Lemma length_append (s t : string) :
  String.length (s +:+ t) = (String.length s + String.length t)%nat.
Proof. induction s as [| c s IH]; simpl; [done | by rewrite IH]. Qed.

Lemma zfill_table :
  forallb (fun k => Nat.eqb (String.length (zfill 4 (str_Z k))) 4) (seqZ 0 10000)
  && forallb (fun k => Nat.eqb (String.length (zfill 2 (str_Z k))) 2) (seqZ 0 100)
  = true.
Proof. vm_compute. reflexivity. Qed.

Lemma zfill_4 (k : Z) : 0 <= k <= 9999 -> String.length (zfill 4 (str_Z k)) = 4%nat.
Proof.
  intros Hk. pose proof zfill_table as Htable.
  apply andb_prop in Htable as [Htable _]. rewrite forallb_forall in Htable.
  apply Nat.eqb_eq, Htable, list_elem_of_In, elem_of_seqZ. lia.
Qed.

Lemma zfill_2 (k : Z) : 0 <= k <= 99 -> String.length (zfill 2 (str_Z k)) = 2%nat.
Proof.
  intros Hk. pose proof zfill_table as Htable.
  apply andb_prop in Htable as [_ Htable]. rewrite forallb_forall in Htable.
  apply Nat.eqb_eq, Htable, list_elem_of_In, elem_of_seqZ. lia.
Qed.

(** The formatted time of a civil date has the nineteen characters of
    [YYYY-MM-DD HH:MM:SS]. *)
Lemma strftime_length (us : Z) (dt : datetime) :
  civil_time_of us dt -> String.length (strftime dt) = 19%nat.
Proof.
  intros (Hy & Hm & Hd & _ & Hh & Hmi & Hs & _).
  assert (Hdim : _days_in_month (dt_year dt) (dt_month dt) <= 31).
  { unfold _days_in_month.
    destruct ((dt_month dt =? 2) && _is_leap (dt_year dt)); [lia |].
    assert (Htable : forallb (fun m => index _DAYS_IN_MONTH m <=? 31) (seqZ 1 12)
                     = true) by reflexivity.
    rewrite forallb_forall in Htable.
    apply Z.leb_le, Htable, list_elem_of_In, elem_of_seqZ. lia. }
  unfold strftime. rewrite !length_append.
  rewrite zfill_4, !zfill_2 by lia. reflexivity.
Qed.

(** *** Reading the formatted time back *)

Lemma take_until_app (stop : ascii) (x rest : string) :
  occ stop x = 0%nat ->
  take_until stop (x +:+ String stop rest) = (x, String stop rest).
Proof.
  induction x as [| a x IH]; intros Hx.
  - change (take_until stop (String stop rest) = ("", String stop rest)).
    cbn [take_until]. by rewrite decide_True.
  - cbn [occ] in Hx.
    change (take_until stop (String a (x +:+ String stop rest))
            = (String a x, String stop rest)).
    cbn [take_until].
    destruct (decide (a = stop)) as [-> | Hne]; [discriminate Hx |].
    by rewrite IH.
Qed.








End Formatting.




(** ** Bookmarks: one traversal for both renderers *)

Section Traversal.



(** The exporter appends: what it was given stays in front. *)
Lemma write_netscape_node_app (n : node) :
  forall parts indent,
    _write_netscape_node n parts indent
    = parts ++ _write_netscape_node n [] indent.
Proof.
  induction n as [type name url | type name url cs IH] using node_ind';
    intros parts indent; cbn [_write_netscape_node];
    destruct (decide (type = Some "folder")); try destruct (decide (type = Some "url"));
    rewrite ?app_nil_l, ?app_nil_r; try done; try (by rewrite <- ?app_assoc).
  all: assert (Hfold : forall acc,
    fold_left (fun ps child => _write_netscape_node child ps (S indent)) cs acc
    = acc ++ fold_left (fun ps child => _write_netscape_node child ps (S indent)) cs [])
    by (induction IH as [| c cs Hc _ IHcs]; intros acc; cbn [fold_left];
        [by rewrite app_nil_r
        | rewrite IHcs, (IHcs (_write_netscape_node c [] (S indent))), (Hc acc);
          by rewrite app_assoc]).
  all: rewrite (Hfold ((parts ++ _) ++ _)), (Hfold ([_] ++ _)).
  all: by rewrite <- !app_assoc.
Qed.

Lemma write_children_flat (cs : list node) (indent : nat) (acc : list string) :
  fold_left (fun ps child => _write_netscape_node child ps indent) cs acc
  = acc ++ flat_map (fun child => _write_netscape_node child [] indent) cs.
Proof.
  revert acc. induction cs as [| c cs IH]; intros acc; cbn [fold_left flat_map].
  - by rewrite app_nil_r.
  - by rewrite IH, write_netscape_node_app, app_assoc.
Qed.

Lemma lstrip_indent (k : nat) (s : string) :
  lstrip_spaces (repeat_str "    " k +:+ s) = lstrip_spaces s.
Proof. induction k as [| k IH]; [done | exact IH]. Qed.

Lemma entry_line_indent (k : nat) (s : string) :
  is_entry_line (repeat_str "    " k +:+ s) = is_entry_line s.
Proof. unfold is_entry_line. by rewrite lstrip_indent. Qed.

Lemma entry_line_folder (k : nat) (name : string) :
  is_entry_line (repeat_str "    " k +:+ "<DT><H3>" +:+ name +:+ "</H3>") = true.
Proof. by rewrite entry_line_indent. Qed.

Lemma entry_line_link (k : nat) (rest : string) :
  is_entry_line (repeat_str "    " k +:+ ("<DT><A HREF=" +:+ dq) +:+ rest) = true.
Proof. by rewrite entry_line_indent. Qed.

Lemma entry_line_open (k : nat) :
  is_entry_line (repeat_str "    " k +:+ "<DL><p>") = false.
Proof. by rewrite entry_line_indent. Qed.

Lemma entry_line_close (k : nat) :
  is_entry_line (repeat_str "    " k +:+ "</DL><p>") = false.
Proof. by rewrite entry_line_indent. Qed.

(** Among the lines the exporter writes for a node, those that carry an
    entry are the records of the walk, one line each. *)
Lemma write_netscape_node_entries (n : node) :
  forall depth,
    List.filter is_entry_line (_write_netscape_node n [] (S depth))
    = map netscape_entry (walk_bookmarks n depth).
Proof.
  induction n as [type name url | type name url cs IH] using node_ind';
    intros depth; cbn [_write_netscape_node walk_bookmarks];
    (destruct (decide (type = Some "folder"));
     [| destruct (decide (type = Some "url")); [| done]]).
  - cbn [app List.filter map netscape_entry].
    rewrite entry_line_folder, entry_line_open, entry_line_close.
    by rewrite decide_True.
  - cbn [app List.filter map netscape_entry].
    rewrite entry_line_link. by rewrite decide_False.
  - rewrite write_children_flat, !List.filter_app.
    cbn [List.filter app map netscape_entry].
    rewrite entry_line_folder, entry_line_open, entry_line_close.
    rewrite decide_True by done. cbn [app]. rewrite app_nil_r. f_equal.
    induction IH as [| c cs Hc _ IHcs]; [done |].
    cbn [flat_map]. by rewrite List.filter_app, map_app, Hc, IHcs.
  - cbn [app List.filter map netscape_entry].
    rewrite entry_line_link. by rewrite decide_False.
Qed.

Lemma netscape_roots_entries (roots : roots_map) :
  forall parts,
    List.filter is_entry_line <$> netscape_roots roots parts
    = (fun rs => List.filter is_entry_line parts ++ map netscape_entry rs)
        <$> walk_roots roots.
Proof.
  induction roots as [| [root_name root_node] roots IH]; intros parts.
  - cbn. by rewrite app_nil_r.
  - cbn [netscape_roots walk_roots].
    destruct (internal_root root_name); [apply IH |].
    destruct root_node as [n | s]; [| done].
    cbn [write_netscape_root walk_root]. unfold mbind at 1 3. cbn [result_bind].
    rewrite IH, write_netscape_node_app, List.filter_app, write_netscape_node_entries.
    destruct (walk_roots roots) as [more |]; [| done].
    cbn. by rewrite map_app, app_assoc.
Qed.

Lemma netscape_parts_inv (root : string * root_value) (roots : roots_map)
    (parts : list string) :
  netscape_parts (Some (root :: roots)) = Ok parts ->
  exists body,
    netscape_roots (root :: roots) netscape_head = Ok body
    /\ parts = body ++ ["</DL><p>"].
Proof.
  unfold netscape_parts. cbn [roots_truthy].
  change (default [] (Some (root :: roots))) with (root :: roots).
  unfold mbind, result_bind.
  destruct (netscape_roots (root :: roots) netscape_head) as [body |]; [| done].
  intros [= <-]. by exists body.
Qed.

Lemma netscape_parts_entries (root : string * root_value) (roots : roots_map)
    (parts : list string) :
  netscape_parts (Some (root :: roots)) = Ok parts ->
  exists rs,
    walk_roots (root :: roots) = Ok rs
    /\ List.filter is_entry_line parts = map netscape_entry rs.
Proof.
  intros Hparts. apply netscape_parts_inv in Hparts as (body & Hbody & ->).
  pose proof (netscape_roots_entries (root :: roots) netscape_head) as Hentries.
  rewrite Hbody in Hentries.
  destruct (walk_roots (root :: roots)) as [rs |]; [| done].
  exists rs. split; [done |].
  unfold fmap, result_fmap in Hentries. injection Hentries as Hentries.
  rewrite List.filter_app, Hentries.
  change (List.filter is_entry_line ["</DL><p>"]) with (@nil string).
  apply app_nil_r.
Qed.

End Traversal.



(** ** Escaping *)

Section Occurrences.

Lemma append_assoc (r s t : string) : (r +:+ s) +:+ t = r +:+ s +:+ t.
Proof.
  induction r as [| a r IH]; [done |].
  change (String a ((r +:+ s) +:+ t) = String a (r +:+ s +:+ t)). by rewrite IH.
Qed.

Lemma occ_app (c : ascii) (s t : string) :
  occ c (s +:+ t) = (occ c s + occ c t)%nat.
Proof. induction s as [| a s IH]; simpl; [done | rewrite IH; lia]. Qed.

Lemma markup_chars_cases (c : ascii) :
  c ∈ markup_chars -> c = "<"%char \/ c = ">"%char \/ c = dquote \/ c = "'"%char.
Proof. unfold markup_chars. rewrite !elem_of_cons, elem_of_nil. tauto. Qed.

Lemma occ_escape_char (c a : ascii) :
  c ∈ markup_chars -> occ c (escape_char a) = 0%nat.
Proof.
  intros Hc. unfold escape_char.
  repeat case_decide; subst;
    apply markup_chars_cases in Hc as [-> | [-> | [-> | ->]]];
    try reflexivity; cbn [occ]; by rewrite decide_False.
Qed.

(** No markup character is left in an escaped string. *)
Lemma occ_esc (c : ascii) (s : string) :
  c ∈ markup_chars -> occ c (esc s) = 0%nat.
Proof.
  intros Hc. unfold esc.
  induction s as [| a s IH]; cbn [html_escape]; [done |].
  by rewrite occ_app, occ_escape_char, IH.
Qed.

Lemma startswith_app (p s t : string) :
  startswith p s = true -> startswith p (s +:+ t) = true.
Proof.
  revert s. induction p as [| a p IH]; intros [| b s]; simpl; try done.
  destruct (decide (a = b)); [apply IH | done].
Qed.

Lemma amp_ok_app (s t : string) :
  amp_ok s = true -> amp_ok t = true -> amp_ok (s +:+ t) = true.
Proof.
  intros Hs Ht. induction s as [| a s IH]; [done |].
  cbn [amp_ok String.append] in Hs |- *.
  apply andb_prop in Hs as [Hhead Htail].
  apply andb_true_intro. split; [| by apply IH].
  destruct (decide (a = "&"%char)) as [Ha | Ha]; [| done].
  apply existsb_exists in Hhead as (entity & Hentity & Hstart).
  apply existsb_exists. exists entity. split; [done |].
  by apply (startswith_app entity (String a s) t).
Qed.

Lemma amp_ok_escape_char (a : ascii) (s : string) :
  amp_ok s = true -> amp_ok (escape_char a +:+ s) = true.
Proof.
  intros Hs. unfold escape_char.
  repeat case_decide; subst; try (apply amp_ok_app; [reflexivity | done]).
  simpl. by destruct (decide (a = "&"%char)).
Qed.

(** Every ampersand of an escaped string starts an entity. *)
Lemma amp_ok_esc (s : string) : amp_ok (esc s) = true.
Proof.
  unfold esc. induction s as [| a s IH]; [done |].
  cbn [html_escape]. by apply amp_ok_escape_char.
Qed.

Lemma amp_ok_clean (s : string) : occ "&"%char s = 0%nat -> amp_ok s = true.
Proof.
  induction s as [| a s IH]; [done |]. cbn [occ amp_ok].
  destruct (decide (a = "&"%char)); [done |]. intros Hs. by rewrite IH.
Qed.

(** Decimal numerals are made of digits. *)
Lemma occ_digits (c : ascii) (d : Decimal.uint) :
  (c ∈ markup_chars \/ c = "&"%char) -> occ c (NilEmpty.string_of_uint d) = 0%nat.
Proof.
  intros Hc.
  assert (Hdigit : forall a, a ∈ ["0"; "1"; "2"; "3"; "4"; "5"; "6"; "7"; "8"; "9"]%char
                             -> a <> c).
  { intros a Ha ->. rewrite !elem_of_cons, elem_of_nil in Ha.
    destruct Hc as [Hc | ->];
      [apply markup_chars_cases in Hc as [-> | [-> | [-> | ->]]] |];
      intuition discriminate. }
  induction d as [| d IH | d IH | d IH | d IH | d IH | d IH | d IH | d IH | d IH | d IH];
    cbn [NilEmpty.string_of_uint occ]; [done | ..];
    rewrite IH, decide_False; try done; apply Hdigit;
    rewrite !elem_of_cons; tauto.
Qed.

Lemma occ_str_nat (c : ascii) (n : nat) :
  (c ∈ markup_chars \/ c = "&"%char) -> occ c (str_nat n) = 0%nat.
Proof.
  intros Hc. unfold str_nat, NilZero.string_of_uint.
  destruct (Nat.to_uint n) eqn:E; try (rewrite <- E; by apply occ_digits).
  cbn [occ]. rewrite decide_False; [done |].
  destruct Hc as [Hc | ->];
    [apply markup_chars_cases in Hc as [-> | [-> | [-> | ->]]] |]; discriminate.
Qed.

Lemma occ_indent (c : ascii) (k : nat) :
  (c ∈ markup_chars \/ c = "&"%char) -> occ c (repeat_str "    " k) = 0%nat.
Proof.
  intros Hc. induction k as [| k IH]; [done |].
  cbn [repeat_str]. rewrite occ_app, IH.
  destruct Hc as [Hc | ->];
    [apply markup_chars_cases in Hc as [-> | [-> | [-> | ->]]] |]; reflexivity.
Qed.

(** Occurrences in a joined document, part by part. *)
Lemma occ_join (c : ascii) (sep : string) (parts parts' : list string) :
  Forall2 (fun p p' => occ c p = occ c p') parts parts' ->
  occ c (join sep parts) = occ c (join sep parts').
Proof.
  induction 1 as [| p p' parts parts' Hp Hparts IH]; [done |].
  destruct Hparts as [| q q' parts parts' Hq Hparts]; [exact Hp |].
  change (occ c (p +:+ sep +:+ join sep (q :: parts))
          = occ c (p' +:+ sep +:+ join sep (q' :: parts'))).
  by rewrite !occ_app, Hp, IH.
Qed.

Lemma amp_ok_join (sep : string) (parts : list string) :
  amp_ok sep = true -> Forall (fun p => amp_ok p = true) parts ->
  amp_ok (join sep parts) = true.
Proof.
  intros Hsep. induction 1 as [| p parts Hp Hparts IH]; [done |].
  destruct parts as [| q parts]; [exact Hp |].
  change (amp_ok (p +:+ sep +:+ join sep (q :: parts)) = true).
  auto using amp_ok_app.
Qed.

End Occurrences.

Section Documents.

Variable c : ascii.
Hypothesis Hc : c ∈ markup_chars.

#[local] Abbreviation alike := (fun p p' : string => occ c p = occ c p').

Ltac count_pieces :=
  rewrite ?occ_app, ?occ_esc, ?occ_str_nat, ?occ_indent
    by first [exact Hc | left; exact Hc].

Lemma alike_refl (parts : list string) : Forall2 alike parts parts.
Proof. by apply Forall_Forall2_diag, Forall_forall. Qed.

Lemma tab_item_alike (t t' : tab_entry) : occ c (tab_item t) = occ c (tab_item t').
Proof.
  destruct t as [url title], t' as [url' title']. unfold tab_item.
  destruct (truthy title), (truthy title'); by count_pieces.
Qed.

Lemma history_item_alike (h h' : history_entry) :
  occ c (history_item h) = occ c (history_item h').
Proof.
  destruct h as [[url title] time_str], h' as [[url' title'] time_str'].
  unfold history_item.
  destruct (truthy title), (truthy title'); by count_pieces.
Qed.

Lemma bookmark_line_alike (depth : nat) (node_type name name' : string)
    (url url' : option string) :
  occ c (bookmark_line (depth, node_type, name, url))
  = occ c (bookmark_line (depth, node_type, name', url')).
Proof.
  unfold bookmark_line. destruct (decide (node_type = "folder")); by count_pieces.
Qed.

Lemma netscape_folder_alike (k : nat) (name name' : string) :
  occ c (repeat_str "    " k +:+ "<DT><H3>" +:+ esc name +:+ "</H3>")
  = occ c (repeat_str "    " k +:+ "<DT><H3>" +:+ esc name' +:+ "</H3>").
Proof. by count_pieces. Qed.

Lemma netscape_link_alike (k : nat) (name name' url url' : string) :
  occ c (repeat_str "    " k +:+ ("<DT><A HREF=" +:+ dq) +:+ esc url
         +:+ (dq +:+ ">") +:+ esc name +:+ "</A>")
  = occ c (repeat_str "    " k +:+ ("<DT><A HREF=" +:+ dq) +:+ esc url'
           +:+ (dq +:+ ">") +:+ esc name' +:+ "</A>").
Proof. by count_pieces. Qed.

Lemma map_alike {A : Type} (f : A -> string) (l l' : list A) :
  length l = length l' -> (forall x y, occ c (f x) = occ c (f y)) ->
  Forall2 alike (map f l) (map f l').
Proof.
  intros Hlen Hf. revert l' Hlen.
  induction l as [| x l IH]; intros [| y l'] Hlen; try done; cbn [map].
  constructor; [apply Hf | apply IH; by injection Hlen].
Qed.

Lemma tabs_section_same_length (tabs tabs' : list tab_entry) :
  length tabs = length tabs' ->
  Forall2 alike (tabs_section (Some tabs)) (tabs_section (Some tabs')).
Proof.
  intros Hlen. unfold tabs_section. rewrite Hlen.
  destruct tabs as [| t tabs], tabs' as [| t' tabs']; try done;
    try apply alike_refl.
  apply Forall2_app; [apply alike_refl |].
  apply Forall2_app; [apply alike_refl |].
  apply Forall2_app; [| apply alike_refl].
  apply map_alike; [done | apply tab_item_alike].
Qed.

Lemma tabs_section_alike tabs :
  Forall2 alike (tabs_section tabs) (tabs_section (blank_tabs tabs)).
Proof.
  destruct tabs as [tabs |]; [| apply alike_refl].
  apply tabs_section_same_length. by rewrite length_map.
Qed.

Lemma history_section_same_length (history history' : list history_entry) :
  length history = length history' ->
  Forall2 alike (history_section (Some history)) (history_section (Some history')).
Proof.
  intros Hlen. unfold history_section. rewrite Hlen.
  destruct history as [| h history], history' as [| h' history']; try done;
    try apply alike_refl.
  apply Forall2_app; [apply alike_refl |].
  apply Forall2_app; [apply alike_refl |].
  apply Forall2_app; [| apply alike_refl].
  apply map_alike; [done | apply history_item_alike].
Qed.

Lemma history_section_alike history :
  Forall2 alike (history_section history) (history_section (blank_history history)).
Proof.
  destruct history as [history |]; [| apply alike_refl].
  apply history_section_same_length. by rewrite length_map.
Qed.

(** *** Bookmarks *)

Lemma walk_bookmarks_blank (n : node) :
  forall depth,
    Forall2 same_shape (walk_bookmarks n depth) (walk_bookmarks (blank_node n) depth).
Proof.
  induction n as [type name url | type name url cs IH] using node_ind';
    intros depth; cbn [walk_bookmarks blank_node fmap option_fmap option_map];
    (destruct (decide (type = Some "folder"));
     [| destruct (decide (type = Some "url")); [| constructor]]);
    try (by repeat constructor).
  constructor; [done |].
  induction IH as [| child cs Hchild _ IHcs]; [constructor |].
  cbn [map flat_map]. apply Forall2_app; [apply Hchild | apply IHcs].
Qed.

Lemma walk_roots_blank (roots : roots_map) :
  result_rel (Forall2 same_shape) (walk_roots roots) (walk_roots (map blank_root roots)).
Proof.
  induction roots as [| [root_name [n | s]] roots IH]; cbn [map blank_root walk_roots].
  - constructor.
  - destruct (internal_root root_name); [exact IH |].
    cbn [walk_root]. unfold mbind, result_bind.
    destruct (walk_roots roots), (walk_roots (map blank_root roots)); try done.
    apply Forall2_app; [apply walk_bookmarks_blank | exact IH].
  - by destruct (internal_root root_name).
Qed.

Lemma bookmark_lines_alike (rs rs' : list walk_record) :
  Forall2 same_shape rs rs' ->
  Forall2 alike (map bookmark_line rs) (map bookmark_line rs')
  /\ list_sum (map bookmark_incr rs) = list_sum (map bookmark_incr rs').
Proof.
  induction 1 as [| [[[d k] nm] u] [[[d' k'] nm'] u'] rs rs' [Hd Hk] _ [IHl IHs]];
    [by split; [constructor |] |].
  cbn [fst snd] in Hd, Hk. subst d' k'. split.
  - cbn [map]. constructor; [apply bookmark_line_alike | exact IHl].
  - unfold list_sum in *. cbn [map fold_right]. by rewrite IHs.
Qed.

Lemma bookmarks_section_alike (roots : option roots_map) :
  result_rel (Forall2 alike)
    (bookmarks_section roots) (bookmarks_section (blank_roots roots)).
Proof.
  destruct roots as [[| r roots] |]; try apply alike_refl.
  cbn [blank_roots fmap option_fmap option_map map].
  change (blank_root r :: map blank_root roots) with (map blank_root (r :: roots)).
  pose proof (walk_roots_blank (r :: roots)) as Hwalk.
  unfold bookmarks_section.
  change (match map blank_root (r :: roots) with
          | [] => _
          | _ :: _ => ?k
          end) with k.
  unfold mbind, result_bind.
  destruct (walk_roots (r :: roots)) as [rs |],
    (walk_roots (map blank_root (r :: roots))) as [rs' |]; try done.
  cbn [result_rel] in Hwalk |- *.
  destruct (bookmark_lines_alike rs rs' Hwalk) as [Hlines Hcount].
  rewrite Hcount.
  apply Forall2_app; [apply alike_refl | exact Hlines].
Qed.

Lemma nav_links_blank tabs history :
  nav_links (blank_tabs tabs) (blank_history history) = nav_links tabs history.
Proof. by destruct tabs, history. Qed.

Lemma dashboard_parts_alike tabs roots history :
  result_rel (Forall2 alike)
    (dashboard_parts tabs roots history)
    (dashboard_parts (blank_tabs tabs) (blank_roots roots) (blank_history history)).
Proof.
  unfold dashboard_parts. rewrite nav_links_blank.
  pose proof (bookmarks_section_alike roots) as Hbm.
  unfold mbind, result_bind.
  destruct (bookmarks_section roots) as [bm |],
    (bookmarks_section (blank_roots roots)) as [bm' |]; try done.
  cbn [result_rel] in Hbm |- *.
  repeat (apply Forall2_app);
    auto using alike_refl, tabs_section_alike, history_section_alike.
Qed.

Lemma occ_doc_alike (x y : result (list string)) :
  result_rel (Forall2 alike) x y -> occ_doc c x = occ_doc c y.
Proof.
  destruct x as [parts | e], y as [parts' | e']; try done.
  - intros Hparts. unfold occ_doc. cbn. f_equal. by apply occ_join.
  - by intros ->.
Qed.

(** *** The export *)

Lemma write_netscape_node_alike (n : node) :
  forall indent,
    Forall2 alike (_write_netscape_node n [] indent)
      (_write_netscape_node (blank_node n) [] indent).
Proof.
  induction n as [type name url | type name url cs IH] using node_ind';
    intros indent;
    cbn [_write_netscape_node blank_node fmap option_fmap option_map];
    (destruct (decide (type = Some "folder"));
     [| destruct (decide (type = Some "url")); [| constructor]]);
    cbn [app].
  - repeat constructor. destruct name; apply netscape_folder_alike.
  - repeat constructor. destruct name, url; apply netscape_link_alike.
  - rewrite !write_children_flat. cbn [app].
    constructor; [destruct name; apply netscape_folder_alike |].
    constructor; [done |].
    apply Forall2_app; [| by repeat constructor].
    induction IH as [| child cs Hchild _ IHcs]; [constructor |].
    cbn [map flat_map]. apply Forall2_app; [apply Hchild | apply IHcs].
  - repeat constructor. destruct name, url; apply netscape_link_alike.
Qed.

Lemma netscape_roots_alike (roots : roots_map) :
  forall parts parts',
    Forall2 alike parts parts' ->
    result_rel (Forall2 alike)
      (netscape_roots roots parts) (netscape_roots (map blank_root roots) parts').
Proof.
  induction roots as [| [root_name [n | s]] roots IH]; intros parts parts' Hparts;
    cbn [map blank_root netscape_roots].
  - exact Hparts.
  - destruct (internal_root root_name); [by apply IH |].
    cbn [write_netscape_root]. unfold mbind, result_bind. apply IH.
    rewrite (write_netscape_node_app n), (write_netscape_node_app (blank_node n)).
    apply Forall2_app; [exact Hparts | apply write_netscape_node_alike].
  - destruct (internal_root root_name); [by apply IH | done].
Qed.

Lemma netscape_parts_alike (roots : option roots_map) :
  result_rel (Forall2 alike)
    (netscape_parts roots) (netscape_parts (blank_roots roots)).
Proof.
  unfold netscape_parts.
  destruct roots as [[| r roots] |]; try apply alike_refl.
  cbn [blank_roots fmap option_fmap option_map roots_truthy map].
  change (default [] (Some (r :: roots))) with (r :: roots).
  change (default [] (Some (blank_root r :: map blank_root roots)))
    with (map blank_root (r :: roots)).
  pose proof (netscape_roots_alike (r :: roots) _ _ (alike_refl netscape_head))
    as Hroots.
  unfold mbind, result_bind.
  destruct (netscape_roots (r :: roots) netscape_head) as [parts |],
    (netscape_roots (map blank_root (r :: roots)) netscape_head) as [parts' |];
    try done.
  cbn [result_rel] in Hroots |- *.
  apply Forall2_app; [exact Hroots | apply alike_refl].
Qed.

End Documents.

Section Ampersands.

#[local] Abbreviation sound := (Forall (fun p : string => amp_ok p = true)).

Ltac sound_pieces :=
  repeat match goal with
         | |- amp_ok (String.append _ _) = true => apply amp_ok_app
         end;
  first [ apply amp_ok_esc
        | apply amp_ok_clean, occ_str_nat; by right
        | apply amp_ok_clean, occ_indent; by right
        | reflexivity ].

Lemma tab_item_sound (t : tab_entry) : amp_ok (tab_item t) = true.
Proof.
  destruct t as [url title]. unfold tab_item.
  destruct (truthy title); sound_pieces.
Qed.

Lemma history_item_sound (h : history_entry) : amp_ok (history_item h) = true.
Proof.
  destruct h as [[url title] time_str]. unfold history_item.
  destruct (truthy title); sound_pieces.
Qed.

Lemma bookmark_line_sound (r : walk_record) : amp_ok (bookmark_line r) = true.
Proof.
  destruct r as [[[depth node_type] name] url]. unfold bookmark_line.
  destruct (decide (node_type = "folder")); sound_pieces.
Qed.

Lemma map_sound {A : Type} (f : A -> string) (l : list A) :
  (forall x, amp_ok (f x) = true) -> sound (map f l).
Proof. intros Hf. induction l; by constructor. Qed.

Lemma tabs_section_sound tabs : sound (tabs_section tabs).
Proof.
  destruct tabs as [[| t tabs] |]; unfold tabs_section;
    repeat (apply Forall_app; split); repeat constructor;
    try apply (map_sound tab_item), tab_item_sound; try apply tab_item_sound;
    sound_pieces.
Qed.

Lemma history_section_sound history : sound (history_section history).
Proof.
  destruct history as [[| h history] |]; unfold history_section;
    repeat (apply Forall_app; split); repeat constructor;
    try apply (map_sound history_item), history_item_sound;
    try apply history_item_sound; sound_pieces.
Qed.

Lemma bookmarks_section_sound roots parts :
  bookmarks_section roots = Ok parts -> sound parts.
Proof.
  unfold bookmarks_section.
  destruct roots as [[| r roots] |]; try (intros [= <-]; by repeat constructor).
  destruct (walk_roots (r :: roots)) as [rs |]; [| done].
  intros [= <-].
  constructor; [reflexivity |]. constructor; [sound_pieces |].
  apply map_sound, bookmark_line_sound.
Qed.

Lemma dashboard_head_sound : amp_ok dashboard_head = true.
Proof. vm_compute. reflexivity. Qed.

Lemma dashboard_parts_sound tabs roots history parts :
  dashboard_parts tabs roots history = Ok parts -> sound parts.
Proof.
  intros Hparts. apply dashboard_parts_inv in Hparts as (bm & Hbm & ->).
  repeat (apply Forall_app; split);
    eauto using tabs_section_sound, history_section_sound, bookmarks_section_sound;
    try (repeat constructor; apply dashboard_head_sound);
    try (by destruct tabs; repeat constructor);
    try (by destruct history; repeat constructor).
Qed.

Lemma write_netscape_node_sound (n : node) :
  forall indent, sound (_write_netscape_node n [] indent).
Proof.
  induction n as [type name url | type name url cs IH] using node_ind';
    intros indent; cbn [_write_netscape_node];
    (destruct (decide (type = Some "folder"));
     [| destruct (decide (type = Some "url")); [| constructor]]);
    cbn [app]; rewrite ?write_children_flat;
    repeat (apply Forall_app; split); repeat constructor; try sound_pieces.
  induction IH as [| child cs Hchild _ IHcs]; [constructor |].
  cbn [flat_map]. apply Forall_app. split; [apply Hchild | apply IHcs].
Qed.

Lemma netscape_roots_sound (roots : roots_map) :
  forall parts parts',
    sound parts -> netscape_roots roots parts = Ok parts' -> sound parts'.
Proof.
  induction roots as [| [root_name [n | s]] roots IH]; intros parts parts' Hparts;
    cbn [netscape_roots].
  - by intros [= <-].
  - destruct (internal_root root_name); [by apply IH |].
    cbn [write_netscape_root]. unfold mbind, result_bind. apply IH.
    rewrite write_netscape_node_app. apply Forall_app.
    split; [done | apply write_netscape_node_sound].
  - destruct (internal_root root_name); [by apply IH | done].
Qed.

Lemma netscape_parts_sound roots parts :
  netscape_parts roots = Ok parts -> sound parts.
Proof.
  unfold netscape_parts, mbind, result_bind.
  assert (Hhead : sound netscape_head) by (by repeat constructor).
  destruct (roots_truthy roots).
  - destruct (netscape_roots _ _) as [ps |] eqn:Hroots; [| done].
    intros [= <-]. apply Forall_app. split; [| by repeat constructor].
    by apply (netscape_roots_sound _ _ _ Hhead Hroots).
  - intros [= <-]. by repeat constructor.
Qed.

End Ampersands.

(** *** Reading the documents back *)

Section Reading.

Lemma strip_prefix_app (l rest : string) : strip_prefix l (l +:+ rest) = Some rest.
Proof.
  induction l as [| a l IH]; [done |].
  change (strip_prefix (String a l) (String a (l +:+ rest)) = Some rest).
  cbn [strip_prefix]. by rewrite decide_True.
Qed.

Lemma decode_entity_app (name : string) (c : ascii) (rest : string) :
  (name, c) ∈ entity_chars ->
  decode_entity entity_chars (name +:+ rest) = Some (c, rest).
Proof.
  unfold entity_chars. rewrite !elem_of_cons, elem_of_nil.
  intros [[= -> ->] | [[= -> ->] | [[= -> ->] | [[= -> ->] | [[= -> ->] | []]]]]];
    reflexivity.
Qed.

Lemma unescape_from_esc (s : string) (fuel : nat) :
  (String.length (html_escape s) <= fuel)%nat ->
  unescape_from fuel (html_escape s) = s.
Proof.
  revert fuel. induction s as [| a s IH]; intros fuel Hfuel.
  - by destruct fuel.
  - cbn [html_escape] in *. rewrite length_append in Hfuel.
    assert (Hentity : forall name c,
              (name, c) ∈ entity_chars -> escape_char a = String "&" name -> a = c ->
              unescape_from fuel (escape_char a +:+ html_escape s) = String a s).
    { intros name c Hin Hesc ->. rewrite Hesc in *.
      destruct fuel as [| fuel]; [cbn in Hfuel; lia |].
      change (unescape_from (S fuel) (String "&" (name +:+ html_escape s))
              = String c s).
      cbn [unescape_from].
      destruct (decide ("&"%char = "&"%char)); [| done].
      rewrite (decode_entity_app name c) by done.
      f_equal. apply IH. cbn [String.length] in Hfuel. lia. }
    destruct (decide (a = "&"%char)) as [Ha | Hamp].
    { apply (Hentity "amp;" "&"%char); [apply list_elem_of_here | | done].
      by subst a. }
    destruct (decide (a = "<"%char)) as [Ha | Hlt].
    { apply (Hentity "lt;" "<"%char);
        [apply list_elem_of_further, list_elem_of_here | | done].
      by subst a. }
    destruct (decide (a = ">"%char)) as [Ha | Hgt].
    { apply (Hentity "gt;" ">"%char);
        [do 2 apply list_elem_of_further; apply list_elem_of_here | | done].
      by subst a. }
    destruct (decide (a = dquote)) as [Ha | Hdq].
    { apply (Hentity "quot;" dquote);
        [do 3 apply list_elem_of_further; apply list_elem_of_here | | done].
      by subst a. }
    destruct (decide (a = "'"%char)) as [Ha | Hap].
    { apply (Hentity "#x27;" "'"%char);
        [do 4 apply list_elem_of_further; apply list_elem_of_here | | done].
      by subst a. }
    assert (Hplain : escape_char a = String a "").
    { unfold escape_char. by rewrite !decide_False by done. }
    rewrite Hplain in *.
    destruct fuel as [| fuel]; [cbn in Hfuel; lia |].
    change (unescape_from (S fuel) (String a (html_escape s)) = String a s).
    cbn [unescape_from]. rewrite decide_False by done.
    f_equal. apply IH. cbn [String.length] in Hfuel. lia.
Qed.

(** What is read from an escaped string is the string. *)
Lemma unescape_esc (s : string) : unescape (esc s) = s.
Proof. unfold unescape, esc. by apply unescape_from_esc. Qed.

Lemma read_fields_end (l line : string) : line = l -> read_fields [l] line = Some [].
Proof. intros ->. cbn [read_fields]. by rewrite decide_True. Qed.

(** One text of a line: the escaped string [s] before a piece of markup
    that starts with [stop]. *)
Lemma read_fields_step (l lit : string) (stop : ascii) (l' : string)
    (more : list string) (s tail line : string) :
  lit = String stop l' ->
  line = l +:+ esc s +:+ String stop tail ->
  stop = dquote \/ stop = "<"%char ->
  read_fields (l :: lit :: more) line
  = match read_fields (lit :: more) (String stop tail) with
    | Some fields => Some (s :: fields)
    | None => None
    end.
Proof.
  intros -> -> Hstop.
  assert (Hs : occ stop (esc s) = 0%nat).
  { apply occ_esc. unfold markup_chars. rewrite !elem_of_cons. tauto. }
  change (read_fields (l :: String stop l' :: more)
            (l +:+ esc s +:+ String stop tail))
    with (match strip_prefix l (l +:+ esc s +:+ String stop tail) with
          | Some rest =>
              let '(field, rest') := take_until stop rest in
              match read_fields (String stop l' :: more) rest' with
              | Some fields => Some (unescape field :: fields)
              | None => None
              end
          | None => None
          end).
  rewrite strip_prefix_app, take_until_app by done.
  by rewrite unescape_esc.
Qed.

Lemma shown_title (title url : string) :
  (if truthy title then esc title else esc url) = esc (display_title title url).
Proof. unfold display_title. by destruct (truthy title). Qed.

Lemma tab_item_reads (t : tab_entry) :
  read_fields tab_template (tab_item t) = Some (tab_fields t).
Proof.
  destruct t as [url title]. unfold tab_template, tab_item, tab_fields.
  rewrite shown_title.
  erewrite read_fields_step; [| reflexivity | reflexivity | by left].
  erewrite read_fields_step; [| reflexivity | reflexivity | by right].
  erewrite read_fields_step; [| reflexivity | reflexivity | by right].
  by erewrite read_fields_end.
Qed.

Lemma history_item_reads (h : history_entry) :
  read_fields history_template (history_item h) = Some (history_fields h).
Proof.
  destruct h as [[url title] time_str].
  unfold history_template, history_item, history_fields.
  rewrite shown_title.
  erewrite read_fields_step; [| reflexivity | reflexivity | by left].
  erewrite read_fields_step; [| reflexivity | reflexivity | by right].
  erewrite read_fields_step; [| reflexivity | reflexivity | by right].
  erewrite read_fields_step; [| reflexivity | reflexivity | by right].
  by erewrite read_fields_end.
Qed.

Lemma bookmark_line_reads (r : walk_record) :
  read_fields (bookmark_template r) (bookmark_line r) = Some (bookmark_fields r).
Proof.
  destruct r as [[[depth node_type] name] url].
  unfold bookmark_template, bookmark_line, bookmark_fields.
  destruct (decide (node_type = "folder")).
  - erewrite read_fields_step; [| reflexivity | by rewrite !append_assoc | by right].
    by erewrite read_fields_end.
  - erewrite read_fields_step; [| reflexivity | by rewrite !append_assoc | by left].
    erewrite read_fields_step; [| reflexivity | reflexivity | by right].
    by erewrite read_fields_end.
Qed.

Lemma netscape_entry_reads (r : walk_record) :
  read_fields (netscape_template r) (netscape_entry r) = Some (bookmark_fields r).
Proof.
  destruct r as [[[depth node_type] name] url].
  unfold netscape_template, netscape_entry, bookmark_fields.
  destruct (decide (node_type = "folder")).
  - erewrite read_fields_step; [| reflexivity | by rewrite !append_assoc | by right].
    by erewrite read_fields_end.
  - erewrite read_fields_step; [| reflexivity | by rewrite !append_assoc | by left].
    erewrite read_fields_step; [| reflexivity | reflexivity | by right].
    by erewrite read_fields_end.
Qed.

End Reading.
Section Places.

Lemma tab_item_in_dashboard tabs roots history parts (t : tab_entry) :
  dashboard_parts tabs roots history = Ok parts ->
  t ∈ default [] tabs -> tab_item t ∈ parts.
Proof.
  intros Hparts Hin. apply dashboard_parts_inv in Hparts as (bm & _ & ->).
  destruct tabs as [[| t0 tabs] |]; cbn in Hin; try by apply elem_of_nil in Hin.
  rewrite !elem_of_app. right. right. right. left.
  unfold tabs_section. rewrite !elem_of_app. right. right. left.
  by apply list_elem_of_fmap_2.
Qed.

Lemma history_item_in_dashboard tabs roots history parts (h : history_entry) :
  dashboard_parts tabs roots history = Ok parts ->
  h ∈ default [] history -> history_item h ∈ parts.
Proof.
  intros Hparts Hin. apply dashboard_parts_inv in Hparts as (bm & _ & ->).
  destruct history as [[| h0 history] |]; cbn in Hin; try by apply elem_of_nil in Hin.
  rewrite !elem_of_app. do 5 right. left.
  unfold history_section. rewrite !elem_of_app. right. right. left.
  by apply list_elem_of_fmap_2.
Qed.

Lemma bookmark_line_in_dashboard tabs roots history parts rs (r : walk_record) :
  dashboard_parts tabs roots history = Ok parts ->
  roots_truthy roots = true -> walk_roots (default [] roots) = Ok rs ->
  r ∈ rs -> bookmark_line r ∈ parts.
Proof.
  intros Hparts Htruthy Hwalk Hin.
  apply dashboard_parts_inv in Hparts as (bm & Hbm & ->).
  destruct roots as [[| root roots] |]; try discriminate Htruthy.
  change (default [] (Some (root :: roots))) with (root :: roots) in Hwalk.
  unfold bookmarks_section in Hbm. rewrite Hwalk in Hbm.
  cbn [mbind result_bind] in Hbm. injection Hbm as <-.
  rewrite !elem_of_app. do 4 right. left.
  do 2 apply list_elem_of_further. by apply list_elem_of_fmap_2.
Qed.

Lemma netscape_entry_in_export roots parts rs (r : walk_record) :
  netscape_parts roots = Ok parts ->
  roots_truthy roots = true -> walk_roots (default [] roots) = Ok rs ->
  r ∈ rs -> netscape_entry r ∈ parts.
Proof.
  intros Hparts Htruthy Hwalk Hin.
  destruct roots as [[| root roots] |]; try discriminate Htruthy.
  change (default [] (Some (root :: roots))) with (root :: roots) in Hwalk.
  apply netscape_parts_entries in Hparts as (rs' & Hwalk' & Hentries).
  rewrite Hwalk in Hwalk'. injection Hwalk' as <-.
  assert (Hfiltered : netscape_entry r ∈ List.filter is_entry_line parts).
  { rewrite Hentries. by apply list_elem_of_fmap_2. }
  apply list_elem_of_In, List.filter_In in Hfiltered as [Hfiltered _].
  by apply list_elem_of_In.
Qed.

End Places.

(** C6: an escaped string holds none of [<], [>], the double quote and the
    apostrophe, each of its ampersands starts an entity, and a reader of
    markup reads the string itself back from it.  In both documents each
    title, name, URL and timestamp of an entry stands in its line between
    two pieces of markup, in a form that holds no character the next piece
    starts with and that reads back as the user's string; the occurrences
    of the four characters in a document are those of the same document
    with every such string emptied, and every ampersand starts an entity:
    the user's strings reach the markup escaped only. *)
Theorem user_strings_escaped :
  (forall s c, c ∈ markup_chars -> occ c (esc s) = 0%nat)
  /\ (forall s, amp_ok (esc s) = true)
  /\ (forall s, unescape (esc s) = s)
  /\ (forall tabs roots history parts,
        dashboard_parts tabs roots history = Ok parts ->
        (forall t, t ∈ default [] tabs ->
           exists line,
             line ∈ parts /\ read_fields tab_template line = Some (tab_fields t))
        /\ (forall h, h ∈ default [] history ->
              exists line,
                line ∈ parts
                /\ read_fields history_template line = Some (history_fields h))
        /\ (forall rs r,
              roots_truthy roots = true -> walk_roots (default [] roots) = Ok rs ->
              r ∈ rs ->
              exists line,
                line ∈ parts
                /\ read_fields (bookmark_template r) line = Some (bookmark_fields r)))
  /\ (forall roots parts rs r,
        netscape_parts roots = Ok parts ->
        roots_truthy roots = true -> walk_roots (default [] roots) = Ok rs ->
        r ∈ rs ->
        exists line,
          line ∈ parts
          /\ read_fields (netscape_template r) line = Some (bookmark_fields r))
  /\ (forall tabs roots history c,
        c ∈ markup_chars ->
        occ_doc c (dashboard_parts tabs roots history)
        = occ_doc c (dashboard_parts (blank_tabs tabs) (blank_roots roots)
                       (blank_history history)))
  /\ (forall tabs roots history parts,
        dashboard_parts tabs roots history = Ok parts ->
        amp_ok (join newline parts) = true)
  /\ (forall roots c,
        c ∈ markup_chars ->
        occ_doc c (netscape_parts roots) = occ_doc c (netscape_parts (blank_roots roots)))
  /\ (forall roots parts,
        netscape_parts roots = Ok parts -> amp_ok (join newline parts) = true).
Proof.
  split; [intros s c Hc; by apply occ_esc |].
  split; [apply amp_ok_esc |].
  split; [apply unescape_esc |].
  split.
  { intros tabs roots history parts Hparts. split; [| split].
    - intros t Hin. exists (tab_item t).
      split; [by eapply tab_item_in_dashboard | apply tab_item_reads].
    - intros h Hin. exists (history_item h).
      split; [by eapply history_item_in_dashboard | apply history_item_reads].
    - intros rs r Htruthy Hwalk Hin. exists (bookmark_line r).
      split; [by eapply bookmark_line_in_dashboard | apply bookmark_line_reads]. }
  split.
  { intros roots parts rs r Hparts Htruthy Hwalk Hin. exists (netscape_entry r).
    split; [by eapply netscape_entry_in_export | apply netscape_entry_reads]. }
  split; [intros tabs roots history c Hc;
          by apply occ_doc_alike, dashboard_parts_alike |].
  split; [intros tabs roots history parts Hparts;
          apply amp_ok_join; [done | by eapply dashboard_parts_sound] |].
  split; [intros roots c Hc; by apply occ_doc_alike, netscape_parts_alike |].
  intros roots parts Hparts.
  apply amp_ok_join; [done | by eapply netscape_parts_sound].
Qed.

Lemma user_strings_escaped_witness :
  occ "<"%char (esc "<b>A & B</b>") = 0%nat
  /\ unescape (esc "<b>A & B</b>") = "<b>A & B</b>"
  /\ (exists parts line,
        netscape_parts (Some sample_roots) = Ok parts
        /\ line ∈ parts
        /\ read_fields
             [repeat_str "    " 2 +:+ ("<DT><A HREF=" +:+ dq); dq +:+ ">"; "</A>"] line
           = Some ["https://b.example/?q='x'"; "A & B"])
  /\ occ_doc dquote (netscape_parts (Some sample_roots))
     = occ_doc dquote (netscape_parts (blank_roots (Some sample_roots))).
Proof.
  destruct user_strings_escaped as (Hesc & _ & Hread & _ & Hlines & _ & _ & Hexport & _).
  assert (Hlt : "<"%char ∈ markup_chars) by apply list_elem_of_here.
  assert (Hdq : dquote ∈ markup_chars)
    by (apply list_elem_of_In; right; right; by left).
  split; [apply (Hesc _ _ Hlt) |]. split; [apply Hread |].
  split; [| apply (Hexport _ _ Hdq)].
  assert (Hparts : exists parts, netscape_parts (Some sample_roots) = Ok parts)
    by (eexists; reflexivity).
  destruct Hparts as [parts Hparts]. exists parts.
  destruct (Hlines (Some sample_roots) parts _
              (1%nat, "url", "A & B", Some "https://b.example/?q='x'")
              Hparts eq_refl eq_refl) as (line & Hin & Hline).
  { vm_compute. do 4 apply list_elem_of_further. apply list_elem_of_here. }
  exists line. split; [exact Hparts |]. split; [exact Hin | exact Hline].
Defined.


(** * Further properties *)

(** ** Escaping, as a function *)

Section EscapeAlgebra.

Lemma html_escape_app (s t : string) :
  html_escape (s +:+ t) = html_escape s +:+ html_escape t.
Proof.
  induction s as [| a s IH]; [done |]. simpl. by rewrite IH, append_assoc.
Qed.

Lemma escape_char_plain (a : ascii) :
  a <> "&"%char -> a <> "<"%char -> a <> ">"%char -> a <> dquote -> a <> "'"%char ->
  escape_char a = String a "".
Proof. intros. unfold escape_char. by repeat case_decide. Qed.

Lemma escape_char_inj (a b : ascii) (s t : string) :
  escape_char a +:+ s = escape_char b +:+ t -> a = b /\ s = t.
Proof.
  unfold escape_char.
  repeat case_decide; subst; simpl; intros E;
    try (injection E as E; repeat (injection E as ? E); by subst);
    try (by injection E);
    try discriminate E; try congruence.
Qed.

End EscapeAlgebra.

(** X1: escaping loses nothing: two strings with the same escaped form are
    the same string. *)
Theorem esc_injective (s t : string) : esc s = esc t -> s = t.
Proof.
  unfold esc. revert t.
  induction s as [| a s IH]; intros [| b t] E; simpl in E.
  - done.
  - exfalso. unfold escape_char in E. by repeat case_decide.
  - exfalso. unfold escape_char in E. by repeat case_decide.
  - apply escape_char_inj in E as [-> E]. f_equal. by apply IH.
Qed.

Lemma esc_injective_witness : "a<b" = "a<b".
Proof. apply esc_injective. reflexivity. Defined.

(** X2: escaping goes piece by piece, leaves a string without any of the
    five characters as it is, and never shortens a string. *)
Theorem esc_pieces (s t : string) :
  esc (s +:+ t) = esc s +:+ esc t
  /\ ((forall c, c ∈ "&"%char :: markup_chars -> occ c s = 0%nat) -> esc s = s)
  /\ (String.length s <= String.length (esc s))%nat.
Proof.
  split; [apply html_escape_app |]. split.
  - unfold esc. induction s as [| a s IH]; [done |]. intros Hclean. simpl.
    assert (Ha : forall c, c ∈ "&"%char :: markup_chars -> a <> c).
    { intros c Hc ->. specialize (Hclean c Hc). simpl in Hclean.
      by rewrite decide_True in Hclean. }
    rewrite escape_char_plain, IH.
    + done.
    + intros c Hc. specialize (Hclean c Hc). simpl in Hclean. lia.
    + apply Ha. unfold markup_chars. rewrite !elem_of_cons. tauto.
    + apply Ha. unfold markup_chars. rewrite !elem_of_cons. tauto.
    + apply Ha. unfold markup_chars. rewrite !elem_of_cons. tauto.
    + apply Ha. unfold markup_chars. rewrite !elem_of_cons. tauto.
    + apply Ha. unfold markup_chars. rewrite !elem_of_cons. tauto.
  - unfold esc. induction s as [| a s IH]; [done |]. simpl.
    rewrite length_append.
    assert (1 <= String.length (escape_char a))%nat
      by (unfold escape_char; repeat case_decide; simpl; lia).
    lia.
Qed.

Lemma esc_pieces_witness : esc "plain text" = "plain text".
Proof.
  apply (esc_pieces "plain text" "").
  intros c Hc. unfold markup_chars in Hc. rewrite !elem_of_cons, elem_of_nil in Hc.
  destruct Hc as [-> | [-> | [-> | [-> | [-> | []]]]]]; reflexivity.
Defined.

(** ** The walk of a bookmark tree *)

Section WalkShape.

Lemma steps_ok_app (prev : walk_record) (l1 l2 : list walk_record) :
  steps_ok prev l1 -> steps_ok (default prev (last l1)) l2 -> steps_ok prev (l1 ++ l2).
Proof.
  revert prev. induction l1 as [| r l1 IH]; intros prev H1 H2; [exact H2 |].
  cbn [steps_ok] in H1. destruct H1 as (Hup & Hfolder & H1). cbn [app steps_ok].
  split; [done |]. split; [done |]. apply IH; [done |].
  destruct l1 as [| r' l1]; [exact H2 |].
  rewrite last_cons_cons in H2.
  assert (Hlast : is_Some (last (r' :: l1))) by (by apply last_is_Some).
  destruct Hlast as [x Hx]. by rewrite Hx in H2 |- *.
Qed.

Lemma steps_ok_first (prev r : walk_record) (rest : list walk_record) (depth : nat) :
  (depth <= record_depth prev)%nat
  \/ (S (record_depth prev) = depth /\ record_type prev = "folder") ->
  record_depth r = depth -> steps_ok r rest -> steps_ok prev (r :: rest).
Proof.
  intros Hprev Hr Hrest. cbn [steps_ok]. split; [| split; [| done]].
  - destruct Hprev as [? | [? ?]]; lia.
  - intros Hdeeper. destruct Hprev as [? | [? ?]]; [lia | done].
Qed.

Lemma walk_like_nil (depth : nat) : walk_like depth [].
Proof. by split. Qed.

Lemma walk_like_app (depth : nat) (l1 l2 : list walk_record) :
  walk_like depth l1 -> walk_like depth l2 -> walk_like depth (l1 ++ l2).
Proof.
  intros [Hall1 Hsteps1] [Hall2 Hsteps2]. split; [by apply Forall_app |].
  intros prev Hprev. apply steps_ok_app; [by apply Hsteps1 |].
  apply Hsteps2.
  destruct (last l1) as [r |] eqn:Hlast; [| exact Hprev].
  left. apply last_Some_elem_of in Hlast.
  rewrite Forall_forall in Hall1. by apply Hall1.
Qed.

Lemma walk_bookmarks_like (n : node) :
  forall depth, walk_like depth (walk_bookmarks n depth).
Proof.
  induction n as [type name url | type name url cs IH] using node_ind';
    intros depth; cbn [walk_bookmarks];
    (destruct (decide (type = Some "folder"));
     [| destruct (decide (type = Some "url")); [| apply walk_like_nil]]).
  - split.
    + constructor; [| constructor]. split; [by left | done].
    + intros prev Hprev. by apply (steps_ok_first _ _ _ depth).
  - split.
    + constructor; [| constructor].
      split; [right; split; [done | by eexists] | done].
    + intros prev Hprev. by apply (steps_ok_first _ _ _ depth).
  - assert (Hkids : walk_like (S depth)
                      (flat_map (fun child => walk_bookmarks child (S depth)) cs)).
    { induction IH as [| child cs Hchild _ IHcs]; [apply walk_like_nil |].
      cbn [flat_map]. by apply walk_like_app. }
    destruct Hkids as [Hall Hsteps]. split.
    + constructor; [split; [by left | done] |].
      eapply Forall_impl; [exact Hall |].
      intros r [? ?]. split; [done | lia].
    + intros prev Hprev. apply (steps_ok_first _ _ _ depth); [done | done |].
      apply Hsteps. right. by split.
  - split.
    + constructor; [| constructor].
      split; [right; split; [done | by eexists] | done].
    + intros prev Hprev. by apply (steps_ok_first _ _ _ depth).
Qed.

End WalkShape.

Lemma walk_roots_like (roots : roots_map) (rs : list walk_record) :
  walk_roots roots = Ok rs -> walk_like 0 rs.
Proof.
  revert rs. induction roots as [| [root_name [n | s]] roots IH]; intros rs;
    cbn [walk_roots].
  - intros [= <-]. apply walk_like_nil.
  - destruct (internal_root root_name); [apply IH |].
    cbn [walk_root]. unfold mbind, result_bind.
    destruct (walk_roots roots) as [more |]; [| done].
    intros [= <-]. apply walk_like_app; [apply walk_bookmarks_like | by apply IH].
  - destruct (internal_root root_name); [apply IH | done].
Qed.

(** X3: the records both renderers get from the roots are well formed: a
    folder record has no URL and a link record has one, the first record
    is at depth 0, and from a record to the next the depth grows by one at
    most, and only after a folder. *)
Theorem walk_records_shape (roots : roots_map) (rs : list walk_record) :
  walk_roots roots = Ok rs ->
  Forall record_ok rs
  /\ match rs with
     | [] => True
     | r :: rest => record_depth r = 0%nat /\ steps_ok r rest
     end.
Proof.
  intros Hwalk. apply walk_roots_like in Hwalk as [Hall Hsteps]. split.
  - eapply Forall_impl; [exact Hall |]. by intros r [? _].
  - destruct rs as [| r rest]; [done |].
    specialize (Hsteps (0%nat, "url", "", None) (or_introl (Nat.le_refl 0))).
    cbn [steps_ok] in Hsteps. destruct Hsteps as (Hup & Hfolder & Hrest).
    split; [| done].
    unfold record_depth, record_type in *. cbn [fst snd] in *.
    destruct (r.1.1.1) as [| k] eqn:E; [done |].
    exfalso. specialize (Hfolder ltac:(lia)). discriminate Hfolder.
Qed.

Lemma walk_records_shape_witness :
  Forall record_ok
    [(0%nat, "folder", "Bar", None); (1%nat, "url", "Ex", Some "https://example.com");
     (1%nat, "folder", "Untitled", None); (2%nat, "url", "Untitled", Some "");
     (1%nat, "url", "A & B", Some "https://b.example/?q='x'");
     (0%nat, "folder", "Other", None)].
Proof.
  exact (proj1 (walk_records_shape sample_roots _ eq_refl)).
Defined.

(** ** The export against the dashboard *)

Section ExportLines.

Lemma link_line_is_entry (line : string) :
  is_link_line line = true -> is_entry_line line = true.
Proof.
  unfold is_link_line, is_entry_line.
  destruct (lstrip_spaces line) as [| a [| b [| c [| d s]]]]; simpl; try done.
  repeat (case_decide; [| done]). done.
Qed.

Lemma filter_link_of_entries (lines : list string) :
  List.filter is_link_line (List.filter is_entry_line lines)
  = List.filter is_link_line lines.
Proof.
  induction lines as [| line lines IH]; [done |]. cbn [List.filter].
  destruct (is_entry_line line) eqn:Hentry; cbn [List.filter].
  - by rewrite IH.
  - destruct (is_link_line line) eqn:Hlink; [| exact IH].
    apply link_line_is_entry in Hlink. congruence.
Qed.

Lemma link_line_entry (r : walk_record) :
  is_link_line (netscape_entry r)
  = if decide (record_type r = "folder") then false else true.
Proof.
  destruct r as [[[depth node_type] name] url].
  unfold netscape_entry, is_link_line, record_type. cbn [fst snd].
  rewrite lstrip_indent. by destruct (decide (node_type = "folder")).
Qed.

Lemma link_lines_count (rs : list walk_record) :
  length (List.filter is_link_line (map netscape_entry rs))
  = list_sum (map bookmark_incr rs).
Proof.
  induction rs as [| r rs IH]; [done |].
  cbn [map List.filter]. rewrite link_line_entry.
  unfold list_sum in *. cbn [fold_right]. rewrite <- IH.
  destruct r as [[[depth node_type] name] url]. unfold record_type, bookmark_incr.
  cbn [fst snd]. by destruct (decide (node_type = "folder")).
Qed.

End ExportLines.

(** X4: the number the dashboard shows above the bookmarks is the number
    of links the export carries, and the dashboard has one line for each
    folder and link of the export. *)
Theorem bookmark_count_matches_export (root : string * root_value)
    (roots : roots_map) (heading count : string) (lines parts : list string) :
  bookmarks_section (Some (root :: roots)) = Ok (heading :: count :: lines) ->
  netscape_parts (Some (root :: roots)) = Ok parts ->
  count = ("<p class=" +:+ dq +:+ "section-count" +:+ dq +:+ ">")
          +:+ str_nat (length (List.filter is_link_line parts)) +:+ " bookmarks</p>"
  /\ length lines = length (List.filter is_entry_line parts).
Proof.
  intros Hsection Hparts.
  apply netscape_parts_entries in Hparts as (rs & Hwalk & Hentries).
  unfold bookmarks_section in Hsection. rewrite Hwalk in Hsection.
  injection Hsection as _ <- <-.
  rewrite <- filter_link_of_entries, Hentries, link_lines_count, !length_map.
  done.
Qed.

Lemma bookmark_count_matches_export_witness :
  exists count parts,
    netscape_parts (Some sample_roots) = Ok parts
    /\ count = ("<p class=" +:+ dq +:+ "section-count" +:+ dq +:+ ">")
               +:+ str_nat (length (List.filter is_link_line parts))
               +:+ " bookmarks</p>".
Proof.
  eexists _, _. split; [reflexivity |].
  exact (proj1 (bookmark_count_matches_export
                  ("bookmark_bar", RNode sample_tree) (tail sample_roots)
                  _ _ _ _ eq_refl eq_refl)).
Defined.

(** ** The nesting of the export *)

Section Nesting.

Lemma leading_spaces_indent (k : nat) (s : string) :
  leading_spaces (repeat_str "    " k +:+ s) = (4 * k + leading_spaces s)%nat.
Proof.
  induction k as [| k IH]; [done |].
  change (repeat_str "    " (S k) +:+ s)
    with (String " " (String " " (String " " (String " "
            (repeat_str "    " k +:+ s))))).
  cbn [leading_spaces]. rewrite !decide_True by done. rewrite IH. lia.
Qed.

(** How a reader takes the three kinds of lines the exporter writes. *)
Lemma nesting_entry (open : nat) (s : string) (rest : list string) :
  is_entry_line s = true -> is_open_line s = false -> is_close_line s = false ->
  leading_spaces s = 0%nat ->
  nesting open ((repeat_str "    " open +:+ s) :: rest) = nesting open rest.
Proof.
  intros Hentry Hopen Hclose Hlead. cbn [nesting].
  unfold is_open_line, is_close_line in *.
  rewrite entry_line_indent, lstrip_indent, leading_spaces_indent, Hlead.
  rewrite Hopen, Hclose, Hentry.
  by rewrite Nat.add_0_r, Nat.eqb_refl.
Qed.

Lemma nesting_open (open : nat) (rest : list string) :
  nesting open ((repeat_str "    " open +:+ "<DL><p>") :: rest)
  = nesting (S open) rest.
Proof.
  cbn [nesting]. unfold is_open_line.
  rewrite lstrip_indent, leading_spaces_indent.
  change (bool_decide (lstrip_spaces "<DL><p>" = "<DL><p>")) with true.
  change (leading_spaces "<DL><p>") with 0%nat.
  by rewrite Nat.add_0_r, Nat.eqb_refl.
Qed.

Lemma nesting_close (open : nat) (rest : list string) :
  nesting (S open) ((repeat_str "    " open +:+ "</DL><p>") :: rest)
  = nesting open rest.
Proof.
  cbn [nesting]. unfold is_open_line, is_close_line.
  rewrite lstrip_indent, leading_spaces_indent.
  change (bool_decide (lstrip_spaces "</DL><p>" = "<DL><p>")) with false.
  change (bool_decide (lstrip_spaces "</DL><p>" = "</DL><p>")) with true.
  change (leading_spaces "</DL><p>") with 0%nat.
  by rewrite Nat.add_0_r, Nat.eqb_refl.
Qed.

Lemma nesting_folder_line (open : nat) (name : string) (rest : list string) :
  nesting open ((repeat_str "    " open +:+ "<DT><H3>" +:+ name +:+ "</H3>") :: rest)
  = nesting open rest.
Proof. by apply nesting_entry. Qed.

Lemma nesting_link_line (open : nat) (href : string) (rest : list string) :
  nesting open ((repeat_str "    " open +:+ ("<DT><A HREF=" +:+ dq) +:+ href) :: rest)
  = nesting open rest.
Proof. by apply nesting_entry. Qed.

(** What the exporter writes for a node leaves as many lists open as it
    found. *)
Lemma nesting_node (n : node) :
  forall indent rest,
    nesting indent (_write_netscape_node n [] indent ++ rest) = nesting indent rest.
Proof.
  induction n as [type name url | type name url cs IH] using node_ind';
    intros indent rest; cbn [_write_netscape_node];
    (destruct (decide (type = Some "folder"));
     [| destruct (decide (type = Some "url")); [| done]]);
    rewrite ?write_children_flat; cbn [app]; rewrite <- ?app_assoc; cbn [app].
  - by rewrite nesting_folder_line, nesting_open, nesting_close.
  - by rewrite nesting_link_line.
  - rewrite nesting_folder_line, nesting_open.
    assert (Hkids : forall rest',
               nesting (S indent)
                 (flat_map (fun child => _write_netscape_node child [] (S indent)) cs
                  ++ rest')
               = nesting (S indent) rest').
    { induction IH as [| child cs Hchild _ IHcs]; intros rest'; [done |].
      cbn [flat_map]. by rewrite <- app_assoc, Hchild, IHcs. }
    by rewrite Hkids, nesting_close.
  - by rewrite nesting_link_line.
Qed.

Lemma nesting_roots (roots : roots_map) :
  forall parts parts',
    netscape_roots roots parts = Ok parts' ->
    exists body,
      parts' = parts ++ body
      /\ forall rest, nesting 1 (body ++ rest) = nesting 1 rest.
Proof.
  induction roots as [| [root_name [n | s]] roots IH]; intros parts parts';
    cbn [netscape_roots].
  - intros [= <-]. exists []. by rewrite app_nil_r.
  - destruct (internal_root root_name); [apply IH |].
    cbn [write_netscape_root]. unfold mbind, result_bind. intros Hrest.
    apply IH in Hrest as (body & -> & Hbody).
    exists (_write_netscape_node n [] 1 ++ body). split.
    + by rewrite write_netscape_node_app, <- app_assoc.
    + intros rest. by rewrite <- app_assoc, nesting_node, Hbody.
  - destruct (internal_root root_name); [apply IH | done].
Qed.

End Nesting.

(** X5: the export is well nested: its folders and links are written at
    four spaces for each list open around them, every list is closed at the
    indentation it was opened at, none is closed that was not opened, and
    at the end none is left open. *)
Theorem netscape_parts_nested (roots : option roots_map) (parts : list string) :
  netscape_parts roots = Ok parts -> nesting 0 parts = Some 0%nat.
Proof.
  unfold netscape_parts, mbind, result_bind.
  destruct (roots_truthy roots).
  - destruct (netscape_roots _ _) as [body |] eqn:Hbody; [| done].
    intros [= <-]. apply nesting_roots in Hbody as (lines & -> & Hlines).
    rewrite <- app_assoc.
    change (nesting 0 (netscape_head ++ lines ++ ["</DL><p>"]))
      with (nesting 1 (lines ++ ["</DL><p>"])).
    rewrite Hlines. reflexivity.
  - intros [= <-]. reflexivity.
Qed.

Lemma netscape_parts_nested_witness :
  exists parts,
    netscape_parts (Some sample_roots) = Ok parts /\ nesting 0 parts = Some 0%nat.
Proof.
  eexists. split; [reflexivity |].
  apply (netscape_parts_nested (Some sample_roots)). reflexivity.
Defined.

(** ** Roots that are not objects *)

Section ScalarRoots.

Lemma walk_roots_raise (roots : roots_map) (e : exn) :
  walk_roots roots = Raise e
  <-> e = AttributeError
      /\ exists root_name s,
           (root_name, RScalar s) ∈ roots /\ internal_root root_name = false.
Proof.
  revert e. induction roots as [| [root_name [n | s]] roots IH]; intros e;
    cbn [walk_roots].
  - split; [done |]. intros (_ & name & s & Hin & _). by apply elem_of_nil in Hin.
  - destruct (internal_root root_name) eqn:Hroot.
    + rewrite IH. split; intros (He & name & s & Hin & Hname);
        (split; [done |]); exists name, s; (split; [| done]).
      * by right.
      * by apply elem_of_cons in Hin as [Heq | Hin].
    + cbn [walk_root]. unfold mbind, result_bind.
      destruct (walk_roots roots) as [more | e'] eqn:Hmore.
      * split; [done |]. intros (He & name & s & Hin & Hname).
        apply elem_of_cons in Hin as [Heq | Hin]; [done |].
        assert (Hraise : Ok more = Raise e) by (apply IH; eauto).
        done.
      * split.
        -- intros [= <-].
           destruct (proj1 (IH e') eq_refl) as (He & name & s & Hin & Hname).
           split; [done |]. exists name, s. split; [by right | done].
        -- intros (-> & _). by destruct (proj1 (IH e') eq_refl) as [-> _].
  - destruct (internal_root root_name) eqn:Hroot.
    + rewrite IH. split; intros (He & name & s' & Hin & Hname);
        (split; [done |]); exists name, s'; (split; [| done]).
      * by right.
      * apply elem_of_cons in Hin as [[= -> ->] | Hin]; [congruence | done].
    + cbn [walk_root]. unfold mbind, result_bind. split.
      * intros [= <-]. split; [done |]. exists root_name, s.
        split; [by left | done].
      * by intros [-> _].
Qed.

Lemma dashboard_parts_raise tabs (roots : roots_map) history (e : exn) :
  dashboard_parts tabs (Some roots) history = Raise e <-> walk_roots roots = Raise e.
Proof.
  unfold dashboard_parts, bookmarks_section, mbind, result_bind.
  destruct roots as [| r roots]; [split; intros H; discriminate H |].
  destruct (walk_roots (r :: roots));
    [split; intros H; discriminate H | split; intros [= <-]; reflexivity].
Qed.

Lemma netscape_parts_raise (roots : roots_map) (e : exn) :
  netscape_parts (Some roots) = Raise e <-> walk_roots roots = Raise e.
Proof.
  destruct roots as [| r roots]; [split; intros H; discriminate H |].
  unfold netscape_parts. cbn [roots_truthy].
  change (default [] (Some (r :: roots))) with (r :: roots).
  pose proof (netscape_roots_entries (r :: roots) netscape_head) as Hentries.
  unfold mbind, result_bind, fmap, result_fmap in *.
  destruct (netscape_roots (r :: roots) netscape_head),
    (walk_roots (r :: roots)); try done;
    try (split; intros H; discriminate H).
  split; intros [= <-]; congruence.
Qed.

End ScalarRoots.

(** X6: among roots that are otherwise bookmark trees, a root that is not
    an object, under a name other than the two skipped ones, makes both
    renderers raise an [AttributeError] before they open their file; a run
    on such a profile ends with that error uncaught once the extraction is
    over: no document is written and no dialog is shown. *)
Theorem scalar_root_ends_the_run (roots : roots_map) (root_name s : string) :
  (root_name, RScalar s) ∈ roots -> internal_root root_name = false ->
  (forall tabs history out fs,
     dashboard_parts tabs (Some roots) history = Raise AttributeError
     /\ generate_dashboard tabs (Some roots) history out fs = Raise AttributeError)
  /\ (forall out fs,
        netscape_parts (Some roots) = Raise AttributeError
        /\ generate_importable_bookmarks (Some roots) out fs = Raise AttributeError)
  /\ (forall w folder fs1 history,
        w_picked w = Some folder -> folder <> "" ->
        (validate_profile (w_fs w) (Path folder)).1 = true ->
        extract_bookmarks (w_fs w) (Path folder) = Ok (Some roots) ->
        extract_history (w_fs w) (Path folder) default_limit = (fs1, Ok history) ->
        main w = stop fs1 [] (Uncaught AttributeError)).
Proof.
  intros Hin Hname.
  assert (Hwalk : walk_roots roots = Raise AttributeError).
  { apply walk_roots_raise. split; [done |]. by exists root_name, s. }
  assert (Hdash : forall tabs history,
            dashboard_parts tabs (Some roots) history = Raise AttributeError).
  { intros tabs history. by apply dashboard_parts_raise. }
  split; [| split].
  - intros tabs history out fs. split; [apply Hdash |].
    unfold generate_dashboard. by rewrite Hdash.
  - intros out fs.
    assert (Hexport : netscape_parts (Some roots) = Raise AttributeError)
      by (by apply netscape_parts_raise).
    split; [exact Hexport |].
    unfold generate_importable_bookmarks. by rewrite Hexport.
  - intros w folder fs1 history Hpick Hfolder Hok Hroots Hread.
    rewrite (main_picked w folder Hpick Hfolder), Hok, Hroots, Hread.
    cbv zeta. cbn [negb]. unfold generate_dashboard. by rewrite Hdash.
Qed.

Lemma scalar_root_ends_the_run_witness :
  dashboard_parts None (Some [("version", RScalar "1")]) None = Raise AttributeError
  /\ netscape_parts (Some [("version", RScalar "1")]) = Raise AttributeError.
Proof.
  destruct (scalar_root_ends_the_run [("version", RScalar "1")] "version" "1")
    as (Hdash & Hexport & _); [apply list_elem_of_here | reflexivity |].
  split; [apply (Hdash None None [] ∅) | apply (Hexport [] ∅)].
Defined.

(** ** Tabs: when they are present *)

(** X7: the tabs are present exactly when the reader can be imported and
    some record of a candidate has a URL that is neither empty nor
    browser-internal; then every such URL is among the tabs. *)
Theorem extract_tabs_presence (importable : bool) (fs : fsys) (p : path) :
  (extract_tabs importable fs p <> None
   <-> importable = true
       /\ exists t, t ∈ nav_records (candidate_entries fs p) /\ qualifies t.1 = true)
  /\ forall tabs t,
       extract_tabs importable fs p = Some tabs ->
       t ∈ nav_records (candidate_entries fs p) -> qualifies t.1 = true ->
       t.1 ∈ map fst tabs.
Proof.
  pose proof (scan_scanned fs p) as Hscan.
  assert (Hkeep : forall tabs seen_urls t,
             foldl (visit_file fs p) ([], ∅) session_files = (tabs, seen_urls) ->
             t ∈ nav_records (candidate_entries fs p) -> qualifies t.1 = true ->
             t.1 ∈ map fst tabs).
  { intros tabs seen_urls t E Ht Hq. rewrite E in Hscan.
    destruct Hscan as [_ _ _ Hkept]. cbn [fst snd] in Hkept.
    assert (Hurl : t.1 ∈ map fst (nav_records (candidate_entries fs p)))
      by (apply list_elem_of_In, List.in_map, list_elem_of_In, Ht).
    apply first_with_url_exists in Hurl as (t' & Eurl & Hfirst).
    rewrite <- Eurl.
    apply list_elem_of_In, List.in_map, list_elem_of_In, Hkept.
    split; [by rewrite Eurl | done]. }
  split.
  - split.
    + intros Hsome.
      destruct (extract_tabs importable fs p) as [tabs |] eqn:E; [| done].
      pose proof E as Hscanned.
      apply extract_tabs_scan in Hscanned as (Hne & seen_urls & Hfold).
      split; [by destruct importable |].
      rewrite Hfold in Hscan. destruct Hscan as [_ _ Hsub Hkept].
      cbn [fst snd] in *.
      destruct tabs as [| t tabs]; [done |]. exists t.
      assert (Ht : t ∈ t :: tabs) by apply list_elem_of_here.
      split; [by eapply elem_of_sublist | by apply Hkept].
    + intros (-> & t & Ht & Hq). unfold extract_tabs. cbn [negb].
      destruct (foldl (visit_file fs p) ([], ∅) session_files)
        as [tabs seen_urls] eqn:E.
      specialize (Hkeep tabs seen_urls t eq_refl Ht Hq).
      destruct tabs as [| t' tabs]; [by apply elem_of_nil in Hkeep | done].
  - intros tabs t E Ht Hq.
    apply extract_tabs_scan in E as (_ & seen_urls & Hfold). eauto.
Qed.

Lemma extract_tabs_presence_witness :
  extract_tabs true full_fs sample_profile <> None.
Proof.
  apply (extract_tabs_presence true full_fs sample_profile).
  split; [reflexivity |].
  exists ("https://a.example", "A"). split; [| reflexivity].
  vm_compute. apply list_elem_of_here.
Defined.

(** ** History: which stored times are shown *)

Lemma convertible_window (us : Z) :
  convertible us <-> first_convertible <= us <= last_convertible.
Proof.
  unfold convertible, first_convertible, last_convertible, _MAXORDINAL.
  split; intros H; Z.div_mod_to_equations; lia.
Qed.

(** X8: a stored integer is shown as ["Unknown"] exactly when it lies
    outside the window from 0001-01-01 00:00:00 to 9999-12-31 23:59:59.999999,
    in microseconds from 1601: below -50491123200000000 or above
    265046774399999999. *)
Theorem unknown_outside_window (url : string) (title : option string) (us : Z) :
  (convert_row (url, title, SqlInt us)).2 = "Unknown"
  <-> us < first_convertible \/ last_convertible < us.
Proof.
  unfold convert_row. cbn [snd].
  destruct (decide (first_convertible <= us <= last_convertible)) as [Hin | Hout].
  - apply convertible_window in Hin.
    destruct (chrome_time_convertible us Hin) as (dt & -> & Hcivil).
    apply convertible_window in Hin.
    split; [| lia]. intros E. apply (strftime_length us dt) in Hcivil.
    rewrite E in Hcivil. discriminate Hcivil.
  - rewrite chrome_time_not_convertible by (by rewrite convertible_window).
    split; [lia | done].
Qed.

Lemma unknown_outside_window_witness :
  (convert_row ("u", None, SqlInt 265046774400000000)).2 = "Unknown".
Proof.
  apply (unknown_outside_window "u" None 265046774400000000).
  right. reflexivity.
Defined.

(** ** What a run reads and what it writes *)

Section Frame.

Lemma basename_pjoin (p : path) (name : string) : basename (p // name) = name.
Proof. unfold basename, pjoin. by rewrite last_snoc. Qed.

Lemma pjoin_inj (p p' : path) (name name' : string) :
  p // name = p' // name' -> p = p' /\ name = name'.
Proof. unfold pjoin. intros E. by apply app_inj_tail in E. Qed.

Lemma tmp_not_in_tmp (name : string) : tmp_path // name <> tmp_path.
Proof. intros E. apply (f_equal length) in E. discriminate E. Qed.

(** The three ways [extract_history] goes once the History file exists. *)
Lemma extract_history_cases (fs : fsys) (p : path) (limit : Z) (f : file) :
  fs !! (p // "History") = Some f ->
  (f = Dir /\ extract_history fs p limit = (fs, Raise OSError))
  \/ (f <> Dir /\ fs !! tmp_path = Some Dir
      /\ extract_history fs p limit
         = (<[tmp_path // "History" := f]> fs, Raise OSError))
  \/ (f <> Dir /\ fs !! tmp_path <> Some Dir
      /\ extract_history fs p limit
         = (delete tmp_path fs,
            rows ← sqlite_rows {[tmp_path := f]} tmp_path limit;
            Ok (Some (map convert_row rows)))).
Proof.
  intros Hf.
  assert (Hdir : f = Dir \/ f <> Dir) by (destruct f; (by left) || by right).
  destruct Hdir as [-> | Hfile].
  { left. split; [done |]. unfold extract_history, extract_history_with, exists_, copy2.
    rewrite bool_decide_eq_true_2 by (rewrite Hf; eauto). by rewrite Hf. }
  right.
  assert (Hdir : fs !! tmp_path = Some Dir \/ fs !! tmp_path <> Some Dir)
    by (destruct (fs !! tmp_path) as [[] |]; (by left) || by right).
  destruct Hdir as [Htmp | Htmp].
  - left. split; [done |]. split; [done |].
    by apply extract_history_with_dir.
  - right. split; [done |]. split; [done |].
    by apply extract_history_on_copy.
Qed.

(** [extract_history] leaves every path as it was, but the temporary path
    and, when that is a directory, the copy inside it. *)
Lemma extract_history_keeps (fs : fsys) (p : path) (limit : Z) (q : path) :
  q <> tmp_path -> q <> tmp_path // "History" \/ q = p // "History" ->
  (extract_history fs p limit).1 !! q = fs !! q.
Proof.
  intros Hq Hcopy.
  destruct (fs !! (p // "History")) as [f |] eqn:Hf.
  - destruct (extract_history_cases fs p limit f Hf)
      as [[_ ->] | [(_ & _ & ->) | (_ & _ & ->)]]; cbn [fst].
    + done.
    + destruct (decide (q = tmp_path // "History")) as [-> | Hne].
      * destruct Hcopy as [? | E]; [done |].
        rewrite lookup_insert_eq. by rewrite E, Hf.
      * by rewrite lookup_insert_ne.
    + by rewrite lookup_delete_ne.
  - unfold extract_history, extract_history_with, exists_.
    rewrite bool_decide_eq_false_2; [done |]. rewrite Hf. by intros [? ?].
Qed.

Lemma write_text_keeps (fs fs2 : fsys) (out q : path) (text : string) :
  basename q <> basename out -> write_text fs out text = Ok fs2 ->
  fs2 !! q = fs !! q.
Proof.
  intros Hq Hwrite. apply (write_text_frame _ _ _ _ _ Hwrite). by intros ->.
Qed.

End Frame.

(** X9: [extract_history] on a profile without a History file returns
    [None], and on a History that is a directory it raises before any
    copy, the file system untouched in both cases; whatever happens, it
    changes no path but the temporary one (or the copy inside it when that
    is a directory), and never the History file. *)
Theorem extract_history_frame (fs : fsys) (p : path) (limit : Z) :
  (fs !! (p // "History") = None -> extract_history fs p limit = (fs, Ok None))
  /\ (fs !! (p // "History") = Some Dir ->
      extract_history fs p limit = (fs, Raise OSError))
  /\ (forall q, q <> tmp_path -> q <> tmp_path // "History" ->
      (extract_history fs p limit).1 !! q = fs !! q)
  /\ (extract_history fs p limit).1 !! (p // "History") = fs !! (p // "History").
Proof.
  split; [| split; [| split]].
  - intros Hf. unfold extract_history, extract_history_with, exists_.
    rewrite bool_decide_eq_false_2; [done |]. rewrite Hf. by intros [? ?].
  - intros Hf. by destruct (extract_history_cases fs p limit Dir Hf)
      as [[_ ->] | [(? & _) | (? & _)]].
  - intros q Hq Hcopy. apply extract_history_keeps; auto.
  - apply extract_history_keeps; [apply history_path_not_tmp | by right].
Qed.

Lemma extract_history_frame_witness :
  extract_history no_history_fs sample_profile default_limit = (no_history_fs, Ok None).
Proof.
  apply (extract_history_frame no_history_fs sample_profile default_limit).
  reflexivity.
Defined.

Section Runs.

Lemma main_unpicked (w : world) :
  w_picked w = None \/ w_picked w = Some "" -> main w = stop (w_fs w) [] (Exited 0).
Proof. intros [E | E]; unfold main; by rewrite E. Qed.

(** What a run leaves untouched. *)
Lemma main_keeps (w : world) (q : path) :
  q <> tmp_path ->
  (q <> tmp_path // "History"
   \/ exists folder, w_picked w = Some folder /\ q = Path folder // "History") ->
  basename q ∉ output_names ->
  r_fs (main w) !! q = w_fs w !! q.
Proof.
  intros Htmp Hcopy Hout.
  assert (Hdash : forall d, basename q <> basename (d // "Chrome Recovery.html")).
  { intros d E. apply Hout. rewrite E, basename_pjoin. apply list_elem_of_here. }
  assert (Hbm : forall d, basename q <> basename (d // "Chrome Bookmarks.html")).
  { intros d E. apply Hout. rewrite E, basename_pjoin.
    apply list_elem_of_further, list_elem_of_here. }
  destruct (w_picked w) as [folder |] eqn:Hpick;
    [| by rewrite main_unpicked by auto].
  destruct (decide (folder = "")) as [-> | Hfolder];
    [by rewrite main_unpicked by auto |].
  rewrite (main_picked w folder Hpick Hfolder).
  destruct (negb (validate_profile (w_fs w) (Path folder)).1); [done |].
  destruct (extract_bookmarks (w_fs w) (Path folder)) as [roots | e]; [| done].
  assert (Hkept : (extract_history (w_fs w) (Path folder) default_limit).1 !! q
                  = w_fs w !! q).
  { apply extract_history_keeps; [done |].
    destruct Hcopy as [? | (folder' & [= <-] & ->)]; [by left | by right]. }
  destruct (extract_history (w_fs w) (Path folder) default_limit)
    as [fs1 [history | e]]; cbn [fst] in Hkept; [| done].
  cbv zeta. unfold generate_dashboard, generate_importable_bookmarks, mbind, result_bind.
  destruct (dashboard_parts _ roots history) as [parts |]; [| done].
  destruct (write_text fs1 _ _) as [fs2 | e] eqn:Hdashboard; [| done].
  assert (Hkept2 : fs2 !! q = w_fs w !! q).
  { rewrite <- Hkept. by apply (write_text_keeps _ _ _ _ _ (Hdash _) Hdashboard). }
  destruct (roots_truthy roots); [| done].
  destruct (netscape_parts roots) as [nparts |]; [| done].
  destruct (write_text fs2 _ _) as [fs3 | e] eqn:Hexport; [| done].
  cbn [stop r_fs]. rewrite <- Hkept2.
  by apply (write_text_keeps _ _ _ _ _ (Hbm _) Hexport).
Qed.

End Runs.

(** X10: a run never changes a file of the selected profile: the two
    markers and the four session files are the same after it, however it
    ends. *)
Theorem main_keeps_profile (w : world) (folder name : string) :
  w_picked w = Some folder -> name ∈ profile_files ->
  r_fs (main w) !! (Path folder // name) = w_fs w !! (Path folder // name).
Proof.
  intros Hpick Hname.
  assert (Hnames : name <> "chrome_recovery_history_copy" /\ name ∉ output_names).
  { unfold profile_files, EXPECTED_FILES, SESSION_FILES, output_names in *.
    cbn [app] in Hname. rewrite !elem_of_cons, elem_of_nil in Hname.
    rewrite !elem_of_cons, elem_of_nil.
    destruct Hname as [-> | [-> | [-> | [-> | [-> | [-> | []]]]]]];
      split; try discriminate; intros [E | [E | []]]; discriminate E. }
  destruct Hnames as [Hcopy Hout].
  apply main_keeps.
  - intros E. apply (f_equal basename) in E. rewrite basename_pjoin in E. done.
  - destruct (decide (name = "History")) as [-> | Hne]; [right; eauto |].
    left. intros E. by apply pjoin_inj in E as [_ ?].
  - by rewrite basename_pjoin.
Qed.

Lemma main_keeps_profile_witness :
  r_fs (main (world_of full_fs)) !! (Path sample_folder // "History")
  = full_fs !! (Path sample_folder // "History").
Proof.
  apply (main_keeps_profile (world_of full_fs) sample_folder "History"); [reflexivity |].
  unfold profile_files, EXPECTED_FILES. apply list_elem_of_further, list_elem_of_here.
Defined.

(** ** A run that comes to its end *)

Section Outputs.

(** The file system and the effects of a run whose extractions and writes
    all succeed. *)
Lemma main_writes (w : world) (folder : string) (roots : option roots_map)
    (fs1 fs2 fs3 : fsys) (history : option (list history_entry))
    (parts : list string) :
  w_picked w = Some folder -> folder <> "" ->
  (validate_profile (w_fs w) (Path folder)).1 = true ->
  extract_bookmarks (w_fs w) (Path folder) = Ok roots ->
  extract_history (w_fs w) (Path folder) default_limit = (fs1, Ok history) ->
  dashboard_parts (extract_tabs (w_importable w) fs1 (Path folder)) roots history
  = Ok parts ->
  write_text fs1 (dashboard_path_of fs1 (w_home w)) (join newline parts) = Ok fs2 ->
  (if roots_truthy roots
   then exists nparts,
          netscape_parts roots = Ok nparts
          /\ write_text fs2 (bookmarks_path_of fs1 (w_home w)) (join newline nparts)
             = Ok fs3
   else fs3 = fs2) ->
  main w
  = stop fs3
      [Alert "Recovery Complete"
         (summary_message (extract_tabs (w_importable w) fs1 (Path folder))
            roots history) "note";
       Reveal (desktop_of fs1 (w_home w))]
      Returned.
Proof.
  intros Hpick Hfolder Hok Hroots Hread Hparts Hdashboard Hexport.
  rewrite (main_picked w folder Hpick Hfolder), Hok, Hroots, Hread.
  cbv zeta. cbn [negb].
  unfold generate_dashboard, generate_importable_bookmarks, mbind, result_bind.
  rewrite Hparts. unfold dashboard_path_of, bookmarks_path_of in *.
  rewrite Hdashboard.
  destruct (roots_truthy roots).
  - destruct Hexport as (nparts & -> & ->). reflexivity.
  - by rewrite Hexport.
Qed.

(** What a run that returns has done. *)
Lemma main_returned (w : world) :
  r_status (main w) = Returned ->
  exists folder roots fs1 fs2 fs3 history parts,
    w_picked w = Some folder /\ folder <> ""
    /\ (validate_profile (w_fs w) (Path folder)).1 = true
    /\ extract_bookmarks (w_fs w) (Path folder) = Ok roots
    /\ extract_history (w_fs w) (Path folder) default_limit = (fs1, Ok history)
    /\ dashboard_parts (extract_tabs (w_importable w) fs1 (Path folder)) roots history
       = Ok parts
    /\ write_text fs1 (dashboard_path_of fs1 (w_home w)) (join newline parts) = Ok fs2
    /\ (if roots_truthy roots
        then exists nparts,
               netscape_parts roots = Ok nparts
               /\ write_text fs2 (bookmarks_path_of fs1 (w_home w))
                    (join newline nparts) = Ok fs3
        else fs3 = fs2).
Proof.
  destruct (w_picked w) as [folder |] eqn:Hpick;
    [| by rewrite main_unpicked by auto].
  destruct (decide (folder = "")) as [-> | Hfolder];
    [by rewrite main_unpicked by auto |].
  rewrite (main_picked w folder Hpick Hfolder).
  destruct ((validate_profile (w_fs w) (Path folder)).1) eqn:Hok; [| done].
  cbn [negb].
  destruct (extract_bookmarks (w_fs w) (Path folder)) as [roots | e] eqn:Hroots;
    [| done].
  destruct (extract_history (w_fs w) (Path folder) default_limit)
    as [fs1 [history | e]] eqn:Hread; [| done].
  cbv zeta. unfold generate_dashboard, generate_importable_bookmarks, mbind, result_bind.
  destruct (dashboard_parts _ roots history) as [parts |] eqn:Hparts; [| done].
  destruct (write_text fs1 _ _) as [fs2 | e] eqn:Hdashboard; [| done].
  destruct (roots_truthy roots) eqn:Htruthy.
  - destruct (netscape_parts roots) as [nparts |] eqn:Hnparts; [| done].
    destruct (write_text fs2 _ _) as [fs3 | e] eqn:Hexport; [| done].
    intros _. exists folder, roots, fs1, fs2, fs3, history, parts.
    rewrite Htruthy. do 7 (split; [done |]). by exists nparts.
  - intros _. exists folder, roots, fs1, fs2, fs2, history, parts.
    rewrite Htruthy. by do 7 (split; [done |]).
Qed.

End Outputs.

Section Writable.

Lemma is_dir_same (fs fs' : fsys) (p : path) :
  fs' !! p = fs !! p -> is_dir fs' p = is_dir fs p.
Proof. intros E. unfold is_dir. by rewrite E. Qed.

Lemma pjoin_not_self (d : path) (name : string) : d <> d // name.
Proof.
  intros E. apply (f_equal length) in E. unfold pjoin in E.
  rewrite length_app in E. cbn in E. lia.
Qed.

(** After the dashboard is written, the export can be written under the
    same conditions as before. *)
Lemma write_text_after (fs fs2 : fsys) (d : path) (text : string) :
  write_text fs (d // "Chrome Recovery.html") text = Ok fs2 ->
  fs2 !! (d // "Chrome Bookmarks.html") = fs !! (d // "Chrome Bookmarks.html")
  /\ is_dir fs2 d = is_dir fs d.
Proof.
  intros Hwrite. split.
  - apply (write_text_frame _ _ _ _ _ Hwrite), not_eq_sym, dashboard_not_bookmarks.
  - apply is_dir_same, (write_text_frame _ _ _ _ _ Hwrite), pjoin_not_self.
Qed.

End Writable.

(** X11: on a profile that validates, whose Bookmarks document parses to
    bookmark trees (every walked root an object of the shape the browser
    writes) and whose History store answers, the run comes to its end
    exactly when the output directory is a directory and no output name is
    a directory in it (the export's name only when there are roots);
    otherwise it ends with the uncaught [OSError] of the write, no dialog
    shown.  When it comes to its end the dashboard is written, the export
    is written exactly when the roots mapping is not empty, and the
    completion alert and the Finder window follow. *)
Theorem main_outputs (w : world) (folder : string) (roots : option roots_map)
    (rs : list walk_record) (fs1 : fsys) (history : option (list history_entry)) :
  w_picked w = Some folder -> folder <> "" ->
  (validate_profile (w_fs w) (Path folder)).1 = true ->
  extract_bookmarks (w_fs w) (Path folder) = Ok roots ->
  walk_roots (default [] roots) = Ok rs ->
  extract_history (w_fs w) (Path folder) default_limit = (fs1, Ok history) ->
  let tabs := extract_tabs (w_importable w) fs1 (Path folder) in
  let writable :=
    is_dir fs1 (desktop_of fs1 (w_home w)) = true
    /\ fs1 !! dashboard_path_of fs1 (w_home w) <> Some Dir
    /\ (roots_truthy roots = true ->
        fs1 !! bookmarks_path_of fs1 (w_home w) <> Some Dir) in
  (r_status (main w) = Returned <-> writable)
  /\ (~ writable -> r_status (main w) = Uncaught OSError /\ r_effects (main w) = [])
  /\ (writable ->
      r_effects (main w)
      = [Alert "Recovery Complete" (summary_message tabs roots history) "note";
         Reveal (desktop_of fs1 (w_home w))]
      /\ (exists parts,
            dashboard_parts tabs roots history = Ok parts
            /\ r_fs (main w) !! dashboard_path_of fs1 (w_home w)
               = Some (Document (join newline parts)))
      /\ (if roots_truthy roots
          then exists nparts,
                 netscape_parts roots = Ok nparts
                 /\ r_fs (main w) !! bookmarks_path_of fs1 (w_home w)
                    = Some (Document (join newline nparts))
          else r_fs (main w) !! bookmarks_path_of fs1 (w_home w)
               = fs1 !! bookmarks_path_of fs1 (w_home w))).
Proof.
  intros Hpick Hfolder Hok Hroots Hwalk Hread tabs writable.
  assert (Hparts : exists parts, dashboard_parts tabs roots history = Ok parts).
  { destruct (dashboard_parts tabs roots history) as [parts | e] eqn:E; [eauto |].
    destruct roots as [roots |]; [| discriminate E].
    apply dashboard_parts_raise in E. cbn in Hwalk. congruence. }
  assert (Hexport : exists nparts, netscape_parts roots = Ok nparts).
  { destruct (netscape_parts roots) as [nparts | e] eqn:E; [eauto |].
    destruct roots as [roots |]; [| discriminate E].
    apply netscape_parts_raise in E. cbn in Hwalk. congruence. }
  destruct Hparts as [parts Hparts]. destruct Hexport as [nparts Hexport].
  rewrite (main_picked w folder Hpick Hfolder), Hok, Hroots, Hread.
  cbv zeta. cbn [negb].
  unfold generate_dashboard, generate_importable_bookmarks, mbind, result_bind.
  fold tabs. rewrite Hparts, Hexport.
  unfold writable, dashboard_path_of, bookmarks_path_of. clear writable.
  set (d := desktop_of fs1 (w_home w)).
  destruct (write_text fs1 (d // "Chrome Recovery.html") (join newline parts))
    as [fs2 | e] eqn:Hdashboard.
  - destruct (write_text_after _ _ _ _ Hdashboard) as [Hsame Hdir].
    apply write_text_inv in Hdashboard as (Hfs2 & Hout & Hparent).
    rewrite parent_pjoin in Hparent.
    destruct (roots_truthy roots) eqn:Htruthy.
    + destruct (write_text fs2 (d // "Chrome Bookmarks.html") (join newline nparts))
        as [fs3 | e] eqn:Hbookmarks.
      * apply write_text_inv in Hbookmarks as (Hfs3 & Hout3 & _).
        rewrite Hsame in Hout3.
        cbn [stop r_status r_effects r_fs].
        split; [split; [done | intros _; done] |].
        split; [intros Hnot; destruct Hnot; done |]. intros _.
        split; [done |]. split.
        -- exists parts. split; [done |]. subst fs3 fs2.
           rewrite lookup_insert_ne by (apply not_eq_sym, dashboard_not_bookmarks).
           apply lookup_insert_eq.
        -- exists nparts. split; [done |]. subst fs3. apply lookup_insert_eq.
      * apply write_text_raises in Hbookmarks as (-> & Hwhy).
        rewrite parent_pjoin, Hsame, Hdir, Hparent in Hwhy.
        destruct Hwhy as [Hwhy | Hwhy]; [| discriminate Hwhy].
        cbn [stop r_status r_effects r_fs].
        split; [split; [done | intros (_ & _ & Hfree); by destruct Hfree] |].
        split; [done |]. intros (_ & _ & Hfree). by destruct Hfree.
    + cbn [stop r_status r_effects r_fs].
      split; [split; [done | intros _; done] |].
      split; [intros Hnot; destruct Hnot; done |]. intros _.
      split; [done |]. split.
      * exists parts. split; [done |]. subst fs2. apply lookup_insert_eq.
      * exact Hsame.
  - apply write_text_raises in Hdashboard as (-> & Hwhy).
    rewrite parent_pjoin in Hwhy.
    cbn [stop r_status r_effects r_fs].
    assert (Hnot : ~ (is_dir fs1 d = true
                      /\ fs1 !! (d // "Chrome Recovery.html") <> Some Dir
                      /\ (roots_truthy roots = true ->
                          fs1 !! (d // "Chrome Bookmarks.html") <> Some Dir))).
    { intros (Hparent & Hout & _). destruct Hwhy as [Hwhy | Hwhy]; congruence. }
    split; [split; [done | intros H; by destruct Hnot] |].
    split; [done |]. intros H. by destruct Hnot.
Qed.

Lemma main_outputs_witness :
  r_status (main (world_of full_fs)) = Returned
  /\ is_Some (r_fs (main (world_of full_fs))
                !! bookmarks_path_of (delete tmp_path full_fs) sample_home).
Proof.
  assert (Hfolder : sample_folder <> "") by discriminate.
  assert (Hstore : full_fs !! (sample_profile // "History")
                   = Some (SqliteFile good_db)) by reflexivity.
  assert (Hread : extract_history full_fs sample_profile default_limit
                  = (delete tmp_path full_fs,
                     Ok (Some (map convert_row sample_rows)))).
  { apply (extract_history_on_copy _ _ _ (SqliteFile good_db));
      [exact Hstore | discriminate | discriminate]. }
  pose proof (main_outputs (world_of full_fs) sample_folder (Some sample_roots)
                _ (delete tmp_path full_fs) (Some (map convert_row sample_rows))
                eq_refl Hfolder eq_refl eq_refl eq_refl Hread)
    as (Hstatus & _ & Hdone).
  assert (Hwritable :
            is_dir (delete tmp_path full_fs)
              (desktop_of (delete tmp_path full_fs) (w_home (world_of full_fs))) = true
            /\ delete tmp_path full_fs
                 !! dashboard_path_of (delete tmp_path full_fs)
                      (w_home (world_of full_fs)) <> Some Dir
            /\ (roots_truthy (Some sample_roots) = true ->
                delete tmp_path full_fs
                  !! bookmarks_path_of (delete tmp_path full_fs)
                       (w_home (world_of full_fs)) <> Some Dir)).
  { split; [reflexivity |]. split; [discriminate |]. intros _. discriminate. }
  split; [by apply Hstatus |].
  destruct (Hdone Hwritable) as (_ & _ & Hexport).
  cbn [roots_truthy sample_roots] in Hexport.
  destruct Hexport as (nparts & _ & Hwritten).
  exists (Document (join newline nparts)). exact Hwritten.
Defined.

(** ** A second run *)

Section SecondRun.

Lemma validate_profile_same (fs fs' : fsys) (p : path) :
  (forall name, name ∈ EXPECTED_FILES -> fs' !! (p // name) = fs !! (p // name)) ->
  (validate_profile fs' p).1 = (validate_profile fs p).1.
Proof.
  intros Hsame.
  destruct ((validate_profile fs p).1) eqn:Hok.
  - apply validate_profile_ok. apply validate_profile_ok in Hok.
    rewrite !Hsame; [done | |]; unfold EXPECTED_FILES; rewrite !elem_of_cons; tauto.
  - apply not_true_iff_false. apply not_true_iff_false in Hok.
    intros Hok'. apply Hok. apply validate_profile_ok.
    apply validate_profile_ok in Hok'.
    rewrite !Hsame in Hok'; [done | |];
      unfold EXPECTED_FILES; rewrite !elem_of_cons; tauto.
Qed.

Lemma extract_bookmarks_same (fs fs' : fsys) (p : path) :
  fs' !! (p // "Bookmarks") = fs !! (p // "Bookmarks") ->
  extract_bookmarks fs' p = extract_bookmarks fs p.
Proof. intros Hsame. unfold extract_bookmarks. by rewrite Hsame. Qed.

Lemma extract_tabs_same (importable : bool) (fs fs' : fsys) (p : path) :
  (forall name, name ∈ SESSION_FILES -> fs' !! (p // name) = fs !! (p // name)) ->
  extract_tabs importable fs' p = extract_tabs importable fs p.
Proof.
  intros Hsame. unfold extract_tabs, session_files. cbn [foldl].
  unfold visit_file.
  rewrite !Hsame; [done | | | |];
    unfold SESSION_FILES; rewrite !elem_of_cons; tauto.
Qed.

Lemma desktop_of_same (fs fs' : fsys) (home : path) :
  fs' !! (home // "Desktop") = fs !! (home // "Desktop") ->
  desktop_of fs' home = desktop_of fs home.
Proof. intros Hsame. unfold desktop_of, exists_. by rewrite Hsame. Qed.

(** Writing a document that is there already changes nothing. *)
Lemma write_text_again (fs : fsys) (out : path) (text : string) :
  fs !! out = Some (Document text) -> is_dir fs (parent out) = true ->
  write_text fs out text = Ok fs.
Proof.
  intros Hthere Hparent.
  rewrite write_text_ok; [| by rewrite Hthere | done].
  by rewrite insert_id.
Qed.

End SecondRun.

(** X12: a run that came to its end can be repeated: on the file system it
    left, with the same selection, the second run ends the same way, shows
    the same summary and leaves the same file system, the two documents
    byte for byte. *)
Theorem main_twice (w : world) :
  r_status (main w) = Returned -> main (after_run w) = main w.
Proof.
  intros Hend.
  destruct (main_returned w Hend)
    as (folder & roots & fs1' & fs2 & fs3 & history & parts
        & Hpick & Hfolder & Hok & Hroots & Hread & Hparts & Hdashboard & Hexport).
  pose proof Hok as Hfiles. apply validate_profile_ok in Hfiles as [_ [f Hf]].
  destruct (extract_history_cases (w_fs w) (Path folder) default_limit f Hf)
    as [[_ E] | [(_ & _ & E) | (Hfile & Htmp & E)]];
    rewrite Hread in E; try discriminate E.
  injection E as -> Hhistory.
  pose proof (main_writes w folder roots _ fs2 fs3 history parts
                Hpick Hfolder Hok Hroots Hread Hparts Hdashboard Hexport) as Hmain.
  set (fs1 := delete tmp_path (w_fs w)) in *.
  set (d := desktop_of fs1 (w_home w)) in *.
  unfold dashboard_path_of, bookmarks_path_of in Hdashboard, Hexport. fold d in Hdashboard, Hexport.
  assert (Hfs3 : r_fs (main w) = fs3) by (by rewrite Hmain).
  pose proof Hdashboard as Hdir.
  apply write_text_inv in Hdir as (Hfs2 & _ & Hdir). rewrite parent_pjoin in Hdir.
  assert (Hkept : forall q, q <> d // "Chrome Recovery.html" ->
                           q <> d // "Chrome Bookmarks.html" -> fs3 !! q = fs1 !! q).
  { intros q Hq1 Hq2.
    assert (Hq : fs2 !! q = fs1 !! q) by (by apply (write_text_frame _ _ _ _ _ Hdashboard)).
    destruct (roots_truthy roots); [| by subst fs3].
    destruct Hexport as (nparts & _ & Hwrite).
    rewrite <- Hq. by apply (write_text_frame _ _ _ _ _ Hwrite). }
  assert (Hnames : forall q, basename q ∉ output_names -> fs3 !! q = fs1 !! q).
  { intros q Hq. apply Hkept; intros ->; apply Hq; rewrite basename_pjoin;
      [apply list_elem_of_here | apply list_elem_of_further, list_elem_of_here]. }
  assert (Hdash3 : fs3 !! (d // "Chrome Recovery.html")
                   = Some (Document (join newline parts))).
  { assert (H2 : fs2 !! (d // "Chrome Recovery.html")
                 = Some (Document (join newline parts)))
      by (subst fs2; apply lookup_insert_eq).
    destruct (roots_truthy roots); [| by subst fs3].
    destruct Hexport as (nparts & _ & Hwrite). rewrite <- H2.
    apply (write_text_frame _ _ _ _ _ Hwrite), dashboard_not_bookmarks. }
  assert (Hdir3 : is_dir fs3 d = true).
  { rewrite <- Hdir. apply is_dir_same, Hkept; apply pjoin_not_self. }
  assert (Hprofile : forall name, name ∈ profile_files ->
            fs3 !! (Path folder // name) = fs1 !! (Path folder // name)
            /\ fs1 !! (Path folder // name) = w_fs w !! (Path folder // name)).
  { intros name Hname.
    assert (Hnot : name <> "chrome_recovery_history_copy" /\ name ∉ output_names).
    { unfold profile_files, EXPECTED_FILES, SESSION_FILES, output_names in *.
      cbn [app] in Hname. rewrite !elem_of_cons, elem_of_nil in Hname.
      rewrite !elem_of_cons, elem_of_nil.
      destruct Hname as [-> | [-> | [-> | [-> | [-> | [-> | []]]]]]];
        split; try discriminate; intros [E | [E | []]]; discriminate E. }
    destruct Hnot as [Hcopy Hout]. split.
    - apply Hnames. by rewrite basename_pjoin.
    - unfold fs1. apply lookup_delete_ne. intros E.
      apply (f_equal basename) in E. rewrite basename_pjoin in E. done. }
  assert (Hexp : forall name, name ∈ EXPECTED_FILES -> name ∈ profile_files).
  { intros name Hname. unfold profile_files. apply elem_of_app. by left. }
  assert (Hses : forall name, name ∈ SESSION_FILES -> name ∈ profile_files).
  { intros name Hname. unfold profile_files. apply elem_of_app. by right. }
  assert (Hgone : fs3 !! tmp_path = None).
  { rewrite Hnames; [apply lookup_delete_eq |].
    unfold output_names. rewrite !elem_of_cons, elem_of_nil.
    intros [E | [E | []]]; discriminate E. }
  assert (Hdesk : desktop_of fs3 (w_home w) = d).
  { apply desktop_of_same, Hnames. rewrite basename_pjoin.
    unfold output_names. rewrite !elem_of_cons, elem_of_nil.
    intros [E | [E | []]]; discriminate E. }
  assert (Hok2 : (validate_profile fs3 (Path folder)).1 = true).
  { rewrite <- Hok. apply validate_profile_same. intros name Hname.
    destruct (Hprofile name (Hexp name Hname)) as [-> ->]. done. }
  assert (Hroots2 : extract_bookmarks fs3 (Path folder) = Ok roots).
  { rewrite <- Hroots. apply extract_bookmarks_same.
    destruct (Hprofile "Bookmarks") as [-> ->]; [| done].
    apply Hexp, list_elem_of_here. }
  assert (Hf2 : fs3 !! (Path folder // "History") = Some f).
  { destruct (Hprofile "History") as [-> ->]; [| done].
    apply Hexp, list_elem_of_further, list_elem_of_here. }
  assert (Hread2 : extract_history fs3 (Path folder) default_limit = (fs3, Ok history)).
  { rewrite (extract_history_on_copy fs3 (Path folder) default_limit f Hf2 Hfile)
      by (by rewrite Hgone).
    rewrite <- Hhistory. f_equal. by apply delete_id. }
  assert (Htabs2 : extract_tabs (w_importable w) fs3 (Path folder)
                   = extract_tabs (w_importable w) fs1 (Path folder)).
  { apply extract_tabs_same. intros name Hname.
    by destruct (Hprofile name (Hses name Hname)) as [-> _]. }
  assert (Hparts2 : dashboard_parts (extract_tabs (w_importable w) fs3 (Path folder))
                      roots history = Ok parts).
  { by rewrite Htabs2. }
  assert (Hdashboard2 : write_text fs3 (dashboard_path_of fs3 (w_home w))
                          (join newline parts) = Ok fs3).
  { unfold dashboard_path_of. rewrite Hdesk.
    apply write_text_again; [done | by rewrite parent_pjoin]. }
  assert (Hexport2 : if roots_truthy roots
                     then exists nparts,
                            netscape_parts roots = Ok nparts
                            /\ write_text fs3 (bookmarks_path_of fs3 (w_home w))
                                 (join newline nparts) = Ok fs3
                     else fs3 = fs3).
  { destruct (roots_truthy roots); [| done].
    destruct Hexport as (nparts & Hnparts & Hwrite).
    exists nparts. split; [done |].
    unfold bookmarks_path_of. rewrite Hdesk.
    apply write_text_again; [| by rewrite parent_pjoin].
    apply write_text_inv in Hwrite as (-> & _). apply lookup_insert_eq. }
  assert (Hafter : w_fs (after_run w) = fs3) by exact Hfs3.
  rewrite (main_writes (after_run w) folder roots fs3 fs3 fs3 history parts);
    try (cbn [after_run w_picked w_home w_importable w_fs]; rewrite ?Hfs3; done).
  rewrite Hmain. cbn [after_run w_home w_importable]. by rewrite Htabs2, Hdesk.
Qed.

Lemma main_twice_witness :
  r_status (main (world_of full_fs)) = Returned
  /\ main (after_run (world_of full_fs)) = main (world_of full_fs).
Proof.
  assert (Hend : r_status (main (world_of full_fs)) = Returned) by (vm_compute; reflexivity).
  split; [exact Hend | exact (main_twice (world_of full_fs) Hend)].
Defined.

(** ** The dialogs *)

Section Dialogs.

Variable c : ascii.
Hypothesis c_quoting : c = dquote \/ c = backslash.

Lemma occ_join_none (sep : string) (parts : list string) :
  occ c sep = 0%nat -> Forall (fun p => occ c p = 0%nat) parts ->
  occ c (join sep parts) = 0%nat.
Proof.
  intros Hsep Hparts.
  induction Hparts as [| p parts Hp Hparts IH]; [done |].
  destruct parts as [| q parts]; [exact Hp |].
  change (occ c (p +:+ sep +:+ join sep (q :: parts)) = 0%nat).
  by rewrite !occ_app, Hp, Hsep, IH.
Qed.

Lemma occ_uint_quoting (d : Decimal.uint) :
  occ c (NilEmpty.string_of_uint d) = 0%nat.
Proof.
  induction d as [| d IH | d IH | d IH | d IH | d IH | d IH | d IH | d IH | d IH | d IH];
    cbn [NilEmpty.string_of_uint occ]; [done | ..];
    rewrite IH, decide_False; try done;
    destruct c_quoting as [-> | ->]; discriminate.
Qed.

Lemma occ_str_nat_quoting (n : nat) : occ c (str_nat n) = 0%nat.
Proof.
  unfold str_nat, NilZero.string_of_uint.
  destruct (Nat.to_uint n) eqn:E; try (rewrite <- E; by apply occ_uint_quoting).
  cbn [occ]. rewrite decide_False; [done |].
  destruct c_quoting as [-> | ->]; discriminate.
Qed.

Lemma occ_literal (s : string) :
  occ dquote s = 0%nat -> occ backslash s = 0%nat -> occ c s = 0%nat.
Proof. by destruct c_quoting as [-> | ->]. Qed.

Lemma occ_not_a_profile_message (fs : fsys) (p : path) :
  occ c (not_a_profile_message (validate_profile fs p).2) = 0%nat.
Proof.
  unfold not_a_profile_message. rewrite !occ_app.
  rewrite occ_join_none; [by rewrite !occ_literal | by rewrite occ_literal |].
  unfold validate_profile. cbn [snd]. apply Forall_forall. intros name Hname.
  apply list_elem_of_filter in Hname as [_ Hname].
  unfold EXPECTED_FILES in Hname. rewrite !elem_of_cons, elem_of_nil in Hname.
  destruct Hname as [-> | [-> | []]]; by rewrite occ_literal.
Qed.

Lemma occ_summary_message (tabs : option (list tab_entry))
    (bookmarks_roots : option roots_map) (history : option (list history_entry)) :
  occ c (summary_message tabs bookmarks_roots history) = 0%nat.
Proof.
  unfold summary_message. cbv zeta.
  set (recovered := _ ++ _ ++ _).
  assert (Hrec : Forall (fun p => occ c p = 0%nat) recovered).
  { unfold recovered. rewrite !Forall_app. repeat split.
    - destruct (nonempty tabs); [| done].
      apply List.Forall_cons; [| done].
      by rewrite occ_app, occ_str_nat_quoting, occ_literal.
    - destruct (roots_truthy bookmarks_roots); [| done].
      apply List.Forall_cons; [| done]. by rewrite occ_literal.
    - destruct (nonempty history); [| done].
      apply List.Forall_cons; [| done].
      by rewrite occ_app, occ_str_nat_quoting, occ_literal. }
  rewrite !occ_app.
  assert (Hnote : occ c (if roots_truthy bookmarks_roots
                         then "Files saved to your Desktop."
                         else "Dashboard saved to your Desktop.") = 0%nat).
  { destruct (roots_truthy bookmarks_roots); by rewrite occ_literal. }
  rewrite Hnote.
  destruct recovered as [| r recovered'] eqn:E.
  - by rewrite !occ_literal.
  - rewrite !occ_app, occ_join_none; [by rewrite !occ_literal | by rewrite occ_literal |].
    exact Hrec.
Qed.

(** The dialogs of a run say nothing that takes part in the quoting. *)
Lemma main_alerts_plain (w : world) (title message icon : string) :
  Alert title message icon ∈ r_effects (main w) ->
  occ c title = 0%nat /\ occ c message = 0%nat /\ occ c icon = 0%nat.
Proof.
  destruct (w_picked w) as [folder |] eqn:Hpick;
    [| rewrite main_unpicked by auto; cbn; by rewrite elem_of_nil].
  destruct (decide (folder = "")) as [-> | Hfolder];
    [rewrite main_unpicked by auto; cbn; by rewrite elem_of_nil |].
  rewrite (main_picked w folder Hpick Hfolder).
  destruct (negb (validate_profile (w_fs w) (Path folder)).1).
  { cbn [stop r_effects]. rewrite list_elem_of_singleton. intros [= -> -> ->].
    split; [by rewrite occ_literal |].
    split; [apply occ_not_a_profile_message | by rewrite occ_literal]. }
  destruct (extract_bookmarks (w_fs w) (Path folder)) as [roots | e];
    [| cbn; by rewrite elem_of_nil].
  destruct (extract_history (w_fs w) (Path folder) default_limit)
    as [fs1 [history | e]]; [| cbn; by rewrite elem_of_nil].
  cbv zeta. unfold generate_dashboard, generate_importable_bookmarks, mbind, result_bind.
  destruct (dashboard_parts _ roots history) as [parts |];
    [| cbn; by rewrite elem_of_nil].
  assert (Hlast : forall fs3,
            Alert title message icon
            ∈ r_effects
                (stop fs3
                   [Alert "Recovery Complete"
                      (summary_message (extract_tabs (w_importable w) fs1 (Path folder))
                         roots history) "note";
                    Reveal (desktop_of fs1 (w_home w))] Returned) ->
            occ c title = 0%nat /\ occ c message = 0%nat /\ occ c icon = 0%nat).
  { intros fs3. cbn [stop r_effects]. rewrite !elem_of_cons, elem_of_nil.
    intros [[= -> -> ->] | [[=] | []]].
    split; [by rewrite occ_literal |].
    split; [apply occ_summary_message | by rewrite occ_literal]. }
  destruct (write_text fs1 _ _) as [fs2 | e]; [| cbn; by rewrite elem_of_nil].
  destruct (roots_truthy roots); [| apply Hlast].
  destruct (netscape_parts roots) as [nparts |]; [| cbn; by rewrite elem_of_nil].
  destruct (write_text fs2 _ _) as [fs3 | e];
    [apply Hlast | cbn; by rewrite elem_of_nil].
Qed.

End Dialogs.

(** X13: every dialog a run shows has a script in which the only double
    quotes are the eight of the template and in which there is no
    backslash: what the program puts into the title and the message (file
    names of its own, counts) can neither close a quoted text nor escape a
    closing quote. *)
Theorem alerts_well_quoted (w : world) (title message icon : string) :
  Alert title message icon ∈ r_effects (main w) ->
  occ dquote (show_alert_script title message icon) = 8%nat
  /\ occ backslash (show_alert_script title message icon) = 0%nat.
Proof.
  intros Hshown.
  destruct (main_alerts_plain dquote (or_introl eq_refl) w title message icon Hshown)
    as (Htitle & Hmessage & Hicon).
  destruct (main_alerts_plain backslash (or_intror eq_refl) w title message icon Hshown)
    as (Htitle' & Hmessage' & Hicon').
  unfold show_alert_script. rewrite !occ_app.
  rewrite Htitle, Hmessage, Hicon, Htitle', Hmessage', Hicon'.
  split; reflexivity.
Qed.

Lemma alerts_well_quoted_witness :
  occ dquote
    (show_alert_script "Not a Chrome Profile"
       (not_a_profile_message ["Bookmarks"; "History"]) "caution") = 8%nat.
Proof.
  apply (alerts_well_quoted (world_of ∅) "Not a Chrome Profile"
           (not_a_profile_message ["Bookmarks"; "History"]) "caution").
  vm_compute. apply list_elem_of_here.
Defined.

(** ** The notices of the dashboard *)

Section Notices.

Lemma filter_none {A : Type} (P : A -> bool) (l : list A) :
  Forall (fun x => P x = false) l -> List.filter P l = [].
Proof.
  induction 1 as [| x l Hx Hl IH]; [done |]. cbn [List.filter]. by rewrite Hx.
Qed.

Lemma filter_map_none {A : Type} (f : A -> string) (l : list A) :
  (forall x, is_notice (f x) = false) -> List.filter is_notice (map f l) = [].
Proof.
  intros Hf. apply filter_none, Forall_forall. intros part Hin.
  apply list_elem_of_In, List.in_map_iff in Hin as (x & <- & _). apply Hf.
Qed.

Lemma tab_item_no_notice (t : tab_entry) : is_notice (tab_item t) = false.
Proof. by destruct t as [url title]. Qed.

Lemma history_item_no_notice (h : history_entry) : is_notice (history_item h) = false.
Proof. by destruct h as [[url title] time_str]. Qed.

Lemma bookmark_line_no_notice (r : walk_record) : is_notice (bookmark_line r) = false.
Proof.
  destruct r as [[[depth node_type] name] url]. unfold bookmark_line.
  by destruct (decide (node_type = "folder")).
Qed.

Lemma nav_links_no_notice {A B : Type} (tabs : option A) (history : option B) :
  List.filter is_notice (nav_links tabs history) = [].
Proof. by destruct tabs, history. Qed.

Lemma tabs_section_notices (tabs : option (list tab_entry)) :
  List.filter is_notice (tabs_section tabs)
  = match tabs with
    | None => [tabs_unrecovered]
    | Some [] => [tabs_none_found]
    | Some (_ :: _) => []
    end.
Proof.
  destruct tabs as [[| t tabs] |]; [done | | done].
  unfold tabs_section. rewrite !List.filter_app.
  rewrite (filter_map_none tab_item) by apply tab_item_no_notice. done.
Qed.

Lemma history_section_notices (history : option (list history_entry)) :
  List.filter is_notice (history_section history)
  = match history with
    | None => [history_unrecovered]
    | Some [] => [history_none_found]
    | Some (_ :: _) => []
    end.
Proof.
  destruct history as [[| h history] |]; [done | | done].
  unfold history_section. rewrite !List.filter_app.
  rewrite (filter_map_none history_item) by apply history_item_no_notice. done.
Qed.

Lemma bookmarks_section_notices (roots : option roots_map) (bm : list string) :
  bookmarks_section roots = Ok bm ->
  List.filter is_notice bm
  = if roots_truthy roots then [] else [bookmarks_none_found].
Proof.
  unfold bookmarks_section.
  destruct roots as [[| r roots] |]; try (by intros [= <-]).
  destruct (walk_roots (r :: roots)) as [rs |]; [| done].
  intros [= <-].
  transitivity (List.filter is_notice (map bookmark_line rs)); [reflexivity |].
  apply filter_map_none, bookmark_line_no_notice.
Qed.

End Notices.

(** X14: the notices of a written dashboard, in order, are decided by the
    three results alone: for the tabs and for the history one notice when
    the feature could not be read and another when it was read and empty,
    for the bookmarks one notice when there are none (unreadable or empty
    alike), and no notice for a feature with entries; no title or address
    of the profile makes a part that reads as a notice. *)
Theorem dashboard_notices (tabs : option (list tab_entry))
    (bookmarks_roots : option roots_map) (history : option (list history_entry))
    (parts : list string) :
  dashboard_parts tabs bookmarks_roots history = Ok parts ->
  List.filter is_notice parts = notices_of tabs bookmarks_roots history.
Proof.
  intros Hparts.
  apply dashboard_parts_inv in Hparts as (bm & Hbm & ->).
  rewrite !List.filter_app.
  rewrite nav_links_no_notice, tabs_section_notices, history_section_notices.
  rewrite (bookmarks_section_notices _ _ Hbm).
  unfold notices_of. cbn [List.filter app]. 
  replace (is_notice dashboard_head) with false by reflexivity.
  replace (is_notice "</nav>") with false by reflexivity.
  replace (is_notice "</body></html>") with false by reflexivity.
  cbn [app]. by rewrite app_nil_r.
Qed.

Lemma dashboard_notices_witness :
  exists parts,
    dashboard_parts None None (Some []) = Ok parts
    /\ List.filter is_notice parts
       = [tabs_unrecovered; bookmarks_none_found; history_none_found].
Proof.
  eexists. split; [reflexivity |].
  apply (dashboard_notices None None (Some [])). reflexivity.
Defined.
